(** * Reassist: the research route and the [useResearch] hook

    A shallow embedding of

    - [frontend/app/api/research/route.ts]: the [POST] handler that calls the
      generative model and turns its text into a report object;
    - the [useResearch] hook (second, API-backed version): the session state,
      the progress interval and the asynchronous [startResearch];
    - [ResearchInput.handleSubmit], the form handler in front of the hook.

    JavaScript values are dynamically typed, so the embedding starts with a
    small model of the values, of truthiness and of property access, and an
    exception monad for [throw] / [try] / [catch]. *)

From Stdlib Require Import Floats Uint63 ZArith NArith Bool Ascii String List Lia.
From Stdlib Require Import DecimalString.
Import ListNotations.

#[local] Set Warnings "-register-all,-inexact-float".
#[local] Open Scope string_scope.

(* ================================================================= *)
(** ** JavaScript strings *)

(** A JavaScript string is a sequence of code units; here a [string], one
    [ascii] per code unit (code units above 255 are outside the model). *)
Module JsString.

(** White space and line terminators removed by [String.prototype.trim]:
    TAB, LF, VT, FF, CR, SP and NBSP. *)
Definition isWhiteSpace (c : ascii) : bool :=
  existsb (N.eqb (N_of_ascii c)) [9; 10; 11; 12; 13; 32; 160]%N.

Fixpoint trimStart (s : string) : string :=
  match s with
  | EmptyString => EmptyString
  | String c r => if isWhiteSpace c then trimStart r else s
  end.

Fixpoint trimEnd (s : string) : string :=
  match s with
  | EmptyString => EmptyString
  | String c r =>
      let r' := trimEnd r in
      if isWhiteSpace c && String.eqb r' "" then "" else String c r'
  end.

(** [s.trim()] *)
Definition trim (s : string) : string := trimEnd (trimStart s).

(** [s.startsWith(p)] *)
Definition startsWith (s p : string) : bool := String.prefix p s.

(** [s.endsWith(p)] *)
Definition endsWith (s p : string) : bool :=
  let n := String.length s in
  let m := String.length p in
  (m <=? n)%nat && String.eqb (String.substring (n - m) m s) p.

(** [s.slice(n)] for a literal [n >= 0] *)
Definition slice_from (s : string) (n : nat) : string :=
  String.substring n (String.length s - n) s.

(** [s.slice(0, -n)] for a literal [n > 0] *)
Definition slice_upto_last (s : string) (n : nat) : string :=
  String.substring 0 (String.length s - n) s.

(** [s.substring(0, n)] *)
Definition substring0 (s : string) (n : nat) : string :=
  String.substring 0 n s.

(** The decimal numeral of a non-negative integer, as a template literal
    prints an array index or a status code. *)
Definition of_nat (n : nat) : string :=
  NilEmpty.string_of_uint (Nat.to_uint n).

End JsString.

(* ================================================================= *)
(** ** JavaScript values and exceptions *)

Inductive ErrorKind := PlainError | TypeError | SyntaxError.

(** A thrown [Error] object: its constructor and its [message]. *)
Record exn := JsError { exn_kind : ErrorKind; exn_message : string }.

Inductive result (A : Type) :=
| Ok (a : A)
| Throw (e : exn).
Arguments Ok {A} a.
Arguments Throw {A} e.

Definition bind {A B} (m : result A) (k : A -> result B) : result B :=
  match m with
  | Ok a => k a
  | Throw e => Throw e
  end.

Declare Scope js_scope.
Delimit Scope js_scope with js.
Notation "x <- m ;; k" := (bind m (fun x => k))
  (at level 61, m at next level, right associativity) : js_scope.
#[local] Open Scope js_scope.

(** What JSON text (and the objects built from it) can hold, plus
    [undefined].  Numbers are binary64 floats; an object is the list of its
    own properties in insertion order. *)
Inductive value :=
| VUndefined
| VNull
| VBool (b : bool)
| VNum (n : float)
| VStr (s : string)
| VArr (elems : list value)
| VObj (fields : list (string * value)).

Module Js.

(** A non-negative integer as a number (exact below [2^53]). *)
Definition number_of_N (n : N) : float :=
  PrimFloat.of_uint63 (Uint63.of_Z (Z.of_N n)).

Definition number_of_nat (n : nat) : float := number_of_N (N.of_nat n).

(** ToBoolean: [undefined], [null], [false], [0], [-0], [NaN] and [""] are
    falsy, everything else (every array and object too) is truthy. *)
Definition truthy (v : value) : bool :=
  match v with
  | VUndefined | VNull => false
  | VBool b => b
  | VNum n => negb (PrimFloat.is_zero n || PrimFloat.is_nan n)
  | VStr s => negb (String.eqb s "")
  | VArr _ | VObj _ => true
  end.

(** [a || b] for a right operand without effects *)
Definition or (a b : value) : value := if truthy a then a else b.

(** [typeof v] *)
Definition typeof (v : value) : string :=
  match v with
  | VUndefined => "undefined"
  | VNull | VArr _ | VObj _ => "object"
  | VBool _ => "boolean"
  | VNum _ => "number"
  | VStr _ => "string"
  end.

(** The own property [k] of an object, [undefined] when there is none; of
    duplicate keys the last one counts, as after [JSON.parse]. *)
Definition own (fields : list (string * value)) (k : string) : value :=
  match List.find (fun kv => String.eqb (fst kv) k) (List.rev fields) with
  | Some kv => snd kv
  | None => VUndefined
  end.

(** [v.k] for the property names the sources use: none of them is
    inherited from a prototype except [length] of arrays and strings.
    Reading a property of [undefined] or [null] throws a TypeError. *)
Definition get (v : value) (k : string) : result value :=
  match v with
  | VUndefined | VNull =>
      Throw (JsError TypeError ("Cannot read properties of nullish value (reading '" ++ k ++ "')"))
  | VObj fields => Ok (own fields k)
  | VArr l =>
      Ok (if String.eqb k "length" then VNum (number_of_nat (List.length l)) else VUndefined)
  | VStr s =>
      Ok (if String.eqb k "length" then VNum (number_of_nat (String.length s)) else VUndefined)
  | VBool _ | VNum _ => Ok VUndefined
  end.

(** [v?.k] *)
Definition get_opt (v : value) (k : string) : result value :=
  match v with
  | VUndefined | VNull => Ok VUndefined
  | _ => get v k
  end.

(** [l.map((x, index) => f index x)], the callback may throw. *)
Fixpoint mapi_from {A B} (f : nat -> A -> result B) (i : nat) (l : list A)
  : result (list B) :=
  match l with
  | [] => Ok []
  | x :: rest =>
      y <- f i x ;;
      ys <- mapi_from f (S i) rest ;;
      Ok (y :: ys)
  end.

(** [v.map(f)]: only an array has a callable [map]; on any other value
    that [v || []] lets through the call throws a TypeError. *)
Definition map {B} (v : value) (f : nat -> value -> result B) : result (list B) :=
  match v with
  | VArr l => mapi_from f 0 l
  | _ => Throw (JsError TypeError "map is not a function")
  end.

(** [JSON.parse(JSON.stringify(v))], the passage of a value through a
    response body: [NaN] and the infinities arrive as [null], [-0] as [0],
    an [undefined] array element as [null], and a property whose value is
    [undefined] does not arrive (reading it gives [undefined] again). *)
Fixpoint viaJSON (v : value) : value :=
  match v with
  | VNum n =>
      if PrimFloat.is_nan n || PrimFloat.is_infinity n then VNull
      else if PrimFloat.is_zero n then VNum 0
      else v
  | VArr l =>
      VArr (List.map (fun x => match x with
                               | VUndefined => VNull
                               | _ => viaJSON x
                               end) l)
  | VObj fields =>
      VObj ((fix properties (fs : list (string * value)) :=
               match fs with
               | [] => []
               | (k, x) :: rest =>
                   match x with
                   | VUndefined => properties rest
                   | _ => (k, viaJSON x) :: properties rest
                   end
               end) fields)
  | VUndefined | VNull | VBool _ | VStr _ => v
  end.

Section ToString.

(** [Number.prototype.toString] of the platform. *)
Variable Number_toString : float -> string.

(** ToString, as [new Error(v)] applies it to its argument: an array
    joins its elements with commas, [null] and [undefined] elements
    printing as nothing; a plain object prints as [[object Object]]. *)
Fixpoint toString (v : value) : string :=
  match v with
  | VUndefined => "undefined"
  | VNull => "null"
  | VBool true => "true"
  | VBool false => "false"
  | VNum n => Number_toString n
  | VStr s => s
  | VArr l =>
      String.concat ","
        (List.map (fun x => match x with
                            | VUndefined | VNull => ""
                            | _ => toString x
                            end) l)
  | VObj _ => "[object Object]"
  end.

End ToString.

End Js.

Notation "a ||| b" := (Js.or a b) (at level 50, left associativity) : js_scope.

(* ================================================================= *)
(** ** A JSON reader *)

(** [JSON.parse] belongs to the platform, not to the repository: the route
    below takes it as a parameter and every general statement holds for any
    reader.  [JsonText.parse] is a reader of the JSON grammar (RFC 8259) by
    recursive descent, used where a statement is evaluated on a concrete
    text.  A numeral [m * 10^e] is converted with one rounding, which is the
    nearest float when [m < 2^53] and [|e| <= 22]; [\u] escapes above
    [\u00ff] are outside the model of strings. *)
Module JsonText.

Definition is_ws (c : ascii) : bool :=
  existsb (N.eqb (N_of_ascii c)) [9; 10; 13; 32]%N.

Fixpoint skip_ws (s : string) : string :=
  match s with
  | String c r => if is_ws c then skip_ws r else s
  | EmptyString => s
  end.

Definition digit (c : ascii) : option Z :=
  let n := N_of_ascii c in
  if (48 <=? n)%N && (n <=? 57)%N then Some (Z.of_N (n - 48)) else None.

Definition hex_digit (c : ascii) : option N :=
  let n := N_of_ascii c in
  if (48 <=? n)%N && (n <=? 57)%N then Some (n - 48)%N
  else if (65 <=? n)%N && (n <=? 70)%N then Some (n - 55)%N
  else if (97 <=? n)%N && (n <=? 102)%N then Some (n - 87)%N
  else None.

(** Reads a run of decimal digits: the number read after [acc], how many
    digits, the rest. *)
Fixpoint digits (s : string) (acc : Z) (count : nat) : Z * nat * string :=
  match s with
  | String c r =>
      match digit c with
      | Some d => digits r (10 * acc + d)%Z (S count)
      | None => (acc, count, s)
      end
  | EmptyString => (acc, count, s)
  end.

Fixpoint pow10 (n : nat) : float :=
  match n with
  | O => 1%float
  | S k => (10 * pow10 k)%float
  end.

Definition float_of_Z (m : Z) : float :=
  SF2Prim (SpecFloat.binary_normalize FloatOps.prec FloatOps.emax m 0 false).

Definition decimal (negative : bool) (m e : Z) : float :=
  let f := float_of_Z m in
  let f := if (0 <=? e)%Z then (f * pow10 (Z.to_nat e))%float
           else (f / pow10 (Z.to_nat (- e)))%float in
  if negative then (- f)%float else f.

(** A JSON numeral: optional minus sign, integer part without leading
    zero, optional fraction, optional exponent. *)
Definition number (s : string) : option (float * string) :=
  let '(negative, s) :=
    match s with String "-" r => (true, r) | _ => (false, s) end in
  let int_part :=
    match s with
    | String "0" r => Some (0%Z, r)
    | _ => match digits s 0 0 with
           | (_, O, _) => None
           | (i, _, r) => Some (i, r)
           end
    end in
  match int_part with
  | None => None
  | Some (i, s) =>
      let frac_part :=
        match s with
        | String "." r =>
            match digits r i 0 with
            | (_, O, _) => None
            | (m, k, r') => Some (m, k, r')
            end
        | _ => Some (i, O, s)
        end in
      match frac_part with
      | None => None
      | Some (m, k, s) =>
          let exp_part :=
            match s with
            | String c r =>
                if Ascii.eqb c "e" || Ascii.eqb c "E" then
                  let '(neg_e, r) :=
                    match r with
                    | String "-" r' => (true, r')
                    | String "+" r' => (false, r')
                    | _ => (false, r)
                    end in
                  match digits r 0 0 with
                  | (_, O, _) => None
                  | (e, _, r') => Some ((if neg_e then - e else e)%Z, r')
                  end
                else Some (0%Z, s)
            | EmptyString => Some (0%Z, s)
            end in
          match exp_part with
          | None => None
          | Some (e, s) => Some (decimal negative m (e - Z.of_nat k), s)
          end
      end
  end.

Definition dquote : ascii := ascii_of_N 34.
Definition backslash : ascii := ascii_of_N 92.

Definition unescape (e : ascii) : option ascii :=
  if Ascii.eqb e dquote then Some dquote
  else if Ascii.eqb e backslash then Some backslash
  else if Ascii.eqb e "/" then Some "/"%char
  else if Ascii.eqb e "b" then Some (ascii_of_N 8)
  else if Ascii.eqb e "f" then Some (ascii_of_N 12)
  else if Ascii.eqb e "n" then Some (ascii_of_N 10)
  else if Ascii.eqb e "r" then Some (ascii_of_N 13)
  else if Ascii.eqb e "t" then Some (ascii_of_N 9)
  else None.

(** The characters of a string literal after its opening quote. *)
Fixpoint string_body (s : string) : option (string * string) :=
  match s with
  | EmptyString => None
  | String c r =>
      if Ascii.eqb c dquote then Some ("", r)
      else if Ascii.eqb c backslash then
        match r with
        | String "u" (String a (String b (String h (String l r')))) =>
            match hex_digit a, hex_digit b, hex_digit h, hex_digit l, string_body r' with
            | Some 0%N, Some 0%N, Some h', Some l', Some (t, rest) =>
                Some (String (ascii_of_N (16 * h' + l')) t, rest)
            | _, _, _, _, _ => None
            end
        | String e r' =>
            match unescape e, string_body r' with
            | Some c', Some (t, rest) => Some (String c' t, rest)
            | _, _ => None
            end
        | EmptyString => None
        end
      else if (N_of_ascii c <? 32)%N then None
      else match string_body r with
           | Some (t, rest) => Some (String c t, rest)
           | None => None
           end
  end.

(** A value with the text after it; [elements] and [members] read the
    inside of an array and of an object.  The fuel bounds the number of
    nested calls, each of which has consumed a character. *)
Fixpoint value_at (fuel : nat) (s : string) : option (value * string) :=
  match fuel with
  | O => None
  | S fuel =>
      match skip_ws s with
      | EmptyString => None
      | String c r as s' =>
          if Ascii.eqb c "{" then
            match skip_ws r with
            | String "}" r' => Some (VObj [], r')
            | r' => match members fuel r' with
                    | Some (fs, rest) => Some (VObj fs, rest)
                    | None => None
                    end
            end
          else if Ascii.eqb c "[" then
            match skip_ws r with
            | String "]" r' => Some (VArr [], r')
            | r' => match elements fuel r' with
                    | Some (vs, rest) => Some (VArr vs, rest)
                    | None => None
                    end
            end
          else if Ascii.eqb c dquote then
            match string_body r with
            | Some (t, rest) => Some (VStr t, rest)
            | None => None
            end
          else if String.prefix "null" s' then Some (VNull, JsString.slice_from s' 4)
          else if String.prefix "true" s' then Some (VBool true, JsString.slice_from s' 4)
          else if String.prefix "false" s' then Some (VBool false, JsString.slice_from s' 5)
          else match number s' with
               | Some (n, rest) => Some (VNum n, rest)
               | None => None
               end
      end
  end
with elements (fuel : nat) (s : string) : option (list value * string) :=
  match fuel with
  | O => None
  | S fuel =>
      match value_at fuel s with
      | Some (v, r) =>
          match skip_ws r with
          | String "]" r' => Some ([v], r')
          | String "," r' =>
              match elements fuel r' with
              | Some (vs, rest) => Some (v :: vs, rest)
              | None => None
              end
          | _ => None
          end
      | None => None
      end
  end
with members (fuel : nat) (s : string) : option (list (string * value) * string) :=
  match fuel with
  | O => None
  | S fuel =>
      match skip_ws s with
      | String c r =>
          if Ascii.eqb c dquote then
            match string_body r with
            | Some (k, r') =>
                match skip_ws r' with
                | String ":" r'' =>
                    match value_at fuel r'' with
                    | Some (v, r3) =>
                        match skip_ws r3 with
                        | String "}" r4 => Some ([(k, v)], r4)
                        | String "," r4 =>
                            match members fuel r4 with
                            | Some (fs, rest) => Some ((k, v) :: fs, rest)
                            | None => None
                            end
                        | _ => None
                        end
                    | None => None
                    end
                | _ => None
                end
            | None => None
            end
          else None
      | EmptyString => None
      end
  end.

(** Writing aid for JSON texts in this file: every ['] stands for the
    double quote. *)
Fixpoint quoted (s : string) : string :=
  match s with
  | EmptyString => EmptyString
  | String c r => String (if Ascii.eqb c "'" then dquote else c) (quoted r)
  end.

(** The whole text must be one value between white space. *)
Definition parse (text : string) : result value :=
  match value_at (2 * String.length text + 2) text with
  | Some (v, r) =>
      match skip_ws r with
      | EmptyString => Ok v
      | _ => Throw (JsError SyntaxError "Unexpected non-whitespace character after JSON")
      end
  | None => Throw (JsError SyntaxError "Unexpected token in JSON")
  end.

End JsonText.

(* ================================================================= *)
(** ** The research route: [app/api/research/route.ts] *)

Module Route.

(** Values the handler draws from its environment while it runs:
    [crypto.randomUUID()] and the three [new Date().toISOString()]. *)
Record Env := {
  randomUUID : string;
  now_fallback : string;     (* lastUpdated of the fallback data *)
  now_metadata : string;     (* lastUpdated default of the report *)
  now_generated : string     (* generatedAt *)
}.

(** One entry of [depthConfigs] in [getResearchPrompt]. *)
Record DepthConfig := {
  dc_findings : string;
  dc_sources : string;
  dc_analysis : string
}.

(** One entry of [modelConfig]. *)
Record ModelConfig := { model : string; maxTokens : N }.

(** Looking a depth up in an object literal with the keys [quick],
    [standard] and [comprehensive], [|| table.standard] included.  The hook
    sends ["standard"] or the depth stored in the user's preferences; a
    depth that names a property inherited from [Object.prototype], or that
    is not a string, is outside the model and treated as unknown. *)
Definition by_depth {A} (quick standard comprehensive : A) (depth : value) : A :=
  match depth with
  | VStr d =>
      if String.eqb d "quick" then quick
      else if String.eqb d "comprehensive" then comprehensive
      else standard
  | _ => standard
  end.

Definition depthConfigs : value -> DepthConfig :=
  by_depth
    {| dc_findings := "4-6 key findings with 2-3 paragraphs each";
       dc_sources := "6-8 diverse sources";
       dc_analysis := "concise but comprehensive analysis" |}
    {| dc_findings := "6-10 detailed findings with 3-5 paragraphs each";
       dc_sources := "10-15 diverse sources from multiple categories";
       dc_analysis := "in-depth analysis with statistics, trends, and expert opinions" |}
    {| dc_findings := "10-15 extensive findings with 4-6 paragraphs each";
       dc_sources := "15-25 comprehensive sources across all categories";
       dc_analysis := "exhaustive analysis including historical context, current trends, future projections, and multiple expert viewpoints" |}.

Definition modelConfig : value -> ModelConfig :=
  by_depth
    {| model := "gemini-2.0-flash"; maxTokens := 4000 |}
    {| model := "gemini-2.0-flash"; maxTokens := 8000 |}
    {| model := "gemini-2.0-flash"; maxTokens := 16000 |}%N.

(** The one call [model.generateContent([systemPrompt, userPrompt])].  The
    system prompt is the fixed template of [getResearchPrompt] around the
    three texts of the depth's configuration; the user prompt is the fixed
    template around the question. *)
Record GenerateRequest := {
  req_model : string;
  req_maxOutputTokens : N;
  req_temperature : float;
  req_systemPrompt : DepthConfig;
  req_userPrompt : string
}.

(** A JSON response: its status and its body as the client reads it back. *)
Record HttpResponse := { status : nat; body : value }.

Record ApiSource := {
  as_id : string;
  as_title : value;
  as_url : value;
  as_description : value;
  as_reliability : value;
  as_type : value
}.

Record ApiStatistic := { st_value : value; st_context : value }.

Record ApiMetadata := {
  md_sourcesAnalyzed : value;
  md_confidenceLevel : value;
  md_topicComplexity : value;
  md_dataRecency : value;
  md_lastUpdated : value
}.

(** The object literal [report] of the handler. *)
Record ApiReport := {
  id : string;
  title : value;
  summary : value;
  findings : value;
  sources : list ApiSource;
  keyStatistics : list ApiStatistic;
  knowledgeGaps : value;
  followUpQuestions : value;
  qualityScore : value;
  researchMetadata : ApiMetadata;
  generatedAt : string
}.

(** *** Normalisation of the model's text (lines 174-250) *)

(** Lines 175-185: trim, drop a leading [```json] or [```] and a trailing
    [```], trim again. *)
Definition cleanResponse (responseContent : string) : string :=
  let c := JsString.trim responseContent in
  let c := if JsString.startsWith c "```json" then JsString.slice_from c 7 else c in
  let c := if JsString.startsWith c "```" then JsString.slice_from c 3 else c in
  let c := if JsString.endsWith c "```" then JsString.slice_upto_last c 3 else c in
  JsString.trim c.

(** Lines 193-209: the data built in the [catch] of [JSON.parse]. *)
Definition fallbackData (env : Env) (responseContent : string) : value :=
  VObj [ ("title", VStr "Research Findings");
         ("summary", VStr (JsString.substring0 responseContent 500));
         ("findings", VArr [VObj [("heading", VStr "Analysis");
                                  ("content", VStr responseContent)]]);
         ("sources", VArr []);
         ("keyStatistics", VArr []);
         ("knowledgeGaps", VArr []);
         ("followUpQuestions", VArr []);
         ("qualityScore", VNum 0.7);
         ("researchMetadata",
           VObj [ ("sourcesAnalyzed", VNum 0);
                  ("confidenceLevel", VStr "medium");
                  ("topicComplexity", VStr "medium");
                  ("dataRecency", VStr "Unknown");
                  ("lastUpdated", VStr (now_fallback env)) ]) ].

(** The callback of [sources.map] (lines 218-231). *)
Definition normalizeSource (index : nat) (source : value) : result ApiSource :=
  t <- Js.get source "title" ;;
  u <- Js.get source "url" ;;
  d <- Js.get source "description" ;;
  r <- Js.get source "reliability" ;;
  ty <- Js.get source "type" ;;
  Ok {| as_id := "source-" ++ JsString.of_nat (index + 1);
        as_title := t ||| VStr ("Source " ++ JsString.of_nat (index + 1));
        as_url := u ||| VStr "#";
        as_description := d ||| VStr "";
        as_reliability := r ||| VStr "medium";
        as_type := ty ||| VStr "news" |}.

(** The callback of [keyStatistics.map] (lines 232-238). *)
Definition normalizeStatistic (_ : nat) (stat : value) : result ApiStatistic :=
  v <- Js.get stat "value" ;;
  c <- Js.get stat "context" ;;
  Ok {| st_value := v ||| VStr ""; st_context := c ||| VStr "" |}.

(** Lines 213-250: "Ensure all required fields exist".  The properties are
    read in the order of the object literal, so the first read of a
    property of [null] is the one that throws. *)
Definition ensureFields (env : Env) (researchData : value) : result ApiReport :=
  t <- Js.get researchData "title" ;;
  s <- Js.get researchData "summary" ;;
  f <- Js.get researchData "findings" ;;
  srcs <- Js.get researchData "sources" ;;
  srcs' <- Js.map (srcs ||| VArr []) normalizeSource ;;
  stats <- Js.get researchData "keyStatistics" ;;
  stats' <- Js.map (stats ||| VArr []) normalizeStatistic ;;
  gaps <- Js.get researchData "knowledgeGaps" ;;
  fq <- Js.get researchData "followUpQuestions" ;;
  q <- Js.get researchData "qualityScore" ;;
  md <- Js.get researchData "researchMetadata" ;;
  md_sa <- Js.get_opt md "sourcesAnalyzed" ;;
  srcs_len <- Js.get_opt srcs "length" ;;
  md_cl <- Js.get_opt md "confidenceLevel" ;;
  md_tc <- Js.get_opt md "topicComplexity" ;;
  md_dr <- Js.get_opt md "dataRecency" ;;
  md_lu <- Js.get_opt md "lastUpdated" ;;
  Ok {| id := randomUUID env;
        title := t ||| VStr "Research Report";
        summary := s ||| VStr "";
        findings := f ||| VArr [];
        sources := srcs';
        keyStatistics := stats';
        knowledgeGaps := gaps ||| VArr [];
        followUpQuestions := fq ||| VArr [];
        qualityScore := q ||| VNum 0.75;
        researchMetadata :=
          {| md_sourcesAnalyzed := md_sa ||| srcs_len ||| VNum 0;
             md_confidenceLevel := md_cl ||| VStr "medium";
             md_topicComplexity := md_tc ||| VStr "medium";
             md_dataRecency := md_dr ||| VStr "Recent data available";
             md_lastUpdated := md_lu ||| VStr (now_metadata env) |};
        generatedAt := now_generated env |}.

Section WithParser.

(** [JSON.parse] of the platform: the parsed value, or a thrown
    SyntaxError. *)
Variable JSON_parse : string -> result value.

(** Lines 188-210: [try { JSON.parse } catch { fallback }]. *)
Definition parseOrFallback (env : Env) (responseContent : string) : value :=
  match JSON_parse responseContent with
  | Ok researchData => researchData
  | Throw _ => fallbackData env responseContent
  end.

(** Lines 174-250 as one function of the model's text. *)
Definition normalize (env : Env) (responseContent : string) : result ApiReport :=
  let cleaned := cleanResponse responseContent in
  ensureFields env (parseOrFallback env cleaned).

(** *** The handler *)

(** [NextResponse.json({ success: true, report })] as the client reads it
    back with [response.json()]: the strings the handler made arrive as
    they are, the values taken over from the parsed data arrive through
    JSON. *)
Definition source_to_value (s : ApiSource) : value :=
  VObj [ ("id", VStr (as_id s));
         ("title", Js.viaJSON (as_title s));
         ("url", Js.viaJSON (as_url s));
         ("description", Js.viaJSON (as_description s));
         ("reliability", Js.viaJSON (as_reliability s));
         ("type", Js.viaJSON (as_type s)) ].

Definition statistic_to_value (s : ApiStatistic) : value :=
  VObj [ ("value", Js.viaJSON (st_value s));
         ("context", Js.viaJSON (st_context s)) ].

Definition metadata_to_value (m : ApiMetadata) : value :=
  VObj [ ("sourcesAnalyzed", Js.viaJSON (md_sourcesAnalyzed m));
         ("confidenceLevel", Js.viaJSON (md_confidenceLevel m));
         ("topicComplexity", Js.viaJSON (md_topicComplexity m));
         ("dataRecency", Js.viaJSON (md_dataRecency m));
         ("lastUpdated", Js.viaJSON (md_lastUpdated m)) ].

Definition report_to_value (r : ApiReport) : value :=
  VObj [ ("id", VStr (id r));
         ("title", Js.viaJSON (title r));
         ("summary", Js.viaJSON (summary r));
         ("findings", Js.viaJSON (findings r));
         ("sources", VArr (List.map source_to_value (sources r)));
         ("keyStatistics", VArr (List.map statistic_to_value (keyStatistics r)));
         ("knowledgeGaps", Js.viaJSON (knowledgeGaps r));
         ("followUpQuestions", Js.viaJSON (followUpQuestions r));
         ("qualityScore", Js.viaJSON (qualityScore r));
         ("researchMetadata", metadata_to_value (researchMetadata r));
         ("generatedAt", VStr (generatedAt r)) ].

(** [!process.env.GEMINI_API_KEY]: the variable is unset or empty. *)
Definition missing (apiKey : option string) : bool :=
  match apiKey with
  | None => true
  | Some k => String.eqb k ""
  end.

(** The text of a value whose [typeof] is ["string"]. *)
Definition text_of (v : value) : string :=
  match v with
  | VStr s => s
  | _ => ""
  end.

(** The body of [try] in [POST].  The second component lists the calls
    made to the generative model, in order. *)
Definition tryPOST (apiKey : option string)
    (generateContent : GenerateRequest -> result string)
    (env : Env) (requestJson : result value)
  : result HttpResponse * list GenerateRequest :=
  match requestJson with
  | Throw e => (Throw e, [])
  | Ok requestBody =>
      (* const { question, searchDepth = 'standard' } = await request.json() *)
      match Js.get requestBody "question", Js.get requestBody "searchDepth" with
      | Throw e, _ | _, Throw e => (Throw e, [])
      | Ok question, Ok sd =>
          let searchDepth :=
            match sd with VUndefined => VStr "standard" | _ => sd end in
          if negb (Js.truthy question)
             || negb (String.eqb (Js.typeof question) "string")
          then
            (Ok {| status := 400;
                   body := VObj [("error", VStr "Question is required")] |}, [])
          else if missing apiKey then
            (Ok {| status := 503;
                   body := VObj [ ("error", VStr "API not configured");
                                  ("message", VStr "Please add GEMINI_API_KEY to your .env.local file") ] |},
             [])
          else
            let config := modelConfig searchDepth in
            let request :=
              {| req_model := model config;
                 req_maxOutputTokens := maxTokens config;
                 req_temperature := 0.7;
                 req_systemPrompt := depthConfigs searchDepth;
                 req_userPrompt := text_of question |} in
            (responseContent <- generateContent request ;;
             if String.eqb responseContent ""
             then Throw (JsError PlainError "No response from Gemini")
             else
               report <- normalize env responseContent ;;
               Ok {| status := 200;
                     body := VObj [ ("success", VBool true);
                                    ("report", report_to_value report) ] |},
             [request])
      end
  end.

(** [POST]: the [try] above and the [catch] that answers 500. *)
Definition POST (apiKey : option string)
    (generateContent : GenerateRequest -> result string)
    (env : Env) (requestJson : result value)
  : HttpResponse * list GenerateRequest :=
  match tryPOST apiKey generateContent env requestJson with
  | (Ok response, calls) => (response, calls)
  | (Throw error, calls) =>
      ({| status := 500;
          body := VObj [ ("error", VStr "Research failed");
                         ("message", VStr (exn_message error)) ] |},
       calls)
  end.

End WithParser.

End Route.

(* ================================================================= *)
(** ** The hook [useResearch] (API-backed version) *)

Module Phase.
(** [ResearchPhase] *)
Inductive t := idle | researching | completed | error.

Definition eqb (p q : t) : bool :=
  match p, q with
  | idle, idle | researching, researching
  | completed, completed | error, error => true
  | _, _ => false
  end.
End Phase.

Module Hook.

(** *** Types of [lib/types]

    Type annotations are erased at run time: a field that the hook copies
    from the response without looking at it holds a [value]. *)

Record ResearchQuestion := {
  q_id : string;
  text : string;
  q_timestamp : N
}.

Inductive UpdateType := info | search | analyze | synthesize.

Record ProgressUpdate := {
  pu_id : string;
  message : string;
  type : UpdateType;
  pu_timestamp : N;
  pu_sourcesAnalyzed : option nat      (* sourcesAnalyzed?: number *)
}.

Record Source := {
  src_id : float;
  src_title : value;
  src_url : value;
  src_publishedDate : value;
  src_author : value;
  src_type : value
}.

Record ReportSection := {
  sec_id : string;
  sec_title : value;
  sec_content : value;
  sec_citations : value
}.

Record ResearchReport := {
  rep_id : value;
  question : string;
  executiveSummary : value;
  sections : list ReportSection;
  sources : list Source;
  knowledgeGaps : value;
  generatedAt : value;                 (* the argument of [new Date(...)] *)
  researchDuration : nat
}.

Record ConversationEntry := {
  ce_id : string;
  ce_question : option ResearchQuestion;   (* prev.currentQuestion! *)
  ce_report : ResearchReport
}.

Record ResearchState := {
  phase : Phase.t;
  currentQuestion : option ResearchQuestion;
  progressUpdates : list ProgressUpdate;
  currentReport : option ResearchReport;
  conversationHistory : list ConversationEntry;
  error : option string;
  sourcesAnalyzed : nat
}.

Definition initialState : ResearchState :=
  {| phase := Phase.idle;
     currentQuestion := None;
     progressUpdates := [];
     currentReport := None;
     conversationHistory := [];
     error := None;
     sourcesAnalyzed := 0 |}.

Definition progressSteps : list (string * UpdateType) :=
  [ ("Analyzing your research question...", analyze);
    ("Searching for relevant information...", search);
    ("Evaluating source credibility...", analyze);
    ("Cross-referencing data points...", analyze);
    ("Synthesizing findings...", synthesize);
    ("Generating comprehensive report...", synthesize) ].

(** What the runtime hands to the code during one turn of the event loop:
    the results of the successive [generateId()] calls, the clock, the
    date of the day in ISO form and [Math.floor(Math.random() * 3)]. *)
Record Ambient := {
  generateId : nat -> string;
  now : N;
  today : string;
  random : nat
}.

(** The response that [fetch] resolves to: its status and the outcome of
    [response.json()] (the body is read in the turn in which the response
    arrives). *)
Record Response := { status : nat; json : result value }.

Definition ok (r : Response) : bool :=
  (200 <=? status r)%nat && (status r <=? 299)%nat.

(** *** One activation of [startResearch]

    [startResearch] is [async]: an activation runs until its next [await]
    and is resumed when the awaited promise settles.  [Point] names the
    [await] at which an activation is suspended, with the locals that are
    live there and not kept in [Invocation]. *)
Inductive Point :=
| AwaitCreateQuery                       (* createResearchQuery(user.id, questionText) *)
| AwaitStatusResearching                 (* updateQueryStatus(queryId, 'researching') *)
| AwaitPreferences                       (* getUserPreferences(user.id) *)
| AwaitFetch                             (* fetch('/api/research', ...) *)
| AwaitSave (report : ResearchReport)    (* saveToDatabase(queryId, report) *)
| AwaitStatusFailed (errorMessage : string)  (* updateQueryStatus(queryId, 'failed') *)
| Returned.

(** The locals of an activation; [progressIndex] and [sourcesCount] are the
    variables captured by its [showProgress] closure. *)
Record Invocation := {
  user : option string;                  (* user.id of the signed-in user *)
  questionText : string;
  queryId : option string;
  searchDepth : value;
  progressIndex : nat;
  sourcesCount : nat;
  point : Point
}.

(** The hook instance and what the event loop holds for it.  An interval
    is named by the index of the activation that created it. *)
Record World := {
  state : ResearchState;
  currentQueryId : option string;
  progressIntervalRef : option nat;      (* progressIntervalRef.current *)
  intervals : list nat;                  (* intervals set and not cleared *)
  invocations : list Invocation;         (* activations, oldest first *)
  requests : list value                  (* bodies posted to /api/research *)
}.

Definition initialWorld : World :=
  {| state := initialState;
     currentQueryId := None;
     progressIntervalRef := None;
     intervals := [];
     invocations := [];
     requests := [] |}.

(** *** State updates *)

Definition setState (f : ResearchState -> ResearchState) (w : World) : World :=
  {| state := f (state w);
     currentQueryId := currentQueryId w;
     progressIntervalRef := progressIntervalRef w;
     intervals := intervals w;
     invocations := invocations w;
     requests := requests w |}.

Definition setCurrentQueryId (q : option string) (w : World) : World :=
  {| state := state w;
     currentQueryId := q;
     progressIntervalRef := progressIntervalRef w;
     intervals := intervals w;
     invocations := invocations w;
     requests := requests w |}.

Fixpoint modify_nth {A} (i : nat) (f : A -> A) (l : list A) : list A :=
  match l, i with
  | [], _ => []
  | x :: r, O => f x :: r
  | x :: r, S j => x :: modify_nth j f r
  end.

(** Assignment to the locals of activation [i]. *)
Definition updateInvocation (i : nat) (f : Invocation -> Invocation) (w : World) : World :=
  {| state := state w;
     currentQueryId := currentQueryId w;
     progressIntervalRef := progressIntervalRef w;
     intervals := intervals w;
     invocations := modify_nth i f (invocations w);
     requests := requests w |}.

Definition setPoint (p : Point) (inv : Invocation) : Invocation :=
  {| user := user inv;
     questionText := questionText inv;
     queryId := queryId inv;
     searchDepth := searchDepth inv;
     progressIndex := progressIndex inv;
     sourcesCount := sourcesCount inv;
     point := p |}.

(** [clearProgress]: clear the interval held by the ref, if any, and empty
    the ref.  (A timer handle is truthy.) *)
Definition clearProgress (w : World) : World :=
  match progressIntervalRef w with
  | Some h =>
      {| state := state w;
         currentQueryId := currentQueryId w;
         progressIntervalRef := None;
         intervals := List.filter (fun h' => negb (h' =? h)%nat) (intervals w);
         invocations := invocations w;
         requests := requests w |}
  | None => w
  end.

(** [addProgressUpdate] *)
Definition addProgressUpdate (update : ProgressUpdate) : World -> World :=
  setState (fun prev =>
    {| phase := phase prev;
       currentQuestion := currentQuestion prev;
       progressUpdates := progressUpdates prev ++ [update];
       currentReport := currentReport prev;
       conversationHistory := conversationHistory prev;
       error := error prev;
       sourcesAnalyzed :=
         match pu_sourcesAnalyzed update with
         | Some n => n
         | None => sourcesAnalyzed prev
         end |}).

(** The closure [showProgress] of activation [i]; [k] is the rank of its
    [generateId()] call within the turn. *)
Definition showProgress (i : nat) (a : Ambient) (k : nat) (w : World) : World :=
  match nth_error (invocations w) i with
  | None => w
  | Some inv =>
      match nth_error progressSteps (progressIndex inv) with
      | None => w                        (* progressIndex >= progressSteps.length *)
      | Some (msg, ty) =>
          let sourcesCount' :=
            match ty with
            | analyze => sourcesCount inv + (random a mod 3 + 2)
            | _ => sourcesCount inv
            end in
          let w := addProgressUpdate
                     {| pu_id := generateId a k;
                        message := msg;
                        type := ty;
                        pu_timestamp := now a;
                        pu_sourcesAnalyzed := Some sourcesCount' |} w in
          updateInvocation i
            (fun inv =>
               {| user := user inv;
                  questionText := questionText inv;
                  queryId := queryId inv;
                  searchDepth := searchDepth inv;
                  progressIndex := S (progressIndex inv);
                  sourcesCount := sourcesCount';
                  point := point inv |}) w
      end
  end.

(** Lines 337-371 of activation [i]: the first progress message at once,
    the interval into the ref (whatever the ref held is overwritten, not
    cleared), then the request. *)
Definition beginProgressAndFetch (i : nat) (a : Ambient) (k : nat) (w : World) : World :=
  let w := showProgress i a k w in
  match nth_error (invocations w) i with
  | None => w
  | Some inv =>
      {| state := state w;
         currentQueryId := currentQueryId w;
         progressIntervalRef := Some i;
         intervals := intervals w ++ [i];
         invocations := modify_nth i (setPoint AwaitFetch) (invocations w);
         requests := requests w
                     ++ [VObj [ ("question", VStr (questionText inv));
                                ("searchDepth", searchDepth inv) ]] |}
  end.

(** [startResearch(questionText)] up to its first [await]. *)
Definition startResearch (u : option string) (questionText : string)
    (a : Ambient) (w : World) : World :=
  let w := clearProgress w in
  let question :=
    {| q_id := generateId a 0; text := questionText; q_timestamp := now a |} in
  let w := setState (fun prev =>
             {| phase := Phase.researching;
                currentQuestion := Some question;
                progressUpdates := [];
                currentReport := None;
                conversationHistory := conversationHistory prev;
                error := None;
                sourcesAnalyzed := 0 |}) w in
  let i := List.length (invocations w) in
  let w :=
    {| state := state w;
       currentQueryId := currentQueryId w;
       progressIntervalRef := progressIntervalRef w;
       intervals := intervals w;
       invocations := invocations w
                      ++ [ {| user := u;
                              questionText := questionText;
                              queryId := None;
                              searchDepth := VStr "standard";
                              progressIndex := 0;
                              sourcesCount := 0;
                              point := AwaitCreateQuery |} ];
       requests := requests w |} in
  match u with
  | Some _ => w                              (* await createResearchQuery(...) *)
  | None => beginProgressAndFetch i a 1 w
  end.

(** [submitFollowUp] *)
Definition submitFollowUp := startResearch.

(** [reset] *)
Definition reset (w : World) : World :=
  let w := clearProgress w in
  let w := setCurrentQueryId None w in
  setState (fun _ => initialState) w.

(** [setError] *)
Definition setError (e : string) (w : World) : World :=
  let w := clearProgress w in
  setState (fun prev =>
    {| phase := Phase.error;
       currentQuestion := currentQuestion prev;
       progressUpdates := progressUpdates prev;
       currentReport := currentReport prev;
       conversationHistory := conversationHistory prev;
       error := Some e;
       sourcesAnalyzed := sourcesAnalyzed prev |}) w.

(** *** From the response to the report (lines 375-407) *)

(** The callback of [sections.map] (lines 390-395). *)
Definition toSection (idx : nat) (section : value) : result ReportSection :=
  heading <- Js.get section "heading" ;;
  title <- Js.get section "title" ;;
  content <- Js.get section "content" ;;
  citations <- Js.get section "citations" ;;
  Ok {| sec_id := "section-" ++ JsString.of_nat (idx + 1);
        sec_title := heading ||| title ||| VStr ("Section " ++ JsString.of_nat (idx + 1));
        sec_content := content;
        sec_citations := citations ||| VArr [] |}.

(** The callback of [sources.map] (lines 396-403). *)
Definition toSource (a : Ambient) (idx : nat) (s : value) : result Source :=
  sid <- Js.get s "id" ;;
  title <- Js.get s "title" ;;
  url <- Js.get s "url" ;;
  publishedDate <- Js.get s "publishedDate" ;;
  author <- Js.get s "author" ;;
  ty <- Js.get s "type" ;;
  Ok {| src_id := match sid with
                  | VNum n => n              (* typeof s.id === 'number' *)
                  | _ => Js.number_of_nat (idx + 1)
                  end;
        src_title := title;
        src_url := url;
        src_publishedDate := publishedDate ||| VStr (today a);
        src_author := author;
        src_type := ty ||| VStr "article" |}.

(** Lines 386-407: the [ResearchReport] built from [data.report]. *)
Definition toReport (a : Ambient) (questionText : string) (report : value)
  : result ResearchReport :=
  rid <- Js.get report "id" ;;
  summary <- Js.get report "summary" ;;
  executiveSummary <- Js.get report "executiveSummary" ;;
  findings <- Js.get report "findings" ;;
  sections <- Js.get report "sections" ;;
  sections' <- Js.map (findings ||| sections ||| VArr []) toSection ;;
  sources <- Js.get report "sources" ;;
  sources' <- Js.map (sources ||| VArr []) (toSource a) ;;
  knowledgeGaps <- Js.get report "knowledgeGaps" ;;
  generatedAt <- Js.get report "generatedAt" ;;
  Ok {| rep_id := rid ||| VStr (generateId a 0);
        question := questionText;
        executiveSummary := summary ||| executiveSummary ||| VStr "";
        sections := sections';
        sources := sources';
        knowledgeGaps := knowledgeGaps ||| VArr [];
        generatedAt := generatedAt ||| VNum (Js.number_of_N (now a));
        researchDuration := 30 |}.

Section WithNumberToString.

Variable Number_toString : float -> string.

(** Lines 375-407: what the [try] block computes from the response,
    a report or a thrown error. *)
Definition receive (a : Ambient) (questionText : string) (response : Response)
  : result ResearchReport :=
  if negb (ok response) then
    (* await response.json().catch(() => ({})) *)
    let errorData := match json response with
                     | Ok v => v
                     | Throw _ => VObj []
                     end in
    m <- Js.get errorData "message" ;;
    Throw (JsError PlainError
             (Js.toString Number_toString
                (m ||| VStr ("API error: " ++ JsString.of_nat (status response)))))
  else
    data <- json response ;;
    success <- Js.get data "success" ;;
    report <- Js.get data "report" ;;
    if negb (Js.truthy success) || negb (Js.truthy report) then
      Throw (JsError PlainError "Invalid response from research API")
    else
      toReport a questionText report.

(** [user && queryId] *)
Definition persists (inv : Invocation) : bool :=
  match user inv, queryId inv with
  | Some _, Some q => negb (String.eqb q "")
  | _, _ => false
  end.

(** The state update of lines 414-428. *)
Definition complete (report : ResearchReport) (a : Ambient) (k : nat) : World -> World :=
  setState (fun prev =>
    let entry := {| ce_id := generateId a k;
                    ce_question := currentQuestion prev;
                    ce_report := report |} in
    {| phase := Phase.completed;
       currentQuestion := currentQuestion prev;
       progressUpdates := progressUpdates prev;
       currentReport := Some report;
       conversationHistory := conversationHistory prev ++ [entry];
       error := error prev;
       sourcesAnalyzed := List.length (sources report) |}).

(** The state update of lines 445-449. *)
Definition fail (errorMessage : string) : World -> World :=
  setState (fun prev =>
    {| phase := Phase.error;
       currentQuestion := currentQuestion prev;
       progressUpdates := progressUpdates prev;
       currentReport := currentReport prev;
       conversationHistory := conversationHistory prev;
       error := Some errorMessage;
       sourcesAnalyzed := sourcesAnalyzed prev |}).

(** The [catch] block (lines 430-450) up to its [await]. *)
Definition catch (i : nat) (inv : Invocation) (e : exn) (w : World) : World :=
  let w := clearProgress w in
  let errorMessage := exn_message e in    (* every thrown value is an Error *)
  if persists inv
  then updateInvocation i (setPoint (AwaitStatusFailed errorMessage)) w
  else updateInvocation i (setPoint Returned) (fail errorMessage w).

(** Lines 365-428 of activation [i], from the moment [fetch] settles. *)
Definition afterFetch (i : nat) (inv : Invocation) (r : result Response)
    (a : Ambient) (w : World) : World :=
  match r with
  | Throw e => catch i inv e w
  | Ok response =>
      let w := clearProgress w in
      match receive a (questionText inv) response with
      | Throw e => catch i inv e w
      | Ok report =>
          if persists inv
          then updateInvocation i (setPoint (AwaitSave report)) w
          else updateInvocation i (setPoint Returned) (complete report a 1 w)
      end
  end.

(** *** The event loop *)

(** How an awaited promise settles. *)
Inductive Settled :=
| QueryCreated (r : result string)       (* the id of the created query *)
| StatusResearching (r : result unit)
| Preferences (r : result value)
| Fetched (r : result Response)
| Saved                                  (* saveToDatabase catches its errors *)
| StatusFailed (r : result unit).

Definition setQueryId (q : string) (inv : Invocation) : Invocation :=
  {| user := user inv;
     questionText := questionText inv;
     queryId := Some q;
     searchDepth := searchDepth inv;
     progressIndex := progressIndex inv;
     sourcesCount := sourcesCount inv;
     point := AwaitStatusResearching |}.

Definition setSearchDepth (d : value) (inv : Invocation) : Invocation :=
  {| user := user inv;
     questionText := questionText inv;
     queryId := queryId inv;
     searchDepth := d;
     progressIndex := progressIndex inv;
     sourcesCount := sourcesCount inv;
     point := point inv |}.

(** Activation [i] continues after its pending [await] with outcome [r];
    an outcome that does not answer the pending [await] changes
    nothing. *)
Definition resume (i : nat) (r : Settled) (a : Ambient) (w : World) : World :=
  match nth_error (invocations w) i with
  | None => w
  | Some inv =>
      match point inv, r with
      | AwaitCreateQuery, QueryCreated (Ok q) =>
          setCurrentQueryId (Some q) (updateInvocation i (setQueryId q) w)
      | AwaitStatusResearching, StatusResearching (Ok _) =>
          updateInvocation i (setPoint AwaitPreferences) w
      | AwaitPreferences, Preferences (Ok prefs) =>
          let w :=
            match Js.get_opt prefs "default_search_depth" with
            | Ok d => if Js.truthy d
                      then updateInvocation i (setSearchDepth d) w
                      else w
            | Throw _ => w
            end in
          beginProgressAndFetch i a 0 w
      | AwaitCreateQuery, QueryCreated (Throw _)
      | AwaitStatusResearching, StatusResearching (Throw _)
      | AwaitPreferences, Preferences (Throw _) =>
          (* catch: console.error *)
          beginProgressAndFetch i a 0 w
      | AwaitFetch, Fetched r => afterFetch i inv r a w
      | AwaitSave report, Saved =>
          updateInvocation i (setPoint Returned) (complete report a 0 w)
      | AwaitStatusFailed errorMessage, StatusFailed _ =>
          updateInvocation i (setPoint Returned) (fail errorMessage w)
      | _, _ => w
      end
  end.

Inductive Event :=
| StartResearch (u : option string) (questionText : string)
| SubmitFollowUp (u : option string) (questionText : string)
| Reset
| SetError (e : string)
| IntervalFires (handle : nat)
| Settle (i : nat) (r : Settled).

(** One turn of the event loop.  An interval fires only while it is
    set. *)
Definition step (w : World) (ae : Ambient * Event) : World :=
  let (a, e) := ae in
  match e with
  | StartResearch u q => startResearch u q a w
  | SubmitFollowUp u q => submitFollowUp u q a w
  | Reset => reset w
  | SetError m => setError m w
  | IntervalFires h =>
      if List.existsb (Nat.eqb h) (intervals w) then showProgress h a 0 w else w
  | Settle i r => resume i r a w
  end.

Definition run (w : World) (trace : list (Ambient * Event)) : World :=
  List.fold_left step trace w.

(** *** The form in front of the hook: [ResearchInput.handleSubmit]

    [if (question.trim() && !isLoading) onSubmit(question.trim())], with
    [onSubmit = startResearch] as the page wires it. *)
Definition handleSubmit (isLoading : bool) (u : option string) (question : string)
    (a : Ambient) (w : World) : World :=
  if negb (String.eqb (JsString.trim question) "") && negb isLoading
  then startResearch u (JsString.trim question) a w
  else w.

End WithNumberToString.

End Hook.

(* ================================================================= *)
(** ** The simulated hook

    [useResearch] as the demonstration has it: no request is sent.  A
    research is a series of timers, one for each progress message and one
    for the completion, which takes its report from [findMatchingReport].
    The types are those of the hook above. *)

Module Simulation.

(** [progressMessages] of [lib/mock-research] *)
Definition progressMessages : list (string * Hook.UpdateType) :=
  [ ("Analyzing research question and formulating strategy...", Hook.info);
    ("Searching academic databases and industry reports...", Hook.search);
    ("Querying news sources and market research platforms...", Hook.search);
    ("Analyzing article from MIT Technology Review...", Hook.analyze);
    ("Processing data from Bloomberg Intelligence...", Hook.analyze);
    ("Extracting insights from industry white papers...", Hook.analyze);
    ("Cross-referencing findings across multiple sources...", Hook.analyze);
    ("Identifying key trends and patterns...", Hook.synthesize);
    ("Validating information accuracy and recency...", Hook.synthesize);
    ("Synthesizing insights into comprehensive report...", Hook.synthesize);
    ("Generating executive summary and recommendations...", Hook.synthesize) ].

(** What a timer set by [startResearch] calls: the closure that shows one
    progress message, or the completion. *)
Inductive Callback :=
| ShowMessage (msg : string * Hook.UpdateType)
| Complete.

(** A timer that is set: its handle, the activation of [startResearch]
    whose closure it calls, and the time at which it is due (ms). *)
Record Timeout := {
  handle : nat;
  owner : nat;
  callback : Callback;
  due : N
}.

(** The variables of an activation of [startResearch] that its closures
    capture. *)
Record Activation := {
  questionText : string;
  sourcesCount : nat
}.

(** The hook instance and the timers of the event loop. *)
Record World := {
  state : Hook.ResearchState;
  timeoutsRef : list nat;                (* timeoutsRef.current *)
  timeouts : list Timeout;               (* set, not yet fired or cleared, oldest first *)
  handles : nat;                         (* the handle of the next timer *)
  activations : list Activation          (* oldest first *)
}.

Definition initialWorld : World :=
  {| state := Hook.initialState;
     timeoutsRef := [];
     timeouts := [];
     handles := 0;
     activations := [] |}.

Definition setState (f : Hook.ResearchState -> Hook.ResearchState) (w : World) : World :=
  {| state := f (state w);
     timeoutsRef := timeoutsRef w;
     timeouts := timeouts w;
     handles := handles w;
     activations := activations w |}.

(** [clearTimeout(h)]; a timer that has fired leaves the same way. *)
Definition clearTimeout (h : nat) (w : World) : World :=
  {| state := state w;
     timeoutsRef := timeoutsRef w;
     timeouts := List.filter (fun t => negb (handle t =? h)%nat) (timeouts w);
     handles := handles w;
     activations := activations w |}.

(** [clearAllTimeouts] *)
Definition clearAllTimeouts (w : World) : World :=
  let w := List.fold_left (fun w h => clearTimeout h w) (timeoutsRef w) w in
  {| state := state w;
     timeoutsRef := [];
     timeouts := timeouts w;
     handles := handles w;
     activations := activations w |}.

(** [addProgressUpdate] *)
Definition addProgressUpdate (update : Hook.ProgressUpdate) : World -> World :=
  setState (fun prev =>
    {| Hook.phase := Hook.phase prev;
       Hook.currentQuestion := Hook.currentQuestion prev;
       Hook.progressUpdates := Hook.progressUpdates prev ++ [update];
       Hook.currentReport := Hook.currentReport prev;
       Hook.conversationHistory := Hook.conversationHistory prev;
       Hook.error := Hook.error prev;
       Hook.sourcesAnalyzed :=
         match Hook.pu_sourcesAnalyzed update with
         | Some n => n
         | None => Hook.sourcesAnalyzed prev
         end |}).

(** [const timeout = setTimeout(cb, delay); timeoutsRef.current.push(timeout)]
    in activation [i]. *)
Definition setTimeout_push (i : nat) (cb : Callback) (delay : N) (a : Hook.Ambient)
    (w : World) : World :=
  {| state := state w;
     timeoutsRef := timeoutsRef w ++ [handles w];
     timeouts := timeouts w
                 ++ [ {| handle := handles w;
                         owner := i;
                         callback := cb;
                         due := Hook.now a + delay |} ];
     handles := S (handles w);
     activations := activations w |}.

(** [l.forEach((x, index) => ...)] *)
Fixpoint forEach_from {A W} (f : A -> nat -> W -> W) (index : nat) (l : list A) (w : W) : W :=
  match l with
  | [] => w
  | x :: r => forEach_from f (S index) r (f x index w)
  end.

(** [startResearch(questionText)] *)
Definition startResearch (questionText : string) (a : Hook.Ambient) (w : World) : World :=
  let w := clearAllTimeouts w in
  let question :=
    {| Hook.q_id := Hook.generateId a 0;
       Hook.text := questionText;
       Hook.q_timestamp := Hook.now a |} in
  let w := setState (fun prev =>
             {| Hook.phase := Phase.researching;
                Hook.currentQuestion := Some question;
                Hook.progressUpdates := [];
                Hook.currentReport := None;
                Hook.conversationHistory := Hook.conversationHistory prev;
                Hook.error := None;
                Hook.sourcesAnalyzed := 0 |}) w in
  let i := List.length (activations w) in
  let w :=
    {| state := state w;
       timeoutsRef := timeoutsRef w;
       timeouts := timeouts w;
       handles := handles w;
       activations := activations w
                      ++ [ {| questionText := questionText;
                              sourcesCount := 0 |} ] |} in    (* let sourcesCount = 0 *)
  let w := forEach_from
             (fun msg index =>
                setTimeout_push i (ShowMessage msg) (N.of_nat (index + 1) * 2500) a)
             0 progressMessages w in
  setTimeout_push i Complete (N.of_nat (List.length progressMessages + 1) * 2500) a w.

(** [submitFollowUp] *)
Definition submitFollowUp := startResearch.

(** [reset] *)
Definition reset (w : World) : World :=
  let w := clearAllTimeouts w in
  setState (fun _ => Hook.initialState) w.

(** [setError] *)
Definition setError (e : string) (w : World) : World :=
  let w := clearAllTimeouts w in
  setState (fun prev =>
    {| Hook.phase := Phase.error;
       Hook.currentQuestion := Hook.currentQuestion prev;
       Hook.progressUpdates := Hook.progressUpdates prev;
       Hook.currentReport := Hook.currentReport prev;
       Hook.conversationHistory := Hook.conversationHistory prev;
       Hook.error := Some e;
       Hook.sourcesAnalyzed := Hook.sourcesAnalyzed prev |}) w.

Definition setSourcesCount (i n : nat) (w : World) : World :=
  {| state := state w;
     timeoutsRef := timeoutsRef w;
     timeouts := timeouts w;
     handles := handles w;
     activations :=
       Hook.modify_nth i
         (fun act => {| questionText := questionText act; sourcesCount := n |})
         (activations w) |}.

(** The timer that the event loop fires next: the one that is due first,
    and of two that are due together the one set first. *)
Fixpoint earliest (l : list Timeout) : option Timeout :=
  match l with
  | [] => None
  | t :: r =>
      match earliest r with
      | Some t' => if (due t' <? due t)%N then Some t' else Some t
      | None => Some t
      end
  end.

Section WithReports.

(** [findMatchingReport(question)] of [lib/mock-research], which also reads
    the clock and [Math.random]. *)
Variable findMatchingReport : Hook.Ambient -> string -> Hook.ResearchReport.

(** The body of the callback of timer [t]. *)
Definition call (t : Timeout) (a : Hook.Ambient) (w : World) : World :=
  match nth_error (activations w) (owner t) with
  | None => w
  | Some act =>
      match callback t with
      | ShowMessage (msg, ty) =>
          let sourcesCount' :=
            match ty with
            | Hook.analyze => sourcesCount act + (Hook.random a mod 3 + 1)
            | _ => sourcesCount act
            end in
          let w := setSourcesCount (owner t) sourcesCount' w in
          addProgressUpdate
            {| Hook.pu_id := Hook.generateId a 0;
               Hook.message := msg;
               Hook.type := ty;
               Hook.pu_timestamp := Hook.now a;
               Hook.pu_sourcesAnalyzed := Some sourcesCount' |} w
      | Complete =>
          let report := findMatchingReport a (questionText act) in
          setState (fun prev =>
            let entry := {| Hook.ce_id := Hook.generateId a 0;
                            Hook.ce_question := Hook.currentQuestion prev;
                            Hook.ce_report := report |} in
            {| Hook.phase := Phase.completed;
               Hook.currentQuestion := Hook.currentQuestion prev;
               Hook.progressUpdates := Hook.progressUpdates prev;
               Hook.currentReport := Some report;
               Hook.conversationHistory := Hook.conversationHistory prev ++ [entry];
               Hook.error := Hook.error prev;
               Hook.sourcesAnalyzed := Hook.sourcesAnalyzed prev |}) w
      end
  end.

Inductive Event :=
| StartResearch (questionText : string)
| SubmitFollowUp (questionText : string)
| Reset
| SetError (e : string)
| TimerFires.

(** One turn of the event loop.  [TimerFires]: the next timer, if one is
    set, fires and calls its callback. *)
Definition step (w : World) (ae : Hook.Ambient * Event) : World :=
  let (a, e) := ae in
  match e with
  | StartResearch q => startResearch q a w
  | SubmitFollowUp q => submitFollowUp q a w
  | Reset => reset w
  | SetError m => setError m w
  | TimerFires =>
      match earliest (timeouts w) with
      | None => w
      | Some t => call t a (clearTimeout (handle t) w)
      end
  end.

Definition run (w : World) (trace : list (Hook.Ambient * Event)) : World :=
  List.fold_left step trace w.

End WithReports.

End Simulation.

(* ================================================================= *)
(** ** The Supabase client of the browser

    [lib/supabase/client] and [getDb] of [lib/database].  A client is
    named by its rank among the clients that [createBrowserClient] has
    made. *)

Module Supabase.

Record Env := {
  NEXT_PUBLIC_SUPABASE_URL : option string;
  NEXT_PUBLIC_SUPABASE_ANON_KEY : option string
}.

(** [process.env.X || ''] *)
Definition or_empty (x : option string) : string :=
  match x with
  | Some s => s
  | None => ""
  end.

Definition supabaseUrl (env : Env) : string := or_empty (NEXT_PUBLIC_SUPABASE_URL env).
Definition supabaseAnonKey (env : Env) : string := or_empty (NEXT_PUBLIC_SUPABASE_ANON_KEY env).

(** [!!(supabaseUrl && supabaseAnonKey)] *)
Definition isSupabaseConfigured (env : Env) : bool :=
  negb (String.eqb (supabaseUrl env) "") && negb (String.eqb (supabaseAnonKey env) "").

(** The module variable [supabaseInstance] and the clients made so far. *)
Record State := {
  supabaseInstance : option nat;
  clients : nat
}.

Definition initialState : State := {| supabaseInstance := None; clients := 0 |}.

(** [createClient()]: [null] (after a warning) when Supabase is not
    configured, a new client otherwise. *)
Definition createClient (env : Env) (st : State) : option nat * State :=
  if negb (isSupabaseConfigured env)
  then (None, st)
  else (Some (clients st),
        {| supabaseInstance := supabaseInstance st; clients := S (clients st) |}).

(** [getSupabase()] *)
Definition getSupabase (env : Env) (st : State) : option nat * State :=
  if negb (isSupabaseConfigured env)
  then (None, st)
  else match supabaseInstance st with
       | None =>                          (* !supabaseInstance *)
           let (c, st) := createClient env st in
           (c, {| supabaseInstance := c; clients := clients st |})
       | Some c => (Some c, st)
       end.

(** [getDb()] of [lib/database] *)
Definition getDb (env : Env) (st : State) : result (option nat) * State :=
  if negb (isSupabaseConfigured env)
  then (Throw (JsError PlainError
                 "Supabase is not configured. Please set NEXT_PUBLIC_SUPABASE_URL and NEXT_PUBLIC_SUPABASE_ANON_KEY"),
        st)
  else let (c, st) := getSupabase env st in (Ok c, st).

(** The calls that the rest of the application makes, and what they
    return. *)
Inductive Call := CreateClient | GetSupabase | GetDb.

Inductive Returned :=
| Client (c : option nat)
| Db (r : result (option nat)).

Definition call (env : Env) (st : State) (c : Call) : Returned * State :=
  match c with
  | CreateClient => let (r, st) := createClient env st in (Client r, st)
  | GetSupabase => let (r, st) := getSupabase env st in (Client r, st)
  | GetDb => let (r, st) := getDb env st in (Db r, st)
  end.

(** The calls of a session in order, each with what it returned. *)
Fixpoint calls (env : Env) (st : State) (cs : list Call) : list (Call * Returned) * State :=
  match cs with
  | [] => ([], st)
  | c :: cs =>
      let (r, st) := call env st c in
      let (log, st) := calls env st cs in
      ((c, r) :: log, st)
  end.

End Supabase.

(* ================================================================= *)
(** ** Saving a report

    [saveResearchReport] of [lib/database].  The two inserts are the
    Supabase client's; what they answer is not this program's to decide. *)

Module Database.

(** The row inserted into [research_reports]. *)
Record ReportRow := {
  query_id : string;
  executive_summary : value;
  detailed_findings : list Hook.ReportSection;
  knowledge_gaps : value;
  research_duration : nat
}.

(** A row inserted into [citations]. *)
Record CitationRow := {
  report_id : value;
  citation_number : float;
  source_title : value;
  url : value;
  author : value;
  publication_date : value;
  source_type : value
}.

Inductive Insert :=
| IntoReports (row : ReportRow)
| IntoCitations (rows : list CitationRow).

(** What a query of the client resolves to: [{ data, error }]. *)
Record Answer := { data : value; error : option exn }.

Section WithSupabase.

(** [supabase.from('research_reports').insert(row).select().single()] *)
Variable insertReport : ReportRow -> Answer.

(** The [error] of [supabase.from('citations').insert(rows)] *)
Variable insertCitations : list CitationRow -> option exn.

(** [saveResearchReport(queryId, report)]: what it resolves to or rejects
    with, and the inserts it has made, in order. *)
Definition saveResearchReport (env : Supabase.Env) (st : Supabase.State)
    (queryId : string) (report : Hook.ResearchReport)
  : result value * list Insert * Supabase.State :=
  match Supabase.getDb env st with
  | (Throw e, st) => (Throw e, [], st)
  | (Ok None, st) =>
      (Throw (JsError TypeError "Cannot read properties of null (reading 'from')"), [], st)
  | (Ok (Some _), st) =>
      let row :=
        {| query_id := queryId;
           executive_summary := Hook.executiveSummary report;
           detailed_findings := Hook.sections report;
           knowledge_gaps := Hook.knowledgeGaps report;
           research_duration := Hook.researchDuration report |} in
      let answer := insertReport row in
      match error answer with
      | Some reportError => (Throw reportError, [IntoReports row], st)
      | None =>
          match Hook.sources report with
          | [] => (Ok (data answer), [IntoReports row], st)
          | _ :: _ =>                    (* report.sources.length > 0 *)
              match Js.get (data answer) "id" with     (* reportData.id *)
              | Throw e => (Throw e, [IntoReports row], st)
              | Ok reportId =>
                  let citations :=
                    List.map
                      (fun source =>
                         {| report_id := reportId;
                            citation_number := Hook.src_id source;
                            source_title := Hook.src_title source;
                            url := Hook.src_url source;
                            author := Hook.src_author source;
                            publication_date := Hook.src_publishedDate source;
                            source_type := Hook.src_type source |})
                      (Hook.sources report) in
                  match insertCitations citations with
                  | Some citationsError =>
                      (Throw citationsError, [IntoReports row; IntoCitations citations], st)
                  | None =>
                      (Ok (data answer), [IntoReports row; IntoCitations citations], st)
                  end
              end
          end
      end
  end.

End WithSupabase.

End Database.

(* ================================================================= *)
(** ** The exchange between the hook and the route *)

Module Wire.

(** The route's answer as [fetch] hands it to the hook: the status, and the
    body that [response.json()] reads back. *)
Definition delivered (r : Route.HttpResponse) : Hook.Response :=
  {| Hook.status := Route.status r; Hook.json := Ok (Route.body r) |}.

(** The body that activation [inv] posts (line 370). *)
Definition posted (inv : Hook.Invocation) : value :=
  VObj [ ("question", VStr (Hook.questionText inv));
         ("searchDepth", Hook.searchDepth inv) ].

End Wire.

(* ================================================================= *)
(** ** Concrete surroundings for closed statements *)

Module Sample.

(** [Number.prototype.toString] on [NaN], the infinities and the integral
    numbers below [2^53] in magnitude; the empty string stands for the
    numerals of the other numbers, which no statement below prints. *)
Definition Number_toString (n : float) : string :=
  match Prim2SF n with
  | S754_nan => "NaN"
  | S754_infinity false => "Infinity"
  | S754_infinity true => "-Infinity"
  | S754_zero _ => "0"
  | S754_finite negative m e =>
      let digits :=
        if (0 <=? e)%Z
        then Some (Z.pos m * 2 ^ e)%Z
        else if (Z.pos m mod 2 ^ (- e) =? 0)%Z
             then Some (Z.pos m / 2 ^ (- e))%Z
             else None in
      match digits with
      | Some z =>
          if (z <? 2 ^ 53)%Z
          then (if negative then "-" else "")
                 ++ NilZero.string_of_uint (N.to_uint (Z.to_N z))
          else ""
      | None => ""
      end
  end.

Definition env : Route.Env :=
  {| Route.randomUUID := "3f0c7a52-9d41-4c1e-8a77-5b2e6f1d0c99";
     Route.now_fallback := "2025-01-15T10:30:00.000Z";
     Route.now_metadata := "2025-01-15T10:30:00.001Z";
     Route.now_generated := "2025-01-15T10:30:00.002Z" |}.

Definition ambient (tag : string) : Hook.Ambient :=
  {| Hook.generateId := fun k => tag ++ "-" ++ JsString.of_nat k;
     Hook.now := 1736937000000%N;
     Hook.today := "2025-01-15";
     Hook.random := 2 |}.

(** A generative model that answers every request with [text]. *)
Definition answering (text : string) : Route.GenerateRequest -> result string :=
  fun _ => Ok text.

(** The body the hook posts for a question at the default depth. *)
Definition posted (q : string) : value :=
  VObj [("question", VStr q); ("searchDepth", VStr "standard")].

(** Texts a generative model may answer with. *)
Definition prose : string := "Sure! Solid-state batteries are promising...".

Definition fenced_prose : string :=
  "```Sure! Solid-state batteries are promising...```".

Definition zero_score : string := JsonText.quoted "{'qualityScore': 0}".

Definition sources_as_text : string :=
  JsonText.quoted "{'title': 'EV batteries', 'sources': 'none available'}".

Definition with_ids : string :=
  JsonText.quoted
    "{'title': 'EV batteries', 'sources': [{'id': 42, 'title': 'IEA outlook'}, {'id': 'b', 'url': 'https://example.org'}, {}]}".

(** The hook's view of the route answering the question "Topic A" with
    [with_ids]. *)
Definition answer_A : Hook.Response :=
  Wire.delivered
    (fst (Route.POST JsonText.parse (Some "key") (answering with_ids) env
            (Ok (posted "Topic A")))).

(** "Topic A" is asked, then "Topic B" before A's request has settled. *)
Definition superseded : list (Hook.Ambient * Hook.Event) :=
  [ (ambient "a", Hook.StartResearch None "Topic A");
    (ambient "b", Hook.StartResearch None "Topic B") ].

(** "Topic A" is asked, then the session is reset. *)
Definition abandoned : list (Hook.Ambient * Hook.Event) :=
  [ (ambient "a", Hook.StartResearch None "Topic A");
    (ambient "b", Hook.Reset) ].

(** A's request settles late, with a report or with a network failure. *)
Definition late_answer_A : Hook.Ambient * Hook.Event :=
  (ambient "c", Hook.Settle 0 (Hook.Fetched (Ok answer_A))).

Definition late_failure_A : Hook.Ambient * Hook.Event :=
  (ambient "c", Hook.Settle 0 (Hook.Fetched (Throw (JsError TypeError "Failed to fetch")))).

(** The worlds after these traces, and activation 0 as it waits for its
    request in them. *)
Definition world_asked_A : Hook.World :=
  Hook.run Number_toString Hook.initialWorld
    [ (ambient "a", Hook.StartResearch None "Topic A") ].

Definition world_superseded : Hook.World :=
  Hook.run Number_toString Hook.initialWorld superseded.

Definition world_abandoned : Hook.World :=
  Hook.run Number_toString Hook.initialWorld abandoned.

Definition activation_A : Hook.Invocation :=
  {| Hook.user := None;
     Hook.questionText := "Topic A";
     Hook.queryId := None;
     Hook.searchDepth := VStr "standard";
     Hook.progressIndex := 1;
     Hook.sourcesCount := 4;
     Hook.point := Hook.AwaitFetch |}.

(** A signed-in user asks "Topic A" and resets while the query record is
    still being created; the creation then fails and the interval of the
    activation fires once. *)
Definition reset_while_creating_query : list (Hook.Ambient * Hook.Event) :=
  [ (ambient "a", Hook.StartResearch (Some "user-1") "Topic A");
    (ambient "b", Hook.Reset) ].

Definition creation_settles : Hook.Ambient * Hook.Event :=
  (ambient "c",
   Hook.Settle 0 (Hook.QueryCreated (Throw (JsError PlainError "connection lost")))).

Definition tick_0 : Hook.Ambient * Hook.Event :=
  (ambient "d", Hook.IntervalFires 0).

(** A signed-in user asks "Topic A" and then "Topic B" while A's query
    record is being created; both creations fail, A's first; then the
    session is reset. *)
Definition overlapping_then_reset : list (Hook.Ambient * Hook.Event) :=
  [ (ambient "a", Hook.StartResearch (Some "user-1") "Topic A");
    (ambient "b", Hook.StartResearch (Some "user-1") "Topic B");
    (ambient "c",
     Hook.Settle 0 (Hook.QueryCreated (Throw (JsError PlainError "connection lost"))));
    (ambient "d",
     Hook.Settle 1 (Hook.QueryCreated (Throw (JsError PlainError "connection lost"))));
    (ambient "e", Hook.Reset) ].

(** "Topic A" is asked and answered, then "Topic B" is asked as a
    follow-up and answered. *)
Definition follow_up_answered : list (Hook.Ambient * Hook.Event) :=
  [ (ambient "a", Hook.StartResearch None "Topic A");
    (ambient "b", Hook.IntervalFires 0);
    (ambient "c", Hook.Settle 0 (Hook.Fetched (Ok answer_A)));
    (ambient "d", Hook.SubmitFollowUp None "Topic B");
    (ambient "e", Hook.Settle 1 (Hook.Fetched (Ok answer_A))) ].

(** A signed-out session before a reset, and what may still arrive after
    it. *)
Definition before_reset : list (Hook.Ambient * Hook.Event) :=
  [ (ambient "a", Hook.StartResearch None "Topic A");
    (ambient "b", Hook.IntervalFires 0) ].

Definition after_reset : list (Hook.Ambient * Hook.Event) :=
  [ (ambient "c", Hook.IntervalFires 0);
    late_answer_A;
    (ambient "d", Hook.IntervalFires 0) ].

Definition world_reset_while_creating_query : Hook.World :=
  Hook.run Number_toString Hook.initialWorld reset_while_creating_query.

Definition world_overlapping_then_reset : Hook.World :=
  Hook.run Number_toString Hook.initialWorld overlapping_then_reset.

(** [startResearch("")] by a signed-out user on the initial session. *)
Definition world_asked_nothing : Hook.World :=
  Hook.startResearch None "" (ambient "a") Hook.initialWorld.

(** The generative model is unreachable. *)
Definition failing (m : string) : Route.GenerateRequest -> result string :=
  fun _ => Throw (JsError PlainError m).

(** A signed-in user has asked "Topic A"; the query record is being
    created. *)
Definition world_creating_query : Hook.World :=
  Hook.startResearch (Some "user-1") "Topic A" (ambient "a") Hook.initialWorld.

Definition activation_creating_query : Hook.Invocation :=
  {| Hook.user := Some "user-1";
     Hook.questionText := "Topic A";
     Hook.queryId := None;
     Hook.searchDepth := VStr "standard";
     Hook.progressIndex := 0;
     Hook.sourcesCount := 0;
     Hook.point := Hook.AwaitCreateQuery |}.

(** A request body without [searchDepth]. *)
Definition posted_without_depth (q : string) : list (string * value) :=
  [("question", VStr q)].

(** A stand-in for [findMatchingReport]: a report without content for
    the question. *)
Definition bare_report (a : Hook.Ambient) (question : string) : Hook.ResearchReport :=
  {| Hook.rep_id := VStr ("report-" ++ Hook.generateId a 1);
     Hook.question := question;
     Hook.executiveSummary := VStr "";
     Hook.sections := [];
     Hook.sources := [];
     Hook.knowledgeGaps := VArr [];
     Hook.generatedAt := VNum (Js.number_of_N (Hook.now a));
     Hook.researchDuration := 30 |}.

(** A simulated research that has shown two of its messages, and the
    turns in which its other timers would have fired. *)
Definition simulated_before_reset : list (Hook.Ambient * Simulation.Event) :=
  [ (ambient "a", Simulation.StartResearch "Topic A");
    (ambient "b", Simulation.TimerFires);
    (ambient "c", Simulation.TimerFires) ].

Definition simulated_after_reset : list (Hook.Ambient * Simulation.Event) :=
  [ (ambient "d", Simulation.TimerFires);
    (ambient "e", Simulation.TimerFires) ].

(** A simulated research left alone until its last timer has fired. *)
Definition simulated_to_completion : list (Hook.Ambient * Simulation.Event) :=
  (ambient "a", Simulation.StartResearch "Topic A")
  :: List.repeat (ambient "t", Simulation.TimerFires) 12.

(** A configured Supabase, and a client whose inserts succeed. *)
Definition supabase_env : Supabase.Env :=
  {| Supabase.NEXT_PUBLIC_SUPABASE_URL := Some "https://project.supabase.co";
     Supabase.NEXT_PUBLIC_SUPABASE_ANON_KEY := Some "anon-key" |}.

Definition report_inserted (row : Database.ReportRow) : Database.Answer :=
  {| Database.data := VObj [("id", VStr "report-1");
                            ("query_id", VStr (Database.query_id row))];
     Database.error := None |}.

Definition citations_inserted (rows : list Database.CitationRow) : option exn := None.

(** Without an API key: the route's answer to the request that
    [startResearch("")] posts, and the session once that answer has
    arrived. *)
Definition refusal_of_nothing : Route.HttpResponse * list Route.GenerateRequest :=
  Route.POST JsonText.parse None (answering prose) env (Ok (posted "")).

Definition world_refused_nothing : Hook.World :=
  Hook.resume Number_toString 0
    (Hook.Fetched (Ok (Wire.delivered (fst refusal_of_nothing))))
    (ambient "c") world_asked_nothing.

End Sample.

(* ================================================================= *)
(** ** Vocabulary of the statements *)

Module Expected.

(** The report built when [JSON.parse] throws on the cleaned text. *)
Definition fallbackReport (env : Route.Env) (cleaned : string) : Route.ApiReport :=
  {| Route.id := Route.randomUUID env;
     Route.title := VStr "Research Findings";
     Route.summary := VStr (JsString.substring0 cleaned 500);
     Route.findings := VArr [VObj [("heading", VStr "Analysis");
                                   ("content", VStr cleaned)]];
     Route.sources := [];
     Route.keyStatistics := [];
     Route.knowledgeGaps := VArr [];
     Route.followUpQuestions := VArr [];
     Route.qualityScore := VNum 0.7;
     Route.researchMetadata :=
       {| Route.md_sourcesAnalyzed := VNum 0;
          Route.md_confidenceLevel := VStr "medium";
          Route.md_topicComplexity := VStr "medium";
          Route.md_dataRecency := VStr "Unknown";
          Route.md_lastUpdated :=
            VStr (Route.now_fallback env) ||| VStr (Route.now_metadata env) |};
     Route.generatedAt := Route.now_generated env |}.




(** [undefined] or [null] *)
Definition nullish (v : value) : bool :=
  match v with
  | VUndefined | VNull => true
  | _ => false
  end.

(** [v || []] is an array without [null] elements. *)
Definition listable (v : value) : bool :=
  match v ||| VArr [] with
  | VArr l => List.forallb (fun x => negb (nullish x)) l
  | _ => false
  end.

(** Parsed data on which "Ensure all required fields exist" goes through:
    not [null], and [sources] and [keyStatistics] absent (or falsy) or
    arrays without [null] elements. *)
Definition well_shaped (researchData : value) : bool :=
  negb (nullish researchData)
  && match Js.get researchData "sources", Js.get researchData "keyStatistics" with
     | Ok s, Ok k => listable s && listable k
     | _, _ => false
     end.

Definition newline : string := String (ascii_of_N 10) "".

(** A text between code fences, as generative models wrap their JSON:
    the opening fence with a language tag, a line break, the text, a line
    break, the closing fence. *)
Definition fenced (tag text : string) : string :=
  "```" ++ tag ++ newline ++ text ++ newline ++ "```".

(** The rejection of the persistence call that an activation suspended
    before its request is waiting for. *)
Definition rejection (p : Hook.Point) (e : exn) : Hook.Settled :=
  match p with
  | Hook.AwaitCreateQuery => Hook.QueryCreated (Throw e)
  | Hook.AwaitStatusResearching => Hook.StatusResearching (Throw e)
  | _ => Hook.Preferences (Throw e)
  end.

(** How many of the first [k] progress steps analyse a source. *)
Definition analyze_steps (k : nat) : nat :=
  List.length
    (List.filter (fun st => match snd st with Hook.analyze => true | _ => false end)
       (List.firstn k Hook.progressSteps)).

(** The closure variables of an activation: at most all six steps shown,
    and between 2 and 4 sources counted per analysing step shown. *)
Definition counted (inv : Hook.Invocation) : Prop :=
  Hook.progressIndex inv <= 6 /\
  2 * analyze_steps (Hook.progressIndex inv) <= Hook.sourcesCount inv /\
  Hook.sourcesCount inv <= 4 * analyze_steps (Hook.progressIndex inv).

(** A progress update whose source count is between 2 and 12. *)
Definition plausible (u : Hook.ProgressUpdate) : Prop :=
  exists n, Hook.pu_sourcesAnalyzed u = Some n /\ 2 <= n <= 12.

Definition counts_in_range (w : Hook.World) : Prop :=
  Forall counted (Hook.invocations w) /\
  Forall plausible (Hook.progressUpdates (Hook.state w)).

(** An activation suspended before it has shown its first progress
    message and set its interval. *)
Definition before_request (p : Hook.Point) : bool :=
  match p with
  | Hook.AwaitCreateQuery | Hook.AwaitStatusResearching | Hook.AwaitPreferences => true
  | _ => false
  end.

Definition none_before_request (w : Hook.World) : Prop :=
  forall j inv,
    nth_error (Hook.invocations w) j = Some inv ->
    before_request (Hook.point inv) = false.

(** Every interval that is set is the one the ref holds, and no activation
    is still to set one. *)
Definition tidy (w : Hook.World) : Prop :=
  (forall h, In h (Hook.intervals w) -> Hook.progressIntervalRef w = Some h) /\
  none_before_request w.

(** No interval is set, none is still to be set, and no progress is shown. *)
Definition quiet (w : Hook.World) : Prop :=
  Hook.intervals w = [] /\
  none_before_request w /\
  Hook.progressUpdates (Hook.state w) = [].

(** [startResearch] and [submitFollowUp] are called without a signed-in
    user. *)
Definition signed_out (e : Hook.Event) : Prop :=
  match e with
  | Hook.StartResearch u _ | Hook.SubmitFollowUp u _ => u = None
  | _ => True
  end.

Definition starts_research (e : Hook.Event) : bool :=
  match e with
  | Hook.StartResearch _ _ | Hook.SubmitFollowUp _ _ => true
  | _ => false
  end.

(** What a progress update shows: its message and its type. *)
Definition shown (u : Hook.ProgressUpdate) : string * Hook.UpdateType :=
  (Hook.message u, Hook.type u).

(** The progress on display is the first [k] steps of the script, and the
    activation of every interval that is set has shown just these. *)
Definition scripted (w : Hook.World) : Prop :=
  exists k,
    List.map shown (Hook.progressUpdates (Hook.state w))
    = List.firstn k Hook.progressSteps /\
    forall h inv,
      In h (Hook.intervals w) ->
      nth_error (Hook.invocations w) h = Some inv ->
      Hook.progressIndex inv = k.

(** An activation that has posted its request. *)
Definition past_request (inv : Hook.Invocation) : bool :=
  negb (before_request (Hook.point inv)).

(** The number of activations that have posted their request. *)
Definition requesting (w : Hook.World) : nat :=
  List.length (List.filter past_request (Hook.invocations w)).

(** The number of calls of [startResearch] and [submitFollowUp] in a
    trace. *)
Definition starts_in (trace : list (Hook.Ambient * Hook.Event)) : nat :=
  List.length (List.filter (fun ae => starts_research (snd ae)) trace).

(** As many requests have been posted as activations are past their
    request. *)
Definition balanced (w : Hook.World) : Prop :=
  List.length (Hook.requests w) = requesting w.

(** *** What is asked and what is posted *)

(** The questions with which research is started in a trace, in order. *)
Fixpoint asked (trace : list (Hook.Ambient * Hook.Event)) : list string :=
  match trace with
  | [] => []
  | (_, Hook.StartResearch _ q) :: rest
  | (_, Hook.SubmitFollowUp _ q) :: rest => q :: asked rest
  | _ :: rest => asked rest
  end.

(** The request for a question at the standard depth. *)
Definition standard_request (q : string) : value :=
  VObj [("question", VStr q); ("searchDepth", VStr "standard")].

(** *** Calls made in turn *)

(** A call of the hook is made in turn when no research is under way:
    [startResearch], [submitFollowUp], [reset] and [setError] are called
    only while the phase is not researching (while [isResearching] is
    false).  Timers fire and promises settle when they do. *)
Definition in_turn (w : Hook.World) (e : Hook.Event) : Prop :=
  match e with
  | Hook.StartResearch _ _ | Hook.SubmitFollowUp _ _ | Hook.Reset | Hook.SetError _ =>
      Hook.phase (Hook.state w) <> Phase.researching
  | Hook.IntervalFires _ | Hook.Settle _ _ => True
  end.

(** A session in which every call of the hook is made in turn. *)
Fixpoint taking_turns (Number_toString : float -> string) (w : Hook.World)
    (trace : list (Hook.Ambient * Hook.Event)) : Prop :=
  match trace with
  | [] => True
  | ae :: rest =>
      in_turn w (snd ae) /\
      taking_turns Number_toString (Hook.step Number_toString w ae) rest
  end.

(** An activation of [startResearch] that has returned. *)
Definition finished (inv : Hook.Invocation) : Prop :=
  Hook.point inv = Hook.Returned.

(** The report on display is a report on the question on display. *)
Definition matches_question (s : Hook.ResearchState) : Prop :=
  forall r,
    Hook.currentReport s = Some r ->
    exists q, Hook.currentQuestion s = Some q /\ Hook.question r = Hook.text q.

(** What an activation carries across its last [await]: a report on its
    own question, and no interval. *)
Definition carried (w : Hook.World) (inv : Hook.Invocation) : Prop :=
  match Hook.point inv with
  | Hook.AwaitSave r =>
      Hook.question r = Hook.questionText inv /\ Hook.intervals w = []
  | Hook.AwaitStatusFailed _ => Hook.intervals w = []
  | _ => True
  end.

(** No research is under way: every activation has returned and no
    interval is set. *)
Definition between_researches (w : Hook.World) : Prop :=
  Hook.phase (Hook.state w) <> Phase.researching /\
  Forall finished (Hook.invocations w) /\
  Hook.intervals w = [].

(** One research is under way: that of the question on display, run by the
    latest activation, which holds the only interval. *)
Definition researching_one (w : Hook.World) : Prop :=
  Hook.phase (Hook.state w) = Phase.researching /\
  Hook.currentReport (Hook.state w) = None /\
  exists done inv q,
    Hook.invocations w = (done ++ [inv])%list /\
    Forall finished done /\
    Hook.currentQuestion (Hook.state w) = Some q /\
    Hook.text q = Hook.questionText inv /\
    (forall h, In h (Hook.intervals w) ->
               h = List.length done /\ Hook.progressIntervalRef w = Some h) /\
    carried w inv.

Definition one_at_a_time (w : Hook.World) : Prop :=
  matches_question (Hook.state w) /\
  (between_researches w \/ researching_one w).

(** *** The simulated hook *)

Definition is_analyze (m : string * Hook.UpdateType) : bool :=
  match snd m with
  | Hook.analyze => true
  | _ => false
  end.

(** How many of the first [k] simulated progress messages analyse a
    source. *)
Definition analyze_shown (k : nat) : nat :=
  List.length (List.filter is_analyze (List.firstn k Simulation.progressMessages)).

Fixpoint message_timers (i h0 : nat) (t0 : N) (index : nat)
    (l : list (string * Hook.UpdateType)) : list Simulation.Timeout :=
  match l with
  | [] => []
  | msg :: r =>
      {| Simulation.handle := index + h0;
         Simulation.owner := i;
         Simulation.callback := Simulation.ShowMessage msg;
         Simulation.due := t0 + N.of_nat (index + 1) * 2500 |}
      :: message_timers i h0 t0 (S index) r
  end.

(** The timers of a research started at time [t0] by activation [i], when
    [h0] is the first free handle: a message every 2.5 seconds, then the
    completion. *)
Definition research_timers (i h0 : nat) (t0 : N) : list Simulation.Timeout :=
  (message_timers i h0 t0 0 Simulation.progressMessages
   ++ [ {| Simulation.handle := 11 + h0;
           Simulation.owner := i;
           Simulation.callback := Simulation.Complete;
           Simulation.due := t0 + 30000 |} ])%list.

(** Every timer that is set is in [timeoutsRef.current]. *)
Definition kept (w : Simulation.World) : Prop :=
  forall t, In t (Simulation.timeouts w) -> In (Simulation.handle t) (Simulation.timeoutsRef w).

(** The report answers the question: it is what [findMatchingReport]
    gave for the text of the question. *)
Definition answers (findMatchingReport : Hook.Ambient -> string -> Hook.ResearchReport)
    (q : option Hook.ResearchQuestion) (r : Hook.ResearchReport) : Prop :=
  exists a question,
    q = Some question /\ r = findMatchingReport a (Hook.text question).

(** The report on display answers the question on display, and every
    entry of the history pairs a question with its answer. *)
Definition answered (findMatchingReport : Hook.Ambient -> string -> Hook.ResearchReport)
    (s : Hook.ResearchState) : Prop :=
  (forall r, Hook.currentReport s = Some r ->
             answers findMatchingReport (Hook.currentQuestion s) r) /\
  Forall (fun e => answers findMatchingReport (Hook.ce_question e) (Hook.ce_report e))
    (Hook.conversationHistory s).

(** The research of the question on display is under way: its first [k]
    messages are shown and the timers of the others and of the completion
    are set, and no other timer. *)
Definition under_way (w : Simulation.World) (k : nat) : Prop :=
  exists i act q h0 t0,
    Simulation.timeouts w = List.skipn k (research_timers i h0 t0) /\
    nth_error (Simulation.activations w) i = Some act /\
    Hook.currentQuestion (Simulation.state w) = Some q /\
    Hook.text q = Simulation.questionText act /\
    Hook.phase (Simulation.state w) = Phase.researching /\
    List.map shown (Hook.progressUpdates (Simulation.state w))
    = List.firstn k Simulation.progressMessages /\
    Hook.sourcesAnalyzed (Simulation.state w) = Simulation.sourcesCount act /\
    analyze_shown k <= Simulation.sourcesCount act <= 3 * analyze_shown k.

(** No timer is set; the messages on display are the first of the list,
    and all of them with 4 to 12 sources counted if the research is
    completed. *)
Definition at_rest (w : Simulation.World) : Prop :=
  Simulation.timeouts w = [] /\
  (exists k, List.map shown (Hook.progressUpdates (Simulation.state w))
             = List.firstn k Simulation.progressMessages) /\
  (Hook.phase (Simulation.state w) = Phase.completed ->
   List.map shown (Hook.progressUpdates (Simulation.state w))
   = Simulation.progressMessages /\
   4 <= Hook.sourcesAnalyzed (Simulation.state w) <= 12).

Definition on_schedule (findMatchingReport : Hook.Ambient -> string -> Hook.ResearchReport)
    (w : Simulation.World) : Prop :=
  kept w /\
  answered findMatchingReport (Simulation.state w) /\
  ((exists k, k < 12 /\ under_way w k) \/ at_rest w).

(** *** The Supabase client *)

(** What a call returned is the client [c], for the calls that hand out
    the shared client. *)
Definition hands_out (c : option nat) (cr : Supabase.Call * Supabase.Returned) : Prop :=
  match cr with
  | (Supabase.GetSupabase, r) => r = Supabase.Client c
  | (Supabase.GetDb, Supabase.Db (Ok r)) => r = c
  | _ => True
  end.

Definition is_createClient (c : Supabase.Call) : bool :=
  match c with
  | Supabase.CreateClient => true
  | _ => false
  end.

End Expected.

(* ================================================================= *)
(** * Properties *)

(** ** Reasoning in the exception monad *)

Lemma bind_Ok {A B} (m : result A) (k : A -> result B) (b : B) :
  bind m k = Ok b -> exists a, m = Ok a /\ k a = Ok b.
Proof.
  destruct m as [a|e]; simpl; intros H.
  - exists a. split; [reflexivity | exact H].
  - discriminate H.
Qed.

(** Splits a hypothesis [x <- m ;; k = Ok b] into [m = Ok x] and the rest,
    as long as there is a bind at its head. *)
Ltac inv_bind H :=
  repeat match type of H with
         | bind _ _ = Ok _ =>
             let x := fresh "x" in
             let E := fresh "E" in
             apply bind_Ok in H; destruct H as (x & E & H)
         end.


Lemma or_string_empty (s : string) : VStr s ||| VStr "" = VStr s.
Proof.
  unfold Js.or. simpl. destruct (String.eqb_spec s ""); simpl; congruence.
Qed.

(** [map] with index: the result has the length of the array and its
    [k]-th element comes from the [k]-th element with index [i + k]. *)
Lemma mapi_from_spec {A B} (f : nat -> A -> result B) :
  forall l i l',
    Js.mapi_from f i l = Ok l' ->
    List.length l' = List.length l /\
    forall k y, nth_error l' k = Some y ->
                exists x, nth_error l k = Some x /\ f (i + k) x = Ok y.
Proof.
  induction l as [|x l IH]; intros i l' H; simpl in H.
  - injection H as <-. split; [reflexivity|]. intros [|k] y Hk; discriminate Hk.
  - inv_bind H. injection H as <-.
    destruct (IH _ _ E0) as [Hlen Hnth]. split; [simpl; congruence|].
    intros [|k] y Hk; simpl in Hk.
    + injection Hk as <-. exists x. rewrite Nat.add_0_r. split; [reflexivity|assumption].
    + destruct (Hnth k y Hk) as (x' & Hx' & Hf). exists x'. split; [assumption|].
      rewrite Nat.add_succ_r. exact Hf.
Qed.

Lemma map_array {B} (v : value) (f : nat -> value -> result B) (l' : list B) :
  Js.map v f = Ok l' -> exists l, v = VArr l /\ Js.mapi_from f 0 l = Ok l'.
Proof.
  destruct v; simpl; intros H; try discriminate H.
  eexists. split; [reflexivity | exact H].
Qed.

(** ** The report normaliser *)

Section RouteFacts.

Variable JSON_parse : string -> result value.

Lemma ensureFields_fallback (env : Route.Env) (c : string) :
  Route.ensureFields env (Route.fallbackData env c) = Ok (Expected.fallbackReport env c).
Proof.
  unfold Route.fallbackData, Expected.fallbackReport.
  generalize (JsString.substring0 c 500) as summ. intros summ.
  unfold Route.ensureFields. cbn.
  rewrite or_string_empty. reflexivity.
Qed.

Lemma normalize_fallback (env : Route.Env) (raw : string) (e : exn) :
  JSON_parse (Route.cleanResponse raw) = Throw e ->
  Route.normalize JSON_parse env raw
  = Ok (Expected.fallbackReport env (Route.cleanResponse raw)).
Proof.
  intros H. unfold Route.normalize, Route.parseOrFallback. rewrite H.
  apply ensureFields_fallback.
Qed.

End RouteFacts.

(** *** Parse failure *)

(** C4 (as amended).  When [JSON.parse] throws on the cleaned text (the
    model's text trimmed and stripped of its code fences), the report is the
    single-section fallback built from that cleaned text: title "Research
    Findings", summary the first 500 characters of the cleaned text, one
    finding headed "Analysis" whose content is the whole cleaned text, no
    sources, no knowledge gaps, quality score 0.7. *)
Theorem parse_failure_gives_fallback_of_cleaned_text :
  forall (JSON_parse : string -> result value) env raw e,
    JSON_parse (Route.cleanResponse raw) = Throw e ->
    exists r,
      Route.normalize JSON_parse env raw = Ok r /\
      Route.title r = VStr "Research Findings" /\
      Route.summary r = VStr (JsString.substring0 (Route.cleanResponse raw) 500) /\
      Route.findings r
      = VArr [VObj [("heading", VStr "Analysis");
                    ("content", VStr (Route.cleanResponse raw))]] /\
      Route.sources r = [] /\
      Route.knowledgeGaps r = VArr [] /\
      Route.qualityScore r = VNum 0.7.
Proof.
  intros JSON_parse env raw e H.
  exists (Expected.fallbackReport env (Route.cleanResponse raw)).
  split; [exact (normalize_fallback JSON_parse env raw e H)|].
  repeat split.
Qed.

Lemma parse_failure_gives_fallback_of_cleaned_text_witness :
  JsonText.parse (Route.cleanResponse Sample.prose)
  = Throw (JsError SyntaxError "Unexpected token in JSON") /\
  exists r,
    Route.normalize JsonText.parse Sample.env Sample.prose = Ok r /\
    Route.title r = VStr "Research Findings" /\
    Route.summary r = VStr (JsString.substring0 (Route.cleanResponse Sample.prose) 500) /\
    Route.findings r
    = VArr [VObj [("heading", VStr "Analysis");
                  ("content", VStr (Route.cleanResponse Sample.prose))]] /\
    Route.sources r = [] /\
    Route.knowledgeGaps r = VArr [] /\
    Route.qualityScore r = VNum 0.7.
Proof.
  split; [vm_compute; reflexivity|].
  apply (parse_failure_gives_fallback_of_cleaned_text JsonText.parse Sample.env
           Sample.prose (JsError SyntaxError "Unexpected token in JSON")).
  vm_compute. reflexivity.
Defined.

(** C4 as stated fails: on a fenced answer that is not JSON the fallback
    holds the text without its fences, not the entire raw text, and its
    summary starts after the opening fence. *)
Lemma fallback_content_differs_from_raw_text :
  (exists e, JsonText.parse (Route.cleanResponse Sample.fenced_prose) = Throw e) /\
  exists r,
    Route.normalize JsonText.parse Sample.env Sample.fenced_prose = Ok r /\
    Route.findings r
    = VArr [VObj [("heading", VStr "Analysis"); ("content", VStr Sample.prose)]] /\
    Route.summary r = VStr Sample.prose /\
    Sample.prose <> Sample.fenced_prose /\
    Sample.prose <> JsString.substring0 Sample.fenced_prose 500.
Proof.
  split.
  - eexists. vm_compute. reflexivity.
  - eexists. split; [vm_compute; reflexivity|].
    repeat split; try reflexivity; vm_compute; discriminate.
Qed.

(** *** The quality score *)

Lemma quality_score_of_parsed (env : Route.Env) (d q : value) (r : Route.ApiReport) :
  Route.ensureFields env d = Ok r ->
  Js.get d "qualityScore" = Ok q ->
  Route.qualityScore r = q ||| VNum 0.75.
Proof.
  intros H Hq. unfold Route.ensureFields in H. inv_bind H.
  injection H as <-. simpl. congruence.
Qed.

(** C9 (as amended).  Whenever the normaliser returns a report: if
    [JSON.parse] threw, its quality score is 0.7; if [JSON.parse] returned
    data, its quality score is the data's [qualityScore] when that value is
    truthy and 0.75 otherwise, that is when it is absent or one of [0],
    [null], [false], [""]. *)
Theorem quality_score_kept_when_truthy :
  forall (JSON_parse : string -> result value) env raw r,
    Route.normalize JSON_parse env raw = Ok r ->
    (forall e, JSON_parse (Route.cleanResponse raw) = Throw e ->
               Route.qualityScore r = VNum 0.7) /\
    (forall d q, JSON_parse (Route.cleanResponse raw) = Ok d ->
                 Js.get d "qualityScore" = Ok q ->
                 Route.qualityScore r = if Js.truthy q then q else VNum 0.75).
Proof.
  intros JSON_parse env raw r H. split.
  - intros e He. rewrite (normalize_fallback JSON_parse env raw e He) in H.
    injection H as <-. reflexivity.
  - intros d q Hd Hq. unfold Route.normalize, Route.parseOrFallback in H.
    rewrite Hd in H. exact (quality_score_of_parsed env d q r H Hq).
Qed.

Lemma quality_score_kept_when_truthy_witness :
  exists r,
    Route.normalize JsonText.parse Sample.env Sample.zero_score = Ok r /\
    (forall e, JsonText.parse (Route.cleanResponse Sample.zero_score) = Throw e ->
               Route.qualityScore r = VNum 0.7) /\
    (forall d q, JsonText.parse (Route.cleanResponse Sample.zero_score) = Ok d ->
                 Js.get d "qualityScore" = Ok q ->
                 Route.qualityScore r = if Js.truthy q then q else VNum 0.75).
Proof.
  eexists. split; [vm_compute; reflexivity|].
  apply (quality_score_kept_when_truthy JsonText.parse Sample.env Sample.zero_score).
  vm_compute. reflexivity.
Defined.

Lemma number_neq (m n : float) :
  PrimFloat.is_zero m <> PrimFloat.is_zero n -> VNum m <> VNum n.
Proof. intros H E. injection E as E. apply H. rewrite E. reflexivity. Qed.

(** C9 as stated fails: the text [{"qualityScore": 0}] parses, its quality
    score is present, and the report carries 0.75 instead of it. *)
Lemma zero_quality_score_is_replaced :
  JsonText.parse (Route.cleanResponse Sample.zero_score)
  = Ok (VObj [("qualityScore", VNum 0)]) /\
  exists r,
    Route.normalize JsonText.parse Sample.env Sample.zero_score = Ok r /\
    Route.qualityScore r = VNum 0.75 /\
    Route.qualityScore r <> VNum 0.
Proof.
  split; [vm_compute; reflexivity|].
  eexists. split; [vm_compute; reflexivity|].
  split; [reflexivity|]. simpl. apply number_neq. vm_compute. discriminate.
Qed.

(** *** Totality *)

(** C3 (the code departs from it).  [JSON.parse] accepts the text [null];
    the first property read of "Ensure all required fields exist" then
    throws a TypeError, and the handler answers 500 without a report.  The
    same happens when the parsed object gives [sources] as a string. *)
Theorem normalize_throws_on_parsed_null :
  forall (JSON_parse : string -> result value) env,
    JSON_parse "null" = Ok VNull ->
    JSON_parse Sample.sources_as_text
    = Ok (VObj [("title", VStr "EV batteries"); ("sources", VStr "none available")]) ->
    (exists m, Route.normalize JSON_parse env "null" = Throw (JsError TypeError m)) /\
    (exists m, Route.normalize JSON_parse env Sample.sources_as_text
               = Throw (JsError TypeError m)) /\
    Route.status
      (fst (Route.POST JSON_parse (Some "key") (Sample.answering "null") env
              (Ok (Sample.posted "What are EV battery trends?")))) = 500.
Proof.
  intros JSON_parse env Hnull Hsrc.
  assert (Hc1 : Route.cleanResponse "null" = "null") by (vm_compute; reflexivity).
  assert (Hc2 : Route.cleanResponse Sample.sources_as_text = Sample.sources_as_text)
    by (vm_compute; reflexivity).
  assert (N1 : exists m, Route.normalize JSON_parse env "null" = Throw (JsError TypeError m)).
  { unfold Route.normalize, Route.parseOrFallback. rewrite Hc1, Hnull.
    eexists. reflexivity. }
  split; [exact N1|]. split.
  - unfold Route.normalize, Route.parseOrFallback. rewrite Hc2, Hsrc.
    eexists. reflexivity.
  - destruct N1 as (m & N1).
    unfold Route.POST, Route.tryPOST, Sample.posted, Sample.answering. cbn.
    rewrite N1. reflexivity.
Qed.

Lemma normalize_throws_on_parsed_null_witness :
  (exists m, Route.normalize JsonText.parse Sample.env "null"
             = Throw (JsError TypeError m)) /\
  (exists m, Route.normalize JsonText.parse Sample.env Sample.sources_as_text
             = Throw (JsError TypeError m)) /\
  Route.status
    (fst (Route.POST JsonText.parse (Some "key") (Sample.answering "null") Sample.env
            (Ok (Sample.posted "What are EV battery trends?")))) = 500.
Proof.
  apply (normalize_throws_on_parsed_null JsonText.parse Sample.env);
    vm_compute; reflexivity.
Defined.

(** Where the normaliser does return a report: whenever [JSON.parse]
    throws, and whenever the parsed data are well shaped. *)
Lemma get_defined (d : value) (k : string) :
  Expected.nullish d = false -> exists v, Js.get d k = Ok v.
Proof. destruct d; intros H; try discriminate H; eexists; reflexivity. Qed.

Lemma mapi_from_total {B} (f : nat -> value -> result B) :
  (forall i x, Expected.nullish x = false -> exists y, f i x = Ok y) ->
  forall l i,
    List.forallb (fun x => negb (Expected.nullish x)) l = true ->
    exists l', Js.mapi_from f i l = Ok l'.
Proof.
  intros Hf. induction l as [|x l IH]; intros i Hl; simpl.
  - eexists. reflexivity.
  - simpl in Hl. apply andb_prop in Hl. destruct Hl as [Hx Hl].
    apply negb_true_iff in Hx.
    destruct (Hf i x Hx) as (y & ->). destruct (IH (S i) Hl) as (l' & ->).
    simpl. eexists. reflexivity.
Qed.

Lemma map_listable {B} (v : value) (f : nat -> value -> result B) :
  (forall i x, Expected.nullish x = false -> exists y, f i x = Ok y) ->
  Expected.listable v = true ->
  exists l', Js.map (v ||| VArr []) f = Ok l'.
Proof.
  intros Hf Hv. unfold Expected.listable in Hv.
  destruct (v ||| VArr []) as [ | | | | |l|]; try discriminate Hv.
  exact (mapi_from_total f Hf l 0 Hv).
Qed.

(** Where the defaulting does go through.  From the model's text the route
    produces a report whenever the cleaned text does not parse (the
    fallback) or parses to data that is not [null] and whose [sources] and
    [keyStatistics] are absent, falsy, or arrays without [null] or
    [undefined] elements. *)
Theorem normalize_returns_on_well_shaped_data :
  forall (JSON_parse : string -> result value) env raw,
    (forall d, JSON_parse (Route.cleanResponse raw) = Ok d ->
               Expected.well_shaped d = true) ->
    exists r, Route.normalize JSON_parse env raw = Ok r.
Proof.
  intros JSON_parse env raw Hshape.
  destruct (JSON_parse (Route.cleanResponse raw)) as [d|e] eqn:Hparse.
  - specialize (Hshape d eq_refl). unfold Expected.well_shaped in Hshape.
    apply andb_prop in Hshape. destruct Hshape as [Hd Hlists].
    apply negb_true_iff in Hd.
    destruct (get_defined d "sources" Hd) as (s & Hs).
    destruct (get_defined d "keyStatistics" Hd) as (k & Hk).
    rewrite Hs, Hk in Hlists. apply andb_prop in Hlists. destruct Hlists as [Ls Lk].
    destruct (map_listable s Route.normalizeSource) as (srcs & Hsrcs); [|exact Ls|].
    { intros i x Hx. unfold Route.normalizeSource.
      destruct x; try discriminate Hx; eexists; reflexivity. }
    destruct (map_listable k Route.normalizeStatistic) as (stats & Hstats); [|exact Lk|].
    { intros i x Hx. unfold Route.normalizeStatistic.
      destruct x; try discriminate Hx; eexists; reflexivity. }
    unfold Route.normalize, Route.parseOrFallback. rewrite Hparse.
    unfold Route.ensureFields.
    destruct (get_defined d "title" Hd) as (? & ->).
    destruct (get_defined d "summary" Hd) as (? & ->).
    destruct (get_defined d "findings" Hd) as (? & ->).
    rewrite Hs. cbn [bind]. rewrite Hsrcs. cbn [bind].
    rewrite Hk. cbn [bind]. rewrite Hstats. cbn [bind].
    destruct (get_defined d "knowledgeGaps" Hd) as (? & ->).
    destruct (get_defined d "followUpQuestions" Hd) as (? & ->).
    destruct (get_defined d "qualityScore" Hd) as (? & ->).
    destruct (get_defined d "researchMetadata" Hd) as (md & ->).
    cbn [bind].
    assert (Hopt : forall v key, exists x, Js.get_opt v key = Ok x).
    { intros v key. destruct v; eexists; reflexivity. }
    destruct (Hopt md "sourcesAnalyzed") as (? & ->).
    destruct (Hopt s "length") as (? & ->).
    destruct (Hopt md "confidenceLevel") as (? & ->).
    destruct (Hopt md "topicComplexity") as (? & ->).
    destruct (Hopt md "dataRecency") as (? & ->).
    destruct (Hopt md "lastUpdated") as (? & ->).
    cbn [bind]. eexists. reflexivity.
  - eexists. exact (normalize_fallback JSON_parse env raw e Hparse).
Qed.


(** *** Source identifiers *)

Lemma normalizeSource_id (k : nat) (x : value) (s : Route.ApiSource) :
  Route.normalizeSource k x = Ok s ->
  Route.as_id s = "source-" ++ JsString.of_nat (k + 1).
Proof.
  unfold Route.normalizeSource. intros H. inv_bind H. injection H as <-. reflexivity.
Qed.

Lemma ensureFields_sources (env : Route.Env) (d : value) (r : Route.ApiReport) :
  Route.ensureFields env d = Ok r ->
  exists l, Js.mapi_from Route.normalizeSource 0 l = Ok (Route.sources r).
Proof.
  unfold Route.ensureFields. intros H. inv_bind H. injection H as <-. simpl.
  match goal with
  | M : Js.map _ Route.normalizeSource = Ok _ |- _ =>
      destruct (map_array _ _ _ M) as (l & _ & Hl); exists l; exact Hl
  end.
Qed.

#[local] Arguments Js.viaJSON : simpl never.

Lemma toSource_of_route (a : Hook.Ambient) (k : nat) (s : Route.ApiSource) (y : Hook.Source) :
  Hook.toSource a k (Route.source_to_value s) = Ok y ->
  Hook.src_id y = Js.number_of_nat (k + 1).
Proof.
  unfold Hook.toSource, Route.source_to_value. cbn. intros H.
  injection H as <-. reflexivity.
Qed.

Lemma toReport_sources (a : Hook.Ambient) (q : string) (r : Route.ApiReport)
    (rep : Hook.ResearchReport) :
  Hook.toReport a q (Route.report_to_value r) = Ok rep ->
  Js.mapi_from (Hook.toSource a) 0 (List.map Route.source_to_value (Route.sources r))
  = Ok (Hook.sources rep).
Proof.
  unfold Hook.toReport, Route.report_to_value. cbn. intros H. inv_bind H.
  injection H as <-. simpl. assumption.
Qed.

(** C2.  The sources of a normalised report are numbered densely in array
    order, whatever ids the model's text carried: the route names the
    [i]-th source (from 0) ["source-" (i+1)], and the report the hook builds
    from the route's answer gives it the number [i + 1]. *)
Theorem source_ids_are_dense :
  forall (JSON_parse : string -> result value) env a q raw r rep,
    Route.normalize JSON_parse env raw = Ok r ->
    Hook.toReport a q (Route.report_to_value r) = Ok rep ->
    (forall i s, nth_error (Route.sources r) i = Some s ->
                 Route.as_id s = "source-" ++ JsString.of_nat (i + 1)) /\
    List.length (Hook.sources rep) = List.length (Route.sources r) /\
    (forall i s, nth_error (Hook.sources rep) i = Some s ->
                 Hook.src_id s = Js.number_of_nat (i + 1)).
Proof.
  intros JSON_parse env a q raw r rep Hr Hrep.
  split; [|split].
  - unfold Route.normalize in Hr.
    destruct (ensureFields_sources _ _ _ Hr) as (l & Hl).
    destruct (mapi_from_spec _ _ _ _ Hl) as [_ Hnth].
    intros i s Hi. destruct (Hnth i s Hi) as (x & _ & Hx).
    exact (normalizeSource_id _ _ _ Hx).
  - pose proof (toReport_sources _ _ _ _ Hrep) as Hm.
    destruct (mapi_from_spec _ _ _ _ Hm) as [Hlen _].
    rewrite Hlen. apply List.length_map.
  - pose proof (toReport_sources _ _ _ _ Hrep) as Hm.
    destruct (mapi_from_spec _ _ _ _ Hm) as [_ Hnth].
    intros i s Hi. destruct (Hnth i s Hi) as (x & Hx & Hs).
    rewrite List.nth_error_map in Hx.
    destruct (nth_error (Route.sources r) i) as [s'|]; [|discriminate Hx].
    injection Hx as <-. exact (toSource_of_route _ _ _ _ Hs).
Qed.

Lemma source_ids_are_dense_witness :
  exists r rep,
    Route.normalize JsonText.parse Sample.env Sample.with_ids = Ok r /\
    Hook.toReport (Sample.ambient "t") "What are EV battery trends?"
      (Route.report_to_value r) = Ok rep /\
    List.map Route.as_id (Route.sources r) = ["source-1"; "source-2"; "source-3"] /\
    List.map Hook.src_id (Hook.sources rep) = [1; 2; 3]%float /\
    (forall i s, nth_error (Route.sources r) i = Some s ->
                 Route.as_id s = "source-" ++ JsString.of_nat (i + 1)) /\
    List.length (Hook.sources rep) = List.length (Route.sources r) /\
    (forall i s, nth_error (Hook.sources rep) i = Some s ->
                 Hook.src_id s = Js.number_of_nat (i + 1)).
Proof.
  eexists. eexists.
  split; [vm_compute; reflexivity|].
  split; [vm_compute; reflexivity|].
  split; [reflexivity|].
  split; [reflexivity|].
  apply (source_ids_are_dense JsonText.parse Sample.env (Sample.ambient "t")
           "What are EV battery trends?" Sample.with_ids);
    vm_compute; reflexivity.
Defined.

(** ** The hook *)

Section HookFacts.

Variable Number_toString : float -> string.

Let resume := Hook.resume Number_toString.
Let step := Hook.step Number_toString.
Let receive := Hook.receive Number_toString.

Lemma state_clearProgress (w : Hook.World) :
  Hook.state (Hook.clearProgress w) = Hook.state w.
Proof. unfold Hook.clearProgress. destruct (Hook.progressIntervalRef w); reflexivity. Qed.

Lemma invocations_clearProgress (w : Hook.World) :
  Hook.invocations (Hook.clearProgress w) = Hook.invocations w.
Proof. unfold Hook.clearProgress. destruct (Hook.progressIntervalRef w); reflexivity. Qed.

Lemma ref_clearProgress (w : Hook.World) :
  Hook.progressIntervalRef (Hook.clearProgress w) = None.
Proof.
  unfold Hook.clearProgress.
  destruct (Hook.progressIntervalRef w) eqn:E; [reflexivity | exact E].
Qed.

(** [showProgress] touches [progressUpdates] and [sourcesAnalyzed] only. *)
Lemma showProgress_frame (i : nat) (a : Hook.Ambient) (k : nat) (w : Hook.World) :
  let s := Hook.state w in
  let s' := Hook.state (Hook.showProgress i a k w) in
  Hook.phase s' = Hook.phase s /\
  Hook.currentQuestion s' = Hook.currentQuestion s /\
  Hook.currentReport s' = Hook.currentReport s /\
  Hook.conversationHistory s' = Hook.conversationHistory s /\
  Hook.error s' = Hook.error s.
Proof.
  unfold Hook.showProgress.
  destruct (nth_error (Hook.invocations w) i) as [inv|]; [|repeat split].
  destruct (nth_error Hook.progressSteps (Hook.progressIndex inv)) as [[msg ty]|];
    repeat split.
Qed.

Lemma beginProgressAndFetch_frame (i : nat) (a : Hook.Ambient) (k : nat) (w : Hook.World) :
  let s := Hook.state w in
  let s' := Hook.state (Hook.beginProgressAndFetch i a k w) in
  Hook.phase s' = Hook.phase s /\
  Hook.currentQuestion s' = Hook.currentQuestion s /\
  Hook.currentReport s' = Hook.currentReport s /\
  Hook.conversationHistory s' = Hook.conversationHistory s /\
  Hook.error s' = Hook.error s.
Proof.
  unfold Hook.beginProgressAndFetch.
  destruct (nth_error (Hook.invocations (Hook.showProgress i a k w)) i);
    apply showProgress_frame.
Qed.

(** *** Completion *)

(** C10.  When a research completes successfully (the request has
    answered with a usable report and, for a signed-in user with a query
    id, the persistence call has settled), the completing state update
    sets [sourcesAnalyzed] to the number of sources of the report it
    installs as [currentReport], whatever the progress messages had
    counted. *)
Theorem completion_counts_report_sources :
  forall w i inv a,
    nth_error (Hook.invocations w) i = Some inv ->
    (forall report,
        Hook.point inv = Hook.AwaitSave report ->
        let s' := Hook.state (resume i Hook.Saved a w) in
        Hook.phase s' = Phase.completed /\
        Hook.currentReport s' = Some report /\
        Hook.sourcesAnalyzed s' = List.length (Hook.sources report)) /\
    (forall response report,
        Hook.point inv = Hook.AwaitFetch ->
        Hook.persists inv = false ->
        receive a (Hook.questionText inv) response = Ok report ->
        let s' := Hook.state (resume i (Hook.Fetched (Ok response)) a w) in
        Hook.phase s' = Phase.completed /\
        Hook.currentReport s' = Some report /\
        Hook.sourcesAnalyzed s' = List.length (Hook.sources report)).
Proof.
  intros w i inv a Hi. split.
  - intros report Hp. unfold resume, Hook.resume. rewrite Hi, Hp.
    repeat split.
  - intros response report Hp Hn Hr.
    unfold resume, Hook.resume. rewrite Hi, Hp.
    unfold Hook.afterFetch. fold receive. rewrite Hr, Hn.
    repeat split.
Qed.

(** *** Late settlements *)

(** C1 (as amended).  Nothing ties the settlement of a request to the
    session that is current when it arrives: for every world, whatever has
    happened since the activation started (another [startResearch], a
    [reset]), the settlement leaves [currentQuestion] and [progressUpdates]
    alone and applies its result.  A report sets [phase] to completed,
    installs the report as [currentReport] and appends it, paired with the
    question that is current now, to [conversationHistory]; a failure sets
    [phase] to error and [error] to its message.  For a signed-in user with
    a query id the same update is made when the persistence call after the
    request settles. *)
Theorem settlement_applies_to_current_session :
  forall w i inv a,
    nth_error (Hook.invocations w) i = Some inv ->
    (forall r,
        Hook.point inv = Hook.AwaitFetch ->
        Hook.persists inv = false ->
        let s := Hook.state w in
        let s' := Hook.state (resume i (Hook.Fetched r) a w) in
        Hook.currentQuestion s' = Hook.currentQuestion s /\
        Hook.progressUpdates s' = Hook.progressUpdates s /\
        match match r with
              | Ok response => receive a (Hook.questionText inv) response
              | Throw e => Throw e
              end with
        | Ok report =>
            Hook.phase s' = Phase.completed /\
            Hook.currentReport s' = Some report /\
            Hook.conversationHistory s'
            = (Hook.conversationHistory s
               ++ [ {| Hook.ce_id := Hook.generateId a 1;
                       Hook.ce_question := Hook.currentQuestion s;
                       Hook.ce_report := report |} ])%list
        | Throw e =>
            Hook.phase s' = Phase.error /\
            Hook.error s' = Some (exn_message e)
        end) /\
    (forall report,
        Hook.point inv = Hook.AwaitSave report ->
        let s := Hook.state w in
        let s' := Hook.state (resume i Hook.Saved a w) in
        Hook.currentQuestion s' = Hook.currentQuestion s /\
        Hook.progressUpdates s' = Hook.progressUpdates s /\
        Hook.phase s' = Phase.completed /\
        Hook.currentReport s' = Some report /\
        Hook.conversationHistory s'
        = (Hook.conversationHistory s
           ++ [ {| Hook.ce_id := Hook.generateId a 0;
                   Hook.ce_question := Hook.currentQuestion s;
                   Hook.ce_report := report |} ])%list) /\
    (forall errorMessage r,
        Hook.point inv = Hook.AwaitStatusFailed errorMessage ->
        let s := Hook.state w in
        let s' := Hook.state (resume i (Hook.StatusFailed r) a w) in
        Hook.currentQuestion s' = Hook.currentQuestion s /\
        Hook.progressUpdates s' = Hook.progressUpdates s /\
        Hook.phase s' = Phase.error /\
        Hook.error s' = Some errorMessage).
Proof.
  intros w i inv a Hi. split; [|split].
  - intros r Hp Hn. unfold resume, Hook.resume. rewrite Hi, Hp.
    unfold Hook.afterFetch. fold receive.
    destruct r as [response|e].
    + destruct (receive a (Hook.questionText inv) response) as [report|e].
      * rewrite Hn. cbn. rewrite state_clearProgress. repeat split.
      * unfold Hook.catch. rewrite Hn. cbn. rewrite !state_clearProgress.
        repeat split.
    + unfold Hook.catch. rewrite Hn. cbn. rewrite state_clearProgress.
      repeat split.
  - intros report Hp. unfold resume, Hook.resume. rewrite Hi, Hp. repeat split.
  - intros m r Hp. unfold resume, Hook.resume. rewrite Hi, Hp. repeat split.
Qed.

(** *** Phases *)







(** *** The missing credential *)

Lemma nth_error_modify_nth {A} (f : A -> A) :
  forall (l : list A) i x,
    nth_error l i = Some x ->
    nth_error (Hook.modify_nth i f l) i = Some (f x).
Proof.
  induction l as [|y l IH]; intros [|i] x H; simpl in *; try discriminate.
  - injection H as <-. reflexivity.
  - apply IH. exact H.
Qed.

(** C8 (as amended).  With no API key configured, the route answers a
    non-empty question with 503 and without calling the generative model;
    when that answer reaches the activation that posted the question, the
    activation ends the research in phase error with the route's message,
    which asks for the key to be added: at once without persistence, and
    after the attempt to mark the query as failed with it.  For the empty
    question the route's check of the question comes first (see below). *)
Theorem missing_credential_surfaces_as_error :
  forall (JSON_parse : string -> result value) apiKey generateContent env w i inv a,
    Route.missing apiKey = true ->
    nth_error (Hook.invocations w) i = Some inv ->
    Hook.point inv = Hook.AwaitFetch ->
    Hook.questionText inv <> "" ->
    let answer :=
      Route.POST JSON_parse apiKey generateContent env (Ok (Wire.posted inv)) in
    let w' := resume i (Hook.Fetched (Ok (Wire.delivered (fst answer)))) a w in
    let m := "Please add GEMINI_API_KEY to your .env.local file" in
    snd answer = [] /\
    (Hook.persists inv = false ->
     Hook.phase (Hook.state w') = Phase.error /\
     Hook.error (Hook.state w') = Some m) /\
    (Hook.persists inv = true ->
     forall r a',
       let w'' := resume i (Hook.StatusFailed r) a' w' in
       Hook.phase (Hook.state w'') = Phase.error /\
       Hook.error (Hook.state w'') = Some m).
Proof.
  intros JSON_parse apiKey generateContent env w i inv a Hkey Hi Hp Hq.
  assert (Hanswer :
    Route.POST JSON_parse apiKey generateContent env (Ok (Wire.posted inv))
    = ({| Route.status := 503;
          Route.body := VObj [ ("error", VStr "API not configured");
                               ("message", VStr "Please add GEMINI_API_KEY to your .env.local file") ] |},
       [])).
  { unfold Route.POST, Route.tryPOST, Wire.posted. cbn.
    destruct (String.eqb_spec (Hook.questionText inv) ""); [contradiction|].
    cbn. rewrite Hkey.
    destruct (Hook.searchDepth inv); reflexivity. }
  cbv zeta. rewrite Hanswer. cbn [fst snd].
  split; [reflexivity|].
  set (m := "Please add GEMINI_API_KEY to your .env.local file").
  assert (Hw' :
    resume i (Hook.Fetched (Ok (Wire.delivered
                {| Route.status := 503;
                   Route.body := VObj [ ("error", VStr "API not configured");
                                        ("message", VStr m) ] |}))) a w
    = Hook.catch i inv (JsError PlainError m) (Hook.clearProgress w)).
  { unfold resume, Hook.resume. rewrite Hi, Hp. reflexivity. }
  rewrite Hw'. unfold Hook.catch. cbn [exn_message].
  split.
  - intros Hn. rewrite Hn. split; reflexivity.
  - intros Hn r a'. rewrite Hn.
    unfold resume, Hook.resume. cbn [Hook.invocations Hook.updateInvocation].
    rewrite !invocations_clearProgress.
    rewrite (nth_error_modify_nth _ _ _ _ Hi). cbn.
    split; reflexivity.
Qed.

(** *** Blank questions *)

(** C5 (as amended).  The form in front of the hook rejects an empty or
    whitespace-only question synchronously: [startResearch] is not called,
    so the world (session state, timers, requests) is left as it was.  The
    route, for its part, answers an empty question with 400 before it looks
    at the API key or calls the generative model. *)
Theorem blank_question_is_rejected_by_the_form :
  forall isLoading u question a w,
    JsString.trim question = "" ->
    Hook.handleSubmit isLoading u question a w = w /\
    forall (JSON_parse : string -> result value) apiKey generateContent env depth,
      Route.POST JSON_parse apiKey generateContent env
        (Ok (VObj [("question", VStr ""); ("searchDepth", depth)]))
      = ({| Route.status := 400;
            Route.body := VObj [("error", VStr "Question is required")] |},
         []).
Proof.
  intros isLoading u question a w Hblank. split.
  - unfold Hook.handleSubmit. rewrite Hblank. reflexivity.
  - intros JSON_parse apiKey generateContent env depth.
    unfold Route.POST, Route.tryPOST. cbn. destruct depth; reflexivity.
Qed.

End HookFacts.

(** ** Silence after [reset] for signed-out sessions *)

Section Silence.

Variable Number_toString : float -> string.

Let resume := Hook.resume Number_toString.
Let step := Hook.step Number_toString.
Let run := Hook.run Number_toString.

Lemma nth_error_modify_nth_other {A} (f : A -> A) :
  forall (l : list A) i j,
    j <> i -> nth_error (Hook.modify_nth i f l) j = nth_error l j.
Proof.
  induction l as [|y l IH]; intros [|i] [|j] H; simpl; try reflexivity.
  - contradiction.
  - apply IH. congruence.
Qed.

Lemma nth_error_modify_nth_inv {A} (f : A -> A) (l : list A) (i j : nat) (y : A) :
  nth_error (Hook.modify_nth i f l) j = Some y ->
  (j <> i /\ nth_error l j = Some y) \/
  (j = i /\ exists x, nth_error l j = Some x /\ y = f x).
Proof.
  destruct (Nat.eq_dec j i) as [->|Hne].
  - destruct (nth_error l i) as [x|] eqn:E.
    + rewrite (nth_error_modify_nth f l i x E). intros H. injection H as <-.
      right. split; [reflexivity|]. exists x. split; reflexivity.
    + intros H. exfalso.
      assert (Hlen : List.length (Hook.modify_nth i f l) = List.length l).
      { clear. revert i. induction l as [|y' l IH]; intros [|i]; simpl; congruence. }
      apply nth_error_None in E.
      assert (nth_error (Hook.modify_nth i f l) i = None)
        by (apply nth_error_None; rewrite Hlen; exact E).
      congruence.
  - rewrite (nth_error_modify_nth_other f l i j Hne). intros H. left. split; assumption.
Qed.

(** Assigning to locals other than the point, or moving the point past
    the request, keeps activations from being before their request. *)
Lemma none_before_request_update (i : nat) (f : Hook.Invocation -> Hook.Invocation)
    (w : Hook.World) :
  (forall inv, Expected.before_request (Hook.point inv) = false ->
               Expected.before_request (Hook.point (f inv)) = false) ->
  Expected.none_before_request w ->
  Expected.none_before_request (Hook.updateInvocation i f w).
Proof.
  intros Hf Hw j y Hy. cbn in Hy.
  destruct (nth_error_modify_nth_inv f _ i j y Hy) as [[_ H]|(_ & x & Hx & ->)].
  - exact (Hw j y H).
  - apply Hf. exact (Hw j x Hx).
Qed.

Lemma clearProgress_none_before_request (w : Hook.World) :
  Expected.none_before_request w ->
  Expected.none_before_request (Hook.clearProgress w).
Proof.
  intros H j inv Hj. rewrite invocations_clearProgress in Hj. exact (H j inv Hj).
Qed.

Lemma clearProgress_tidy (w : Hook.World) :
  Expected.tidy w -> Hook.intervals (Hook.clearProgress w) = [].
Proof.
  intros [Href _]. unfold Hook.clearProgress.
  destruct (Hook.progressIntervalRef w) as [h|] eqn:E.
  - cbn. destruct (List.filter _ (Hook.intervals w)) as [|h' rest] eqn:F; [reflexivity|].
    exfalso.
    assert (Hin : In h' (List.filter (fun x => negb (x =? h)%nat) (Hook.intervals w)))
      by (rewrite F; left; reflexivity).
    apply List.filter_In in Hin. destruct Hin as [Hin Hneq].
    specialize (Href h' Hin). injection Href as ->.
    rewrite Nat.eqb_refl in Hneq. discriminate Hneq.
  - destruct (Hook.intervals w) as [|h rest]; [reflexivity|].
    specialize (Href h (or_introl eq_refl)). discriminate Href.
Qed.

Lemma clearProgress_no_intervals (w : Hook.World) :
  Hook.intervals w = [] -> Hook.intervals (Hook.clearProgress w) = [].
Proof.
  intros H. unfold Hook.clearProgress.
  destruct (Hook.progressIntervalRef w); [cbn; rewrite H; reflexivity | exact H].
Qed.

Lemma showProgress_timers (i : nat) (a : Hook.Ambient) (k : nat) (w : Hook.World) :
  Hook.intervals (Hook.showProgress i a k w) = Hook.intervals w /\
  Hook.progressIntervalRef (Hook.showProgress i a k w) = Hook.progressIntervalRef w.
Proof.
  unfold Hook.showProgress.
  destruct (nth_error (Hook.invocations w) i) as [inv|]; [|split; reflexivity].
  destruct (nth_error Hook.progressSteps (Hook.progressIndex inv)) as [[msg ty]|];
    split; reflexivity.
Qed.

Lemma showProgress_none_before_request (i : nat) (a : Hook.Ambient) (k : nat)
    (w : Hook.World) :
  Expected.none_before_request w ->
  Expected.none_before_request (Hook.showProgress i a k w).
Proof.
  intros H. unfold Hook.showProgress.
  destruct (nth_error (Hook.invocations w) i) as [inv|]; [|exact H].
  destruct (nth_error Hook.progressSteps (Hook.progressIndex inv)) as [[msg ty]|];
    [|exact H].
  apply none_before_request_update; [|exact H].
  intros inv' Hinv'. exact Hinv'.
Qed.

(** What a settlement does in a world where no activation is before its
    request: it shows no progress, sets no interval, and at most clears the
    interval in the ref. *)
Lemma resume_after_request (i : nat) (r : Hook.Settled) (a : Hook.Ambient)
    (w : Hook.World) :
  Expected.none_before_request w ->
  let w' := resume i r a w in
  Expected.none_before_request w' /\
  Hook.progressUpdates (Hook.state w') = Hook.progressUpdates (Hook.state w) /\
  ((Hook.intervals w' = Hook.intervals w /\
    Hook.progressIntervalRef w' = Hook.progressIntervalRef w) \/
   (Hook.intervals w' = Hook.intervals (Hook.clearProgress w) /\
    Hook.progressIntervalRef w' = None)).
Proof.
  intros Hw. unfold resume, Hook.resume.
  destruct (nth_error (Hook.invocations w) i) as [inv|] eqn:Hi;
    [|split; [exact Hw | split; [reflexivity | left; split; reflexivity]]].
  pose proof (Hw i inv Hi) as Hpre.
  assert (Hset : forall p w0,
             Expected.before_request p = false ->
             Expected.none_before_request w0 ->
             Expected.none_before_request (Hook.updateInvocation i (Hook.setPoint p) w0)).
  { intros p w0 Hp H0. apply none_before_request_update; [|exact H0].
    intros inv' _. exact Hp. }
  assert (Hcatch : forall e,
             let w' := Hook.catch i inv e (Hook.clearProgress w) in
             Expected.none_before_request w' /\
             Hook.progressUpdates (Hook.state w') = Hook.progressUpdates (Hook.state w) /\
             Hook.intervals w' = Hook.intervals (Hook.clearProgress w) /\
             Hook.progressIntervalRef w' = None).
  { intros e. unfold Hook.catch.
    assert (Hcc : Hook.clearProgress (Hook.clearProgress w) = Hook.clearProgress w).
    { unfold Hook.clearProgress at 1. rewrite ref_clearProgress. reflexivity. }
    rewrite Hcc.
    destruct (Hook.persists inv); cbn.
    - split; [apply Hset; [reflexivity | apply clearProgress_none_before_request, Hw]|].
      rewrite state_clearProgress, ref_clearProgress. repeat split.
    - split; [apply Hset; [reflexivity | apply clearProgress_none_before_request, Hw]|].
      rewrite state_clearProgress, ref_clearProgress. repeat split. }
  assert (Hcatch0 : forall e,
             let w' := Hook.catch i inv e w in
             Expected.none_before_request w' /\
             Hook.progressUpdates (Hook.state w') = Hook.progressUpdates (Hook.state w) /\
             Hook.intervals w' = Hook.intervals (Hook.clearProgress w) /\
             Hook.progressIntervalRef w' = None).
  { intros e. unfold Hook.catch.
    destruct (Hook.persists inv); cbn.
    - split; [apply Hset; [reflexivity | apply clearProgress_none_before_request, Hw]|].
      rewrite state_clearProgress, ref_clearProgress. repeat split.
    - split; [apply Hset; [reflexivity | apply clearProgress_none_before_request, Hw]|].
      rewrite state_clearProgress, ref_clearProgress. repeat split. }
  destruct (Hook.point inv) eqn:Hp; try discriminate Hpre;
    destruct r as [[q|e]|[u|e]|[prefs|e]|f| |f];
    try (split; [exact Hw | split; [reflexivity | left; split; reflexivity]]).
  - (* the request settles *)
    unfold Hook.afterFetch. destruct f as [response|e].
    + destruct (Hook.receive Number_toString a (Hook.questionText inv) response)
        as [report|e].
      * destruct (Hook.persists inv); cbn.
        -- split; [apply Hset; [reflexivity | apply clearProgress_none_before_request, Hw]|].
           rewrite state_clearProgress, ref_clearProgress.
           split; [reflexivity | right; split; reflexivity].
        -- split; [apply Hset; [reflexivity | apply clearProgress_none_before_request, Hw]|].
           rewrite state_clearProgress, ref_clearProgress.
           split; [reflexivity | right; split; reflexivity].
      * destruct (Hcatch e) as (H1 & H2 & H3 & H4).
        split; [exact H1 | split; [exact H2 | right; split; assumption]].
    + destruct (Hcatch0 e) as (H1 & H2 & H3 & H4).
      split; [exact H1 | split; [exact H2 | right; split; assumption]].
  - (* the report is saved *)
    split; [apply Hset; [reflexivity | exact Hw]|].
    split; [reflexivity | left; split; reflexivity].
  - (* the query is marked as failed *)
    split; [apply Hset; [reflexivity | exact Hw]|].
    split; [reflexivity | left; split; reflexivity].
Qed.

Lemma tidy_initialWorld : Expected.tidy Hook.initialWorld.
Proof.
  split.
  - intros h [].
  - intros [|j] inv H; discriminate H.
Qed.

Lemma tidy_of_no_intervals (w : Hook.World) :
  Hook.intervals w = [] -> Expected.none_before_request w -> Expected.tidy w.
Proof. intros H Hn. split; [rewrite H; intros h [] | exact Hn]. Qed.

(** A signed-out [startResearch] leaves the world tidy: the interval of
    the previous research is cleared before the new one is set, within one
    turn. *)
Lemma startResearch_tidy (q : string) (a : Hook.Ambient) (w : Hook.World) :
  Expected.tidy w -> Expected.tidy (Hook.startResearch None q a w).
Proof.
  intros Hw. pose proof (clearProgress_tidy w Hw) as Hclear.
  destruct Hw as [_ Hnone].
  unfold Hook.startResearch.
  set (i := List.length (Hook.invocations _)).
  match goal with
  | |- Expected.tidy (Hook.beginProgressAndFetch ?i0 ?a0 ?k0 ?w0) =>
      set (w3 := w0); set (w4 := Hook.showProgress i0 a0 k0 w3)
  end.
  assert (Hi : i = List.length (Hook.invocations w)).
  { subst i. cbn. apply f_equal, invocations_clearProgress. }
  assert (H3 : forall j inv, j <> i -> nth_error (Hook.invocations w3) j = Some inv ->
                             Expected.before_request (Hook.point inv) = false).
  { intros j inv Hj H. subst w3. cbn in H. rewrite invocations_clearProgress in H.
    destruct (Nat.lt_ge_cases j (List.length (Hook.invocations w))) as [Hlt|Hge].
    - rewrite nth_error_app1 in H by exact Hlt. exact (Hnone j inv H).
    - rewrite nth_error_app2 in H by exact Hge.
      destruct (j - List.length (Hook.invocations w)) as [|d] eqn:D.
      + exfalso. apply Hj. rewrite Hi. lia.
      + destruct d; discriminate H. }
  assert (H4 : forall j inv, j <> i -> nth_error (Hook.invocations w4) j = Some inv ->
                             Expected.before_request (Hook.point inv) = false).
  { intros j inv Hj H. subst w4. unfold Hook.showProgress in H.
    destruct (nth_error (Hook.invocations w3) i) as [inv0|]; [|exact (H3 j inv Hj H)].
    destruct (nth_error Hook.progressSteps (Hook.progressIndex inv0)) as [[msg ty]|];
      [|exact (H3 j inv Hj H)].
    cbn in H. rewrite nth_error_modify_nth_other in H by exact Hj.
    exact (H3 j inv Hj H). }
  assert (T4 : Hook.intervals w4 = []).
  { subst w4. rewrite (proj1 (showProgress_timers _ _ _ _)). subst w3. exact Hclear. }
  unfold Hook.beginProgressAndFetch. fold w4.
  destruct (nth_error (Hook.invocations w4) i) as [inv|] eqn:E.
  - split.
    + cbn. rewrite T4. intros h [<-|[]]. reflexivity.
    + intros j y Hy. cbn in Hy.
      destruct (nth_error_modify_nth_inv _ _ _ _ _ Hy) as [[Hj H]|(_ & x & _ & ->)].
      * exact (H4 j y Hj H).
      * reflexivity.
  - apply tidy_of_no_intervals; [exact T4|].
    intros j y Hy. destruct (Nat.eq_dec j i) as [->|Hj]; [congruence|].
    exact (H4 j y Hj Hy).
Qed.

Lemma tidy_step (w : Hook.World) (a : Hook.Ambient) (e : Hook.Event) :
  Expected.tidy w -> Expected.signed_out e -> Expected.tidy (step w (a, e)).
Proof.
  intros Hw He. unfold step, Hook.step.
  destruct e as [u q|u q| |m|h|i r]; cbn in He.
  - subst u. apply startResearch_tidy, Hw.
  - subst u. apply startResearch_tidy, Hw.
  - apply tidy_of_no_intervals; [exact (clearProgress_tidy w Hw)|].
    intros j inv H. cbn in H. rewrite invocations_clearProgress in H.
    exact (proj2 Hw j inv H).
  - apply tidy_of_no_intervals; [exact (clearProgress_tidy w Hw)|].
    intros j inv H. cbn in H. rewrite invocations_clearProgress in H.
    exact (proj2 Hw j inv H).
  - destruct (existsb (Nat.eqb h) (Hook.intervals w)); [|exact Hw].
    destruct (showProgress_timers h a 0 w) as [Ht Hr]. split.
    + rewrite Ht, Hr. exact (proj1 Hw).
    + apply showProgress_none_before_request, Hw.
  - fold resume.
    destruct (resume_after_request i r a w (proj2 Hw)) as (Hn & _ & [[Ht Hr]|[Ht Hr]]).
    + split; [rewrite Ht, Hr; exact (proj1 Hw) | exact Hn].
    + apply tidy_of_no_intervals; [|exact Hn].
      rewrite Ht. exact (clearProgress_tidy w Hw).
Qed.

Lemma quiet_reset (w : Hook.World) : Expected.tidy w -> Expected.quiet (Hook.reset w).
Proof.
  intros Hw. split; [exact (clearProgress_tidy w Hw)|]. split; [|reflexivity].
  intros j inv H. cbn in H. rewrite invocations_clearProgress in H.
  exact (proj2 Hw j inv H).
Qed.

Lemma quiet_step (w : Hook.World) (a : Hook.Ambient) (e : Hook.Event) :
  Expected.quiet w -> Expected.starts_research e = false ->
  Expected.quiet (step w (a, e)).
Proof.
  intros (Ht & Hn & Hp) He. unfold step, Hook.step.
  destruct e as [u q|u q| |m|h|i r]; try discriminate He.
  - apply quiet_reset, tidy_of_no_intervals; assumption.
  - split; [exact (clearProgress_no_intervals w Ht)|]. split.
    + intros j inv H. cbn in H. rewrite invocations_clearProgress in H.
      exact (Hn j inv H).
    + cbn. rewrite state_clearProgress. exact Hp.
  - rewrite Ht. cbn. split; [exact Ht | split; assumption].
  - fold resume.
    destruct (resume_after_request i r a w Hn) as (Hn' & Hp' & [[Ht' _]|[Ht' _]]).
    + split; [congruence | split; [exact Hn' | congruence]].
    + split; [rewrite Ht'; exact (clearProgress_no_intervals w Ht)|].
      split; [exact Hn' | congruence].
Qed.

Lemma tidy_run (trace : list (Hook.Ambient * Hook.Event)) :
  forall w,
    Expected.tidy w ->
    Forall (fun ae => Expected.signed_out (snd ae)) trace ->
    Expected.tidy (run w trace).
Proof.
  induction trace as [|[a e] trace IH]; intros w Hw Ht; [exact Hw|].
  inversion Ht as [|? ? He Hrest]; subst. cbn in He.
  apply IH; [apply tidy_step; assumption | exact Hrest].
Qed.

Lemma quiet_run (trace : list (Hook.Ambient * Hook.Event)) :
  forall w,
    Expected.quiet w ->
    Forall (fun ae => Expected.starts_research (snd ae) = false) trace ->
    Expected.quiet (run w trace).
Proof.
  induction trace as [|[a e] trace IH]; intros w Hw Ht; [exact Hw|].
  inversion Ht as [|? ? He Hrest]; subst. cbn in He.
  apply IH; [apply quiet_step; assumption | exact Hrest].
Qed.

(** Where the hook does keep its promise of silence: in a session whose
    researches are all started signed out, once [reset] has returned no
    progress message is appended, whatever happens next (late intervals,
    late settlements, [setError], further resets), until research is started
    again. *)
Theorem reset_silences_signed_out_sessions :
  forall before after : list (Hook.Ambient * Hook.Event),
    Forall (fun ae => Expected.signed_out (snd ae)) before ->
    Forall (fun ae => Expected.starts_research (snd ae) = false) after ->
    Hook.progressUpdates
      (Hook.state (run (Hook.reset (run Hook.initialWorld before)) after)) = [].
Proof.
  intros before after Hb Ha.
  apply (quiet_run after); [|exact Ha].
  apply quiet_reset, tidy_run; [exact tidy_initialWorld | exact Hb].
Qed.

End Silence.

(** ** The statements on concrete runs *)

Lemma completion_counts_report_sources_witness :
  nth_error (Hook.invocations Sample.world_asked_A) 0 = Some Sample.activation_A /\
  Hook.sourcesAnalyzed (Hook.state Sample.world_asked_A) = 4 /\
  exists report,
    Hook.receive Sample.Number_toString (Sample.ambient "c") "Topic A" Sample.answer_A
    = Ok report /\
    List.length (Hook.sources report) = 3 /\
    let s' := Hook.state (Hook.resume Sample.Number_toString 0
                            (Hook.Fetched (Ok Sample.answer_A)) (Sample.ambient "c")
                            Sample.world_asked_A) in
    Hook.phase s' = Phase.completed /\
    Hook.currentReport s' = Some report /\
    Hook.sourcesAnalyzed s' = List.length (Hook.sources report).
Proof.
  split; [reflexivity|]. split; [reflexivity|].
  eexists. split; [vm_compute; reflexivity|]. split; [reflexivity|].
  apply (proj2 (completion_counts_report_sources Sample.Number_toString
                  Sample.world_asked_A 0 Sample.activation_A (Sample.ambient "c")
                  eq_refl));
    vm_compute; reflexivity.
Defined.

Lemma settlement_applies_to_current_session_witness :
  nth_error (Hook.invocations Sample.world_superseded) 0 = Some Sample.activation_A /\
  let s := Hook.state Sample.world_superseded in
  let s' := Hook.state (Hook.resume Sample.Number_toString 0
                          (Hook.Fetched (Throw (JsError TypeError "Failed to fetch")))
                          (Sample.ambient "c") Sample.world_superseded) in
  Hook.currentQuestion s' = Hook.currentQuestion s /\
  Hook.progressUpdates s' = Hook.progressUpdates s /\
  Hook.phase s' = Phase.error /\
  Hook.error s' = Some "Failed to fetch".
Proof.
  split; [reflexivity|].
  apply (proj1 (settlement_applies_to_current_session Sample.Number_toString
                  Sample.world_superseded 0 Sample.activation_A (Sample.ambient "c")
                  eq_refl)
           (Throw (JsError TypeError "Failed to fetch")));
    reflexivity.
Defined.

(** C1 as stated fails.  "Topic A" is asked, then "Topic B"; when A's
    request answers, the session that is researching B is moved to
    completed, shows A's report and records it in the history under B's
    question.  And after "Topic A" and a reset, the late failure of A's
    request moves the idle session to error. *)
Lemma late_result_overwrites_current_session :
  (Hook.phase (Hook.state Sample.world_superseded) = Phase.researching /\
   option_map Hook.text (Hook.currentQuestion (Hook.state Sample.world_superseded))
   = Some "Topic B" /\
   Hook.currentReport (Hook.state Sample.world_superseded) = None /\
   Hook.conversationHistory (Hook.state Sample.world_superseded) = []) /\
  (Hook.phase (Hook.state (Hook.step Sample.Number_toString Sample.world_superseded
                             Sample.late_answer_A))
   = Phase.completed /\
   option_map Hook.question
     (Hook.currentReport
        (Hook.state (Hook.step Sample.Number_toString Sample.world_superseded
                       Sample.late_answer_A)))
   = Some "Topic A" /\
   List.map (fun entry => (option_map Hook.text (Hook.ce_question entry),
                           Hook.question (Hook.ce_report entry)))
     (Hook.conversationHistory
        (Hook.state (Hook.step Sample.Number_toString Sample.world_superseded
                       Sample.late_answer_A)))
   = [(Some "Topic B", "Topic A")]) /\
  Hook.state Sample.world_abandoned = Hook.initialState /\
  (Hook.phase (Hook.state (Hook.step Sample.Number_toString Sample.world_abandoned
                             Sample.late_failure_A))
   = Phase.error /\
   Hook.error (Hook.state (Hook.step Sample.Number_toString Sample.world_abandoned
                             Sample.late_failure_A))
   = Some "Failed to fetch").
Proof. vm_compute. repeat split. Qed.



Lemma missing_credential_surfaces_as_error_witness :
  Route.missing None = true /\
  nth_error (Hook.invocations Sample.world_asked_A) 0 = Some Sample.activation_A /\
  Hook.persists Sample.activation_A = false /\
  let answer :=
    Route.POST JsonText.parse None (Sample.answering Sample.prose) Sample.env
      (Ok (Wire.posted Sample.activation_A)) in
  let w' := Hook.resume Sample.Number_toString 0
              (Hook.Fetched (Ok (Wire.delivered (fst answer))))
              (Sample.ambient "c") Sample.world_asked_A in
  snd answer = [] /\
  Hook.phase (Hook.state w') = Phase.error /\
  Hook.error (Hook.state w')
  = Some "Please add GEMINI_API_KEY to your .env.local file".
Proof.
  split; [reflexivity|]. split; [reflexivity|]. split; [reflexivity|].
  assert (Hq : Hook.questionText Sample.activation_A <> "") by discriminate.
  destruct (missing_credential_surfaces_as_error Sample.Number_toString
              JsonText.parse None (Sample.answering Sample.prose) Sample.env
              Sample.world_asked_A 0 Sample.activation_A (Sample.ambient "c")
              eq_refl eq_refl eq_refl Hq) as (Hcalls & Herr & _).
  split; [exact Hcalls|]. exact (Herr eq_refl).
Defined.

Lemma blank_question_is_rejected_by_the_form_witness :
  JsString.trim "   " = "" /\
  Hook.handleSubmit false None "   " (Sample.ambient "a") Hook.initialWorld
  = Hook.initialWorld.
Proof.
  split; [reflexivity|].
  apply (blank_question_is_rejected_by_the_form false None "   "
           (Sample.ambient "a") Hook.initialWorld).
  reflexivity.
Defined.

(** C5 as stated fails.  [startResearch] does not look at its argument:
    called with the empty string on the initial session it moves the phase
    to researching, shows the first progress message, sets the interval and
    posts the request.  And the route lets a whitespace-only question
    through to the generative model. *)
Lemma startResearch_accepts_blank_question :
  (Hook.phase (Hook.state Sample.world_asked_nothing) = Phase.researching /\
   List.length (Hook.progressUpdates (Hook.state Sample.world_asked_nothing)) = 1 /\
   Hook.intervals Sample.world_asked_nothing = [0] /\
   Hook.requests Sample.world_asked_nothing = [Sample.posted ""]) /\
  List.map Route.req_userPrompt
    (snd (Route.POST JsonText.parse (Some "key") (Sample.answering Sample.prose)
            Sample.env (Ok (Sample.posted "   "))))
  = ["   "].
Proof. vm_compute. repeat split. Qed.

(** C8 as stated fails for the empty question.  [startResearch("")] posts
    its request like any other; with no API key configured the route
    answers it with 400, "Question is required", before it looks at the key
    (and without calling the model), and the hook ends the research with the
    error "API error: 400", which says nothing of a missing
    configuration. *)
Lemma empty_question_hides_the_missing_credential :
  Route.missing None = true /\
  Hook.requests Sample.world_asked_nothing = [Sample.posted ""] /\
  Sample.refusal_of_nothing
  = ({| Route.status := 400;
        Route.body := VObj [("error", VStr "Question is required")] |}, []) /\
  Hook.phase (Hook.state Sample.world_refused_nothing) = Phase.error /\
  Hook.error (Hook.state Sample.world_refused_nothing) = Some "API error: 400".
Proof. vm_compute. repeat split. Qed.

(** C7 (the code departs from it).  [reset] clears the interval that the
    ref holds at that moment and nothing else.  An activation that is still
    waiting for the query record when [reset] runs shows its first progress
    message and sets its interval afterwards, so progress messages are
    appended after [reset] has returned.  And when two activations of a
    signed-in user overlap, the interval of the first is overwritten in the
    ref by the second without being cleared: [reset] leaves it set and it
    keeps appending. *)
Theorem progress_is_appended_after_reset :
  (Hook.state Sample.world_reset_while_creating_query = Hook.initialState /\
   Hook.intervals Sample.world_reset_while_creating_query = [] /\
   List.map Hook.message
     (Hook.progressUpdates
        (Hook.state (Hook.step Sample.Number_toString
                       Sample.world_reset_while_creating_query
                       Sample.creation_settles)))
   = ["Analyzing your research question..."] /\
   List.map Hook.message
     (Hook.progressUpdates
        (Hook.state (Hook.run Sample.Number_toString
                       Sample.world_reset_while_creating_query
                       [Sample.creation_settles; Sample.tick_0])))
   = ["Analyzing your research question...";
      "Searching for relevant information..."]) /\
  (Hook.state Sample.world_overlapping_then_reset = Hook.initialState /\
   Hook.progressIntervalRef Sample.world_overlapping_then_reset = None /\
   Hook.intervals Sample.world_overlapping_then_reset = [0] /\
   List.map Hook.message
     (Hook.progressUpdates
        (Hook.state (Hook.step Sample.Number_toString
                       Sample.world_overlapping_then_reset Sample.tick_0)))
   = ["Searching for relevant information..."]).
Proof. vm_compute. repeat split. Qed.

(** The silence theorem on a run: a tick and the late answer after the
    reset of a signed-out session append nothing (the late answer still
    moves the phase, see C1). *)
Lemma reset_silences_signed_out_sessions_witness :
  Hook.progressUpdates
    (Hook.state (Hook.run Sample.Number_toString
                   (Hook.reset (Hook.run Sample.Number_toString Hook.initialWorld
                                  Sample.before_reset))
                   Sample.after_reset)) = [].
Proof.
  apply (reset_silences_signed_out_sessions Sample.Number_toString
           Sample.before_reset Sample.after_reset);
    repeat constructor.
Defined.

Lemma normalize_returns_on_well_shaped_data_witness :
  exists r, Route.normalize JsonText.parse Sample.env Sample.with_ids = Ok r.
Proof.
  apply (normalize_returns_on_well_shaped_data JsonText.parse Sample.env Sample.with_ids).
  intros d Hd. vm_compute in Hd. injection Hd as <-. reflexivity.
Defined.

(** A research and its follow-up, both answered: the history holds the two
    questions in the order in which they were asked. *)
Example follow_up_extends_the_history :
  List.map (fun entry => option_map Hook.text (Hook.ce_question entry))
    (Hook.conversationHistory
       (Hook.state (Hook.run Sample.Number_toString Hook.initialWorld
                      Sample.follow_up_answered)))
  = [Some "Topic A"; Some "Topic B"] /\
  Hook.phase (Hook.state (Hook.run Sample.Number_toString Hook.initialWorld
                            Sample.follow_up_answered))
  = Phase.completed.
Proof. vm_compute. split; reflexivity. Qed.

(* ================================================================= *)
(** * Further properties of the route *)

Section MoreRouteFacts.

Variable JSON_parse : string -> result value.

(** The handler answers 200, 400, 500 or 503.  It calls the generative
    model at most once per request and not at all when it answers 400 or
    503; a 200 comes after exactly one call and carries [success: true]
    with a report. *)
Theorem POST_calls_model_at_most_once :
  forall apiKey generateContent env requestJson,
    let answer := Route.POST JSON_parse apiKey generateContent env requestJson in
    let code := Route.status (fst answer) in
    In code [200; 400; 500; 503] /\
    List.length (snd answer) <= 1 /\
    (code = 400 \/ code = 503 -> snd answer = []) /\
    (code = 200 ->
     exists request text report,
       snd answer = [request] /\
       generateContent request = Ok text /\
       Route.normalize JSON_parse env text = Ok report /\
       Route.body (fst answer)
       = VObj [("success", VBool true); ("report", Route.report_to_value report)]).
Proof.
  intros apiKey generateContent env requestJson. cbv zeta.
  unfold Route.POST, Route.tryPOST.
  assert (Hrefused : forall code body calls,
             In code [400; 500; 503] ->
             (code = 400 \/ code = 503 -> calls = []) ->
             List.length calls <= 1 ->
             let answer : Route.HttpResponse * list Route.GenerateRequest :=
               ({| Route.status := code; Route.body := body |}, calls) in
             In (Route.status (fst answer)) [200; 400; 500; 503] /\
             List.length (snd answer) <= 1 /\
             (Route.status (fst answer) = 400 \/ Route.status (fst answer) = 503 ->
              snd answer = []) /\
             (Route.status (fst answer) = 200 ->
              exists request text report,
                snd answer = [request] /\
                generateContent request = Ok text /\
                Route.normalize JSON_parse env text = Ok report /\
                Route.body (fst answer)
                = VObj [("success", VBool true);
                        ("report", Route.report_to_value report)])).
  { intros code body calls Hcode Hcalls Hlen. cbn [fst snd Route.status Route.body].
    split; [right; exact Hcode|]. split; [exact Hlen|]. split; [exact Hcalls|].
    intros ->. exfalso. simpl in Hcode. lia. }
  destruct requestJson as [requestBody|e];
    [|apply Hrefused; simpl; [tauto | reflexivity | lia]].
  destruct (Js.get requestBody "question") as [question|e];
    [|apply Hrefused; simpl; [tauto | reflexivity | lia]].
  destruct (Js.get requestBody "searchDepth") as [sd|e];
    [|apply Hrefused; simpl; [tauto | reflexivity | lia]].
  destruct (negb (Js.truthy question) || negb (String.eqb (Js.typeof question) "string"));
    [apply Hrefused; simpl; [tauto | reflexivity | lia]|].
  destruct (Route.missing apiKey);
    [apply Hrefused; simpl; [tauto | reflexivity | lia]|].
  match goal with
  | |- context [generateContent ?r] => set (request := r)
  end.
  destruct (generateContent request) as [text|e] eqn:Hgen;
    [|apply Hrefused; simpl; [tauto | intros [H|H]; discriminate H | lia]].
  cbn [bind]. destruct (String.eqb text "");
    [apply Hrefused; simpl; [tauto | intros [H|H]; discriminate H | lia]|].
  destruct (Route.normalize JSON_parse env text) as [report|e] eqn:Hnorm;
    [|apply Hrefused; simpl; [tauto | intros [H|H]; discriminate H | lia]].
  cbn [bind fst snd Route.status Route.body].
  split; [left; reflexivity|]. split; [simpl; lia|]. split.
  - intros [H|H]; discriminate H.
  - intros _. exists request, text, report. repeat split; assumption.
Qed.

Lemma own_app_last (fields : list (string * value)) (k k' : string) (v : value) :
  Js.own (fields ++ [(k, v)]) k' = if String.eqb k k' then v else Js.own fields k'.
Proof.
  unfold Js.own. rewrite List.rev_app_distr. simpl.
  destruct (String.eqb k k'); reflexivity.
Qed.

(** A request that does not say how deep to search is handled exactly like
    one that asks for the standard depth. *)
Theorem missing_searchDepth_is_standard :
  forall apiKey generateContent env fields,
    Js.own fields "searchDepth" = VUndefined ->
    Route.POST JSON_parse apiKey generateContent env (Ok (VObj fields))
    = Route.POST JSON_parse apiKey generateContent env
        (Ok (VObj (fields ++ [("searchDepth", VStr "standard")]))).
Proof.
  intros apiKey generateContent env fields Hnone.
  unfold Route.POST, Route.tryPOST. cbn [Js.get].
  rewrite !own_app_last, Hnone. cbn [String.eqb Ascii.eqb Bool.eqb].
  reflexivity.
Qed.


(** The sources of the parsed data are neither dropped nor reordered: the
    report has as many sources as the data, and its [i]-th source keeps the
    title and the url of the [i]-th given one whenever they are truthy. *)
Theorem sources_keep_number_and_order :
  forall env raw d l r,
    JSON_parse (Route.cleanResponse raw) = Ok d ->
    Js.get d "sources" = Ok (VArr l) ->
    Route.normalize JSON_parse env raw = Ok r ->
    List.length (Route.sources r) = List.length l /\
    forall i x s,
      nth_error l i = Some x ->
      nth_error (Route.sources r) i = Some s ->
      (forall t, Js.get x "title" = Ok t -> Js.truthy t = true -> Route.as_title s = t) /\
      (forall u, Js.get x "url" = Ok u -> Js.truthy u = true -> Route.as_url s = u).
Proof.
  intros env raw d l r Hd Hsrc H.
  unfold Route.normalize, Route.parseOrFallback in H. rewrite Hd in H.
  unfold Route.ensureFields in H. inv_bind H. injection H as <-.
  cbn [Route.sources].
  match goal with
  | E : Js.get d "sources" = Ok ?v |- _ =>
      rewrite Hsrc in E; injection E as <-
  end.
  match goal with
  | M : Js.map _ Route.normalizeSource = Ok _ |- _ =>
      cbn in M; destruct (mapi_from_spec _ _ _ _ M) as [Hlen Hnth]
  end.
  split; [exact Hlen|].
  intros i given s Hgiven Hs. destruct (Hnth i s Hs) as (x' & Hx' & Hn).
  rewrite Hgiven in Hx'. injection Hx' as <-.
  unfold Route.normalizeSource in Hn. inv_bind Hn. injection Hn as <-.
  cbn [Route.as_title Route.as_url]. split.
  - intros t Ht Htt. unfold Js.or.
    match goal with
    | E : Js.get given "title" = Ok _ |- _ => rewrite Ht in E; injection E as <-
    end.
    rewrite Htt. reflexivity.
  - intros u Hu Hut. unfold Js.or.
    match goal with
    | E : Js.get given "url" = Ok _ |- _ => rewrite Hu in E; injection E as <-
    end.
    rewrite Hut. reflexivity.
Qed.

End MoreRouteFacts.

Lemma missing_searchDepth_is_standard_witness :
  Js.own (Sample.posted_without_depth "What are EV battery trends?") "searchDepth"
  = VUndefined /\
  Route.POST JsonText.parse (Some "key") (Sample.answering Sample.with_ids) Sample.env
    (Ok (VObj (Sample.posted_without_depth "What are EV battery trends?")))
  = Route.POST JsonText.parse (Some "key") (Sample.answering Sample.with_ids) Sample.env
      (Ok (Sample.posted "What are EV battery trends?")).
Proof.
  split; [reflexivity|].
  apply (missing_searchDepth_is_standard JsonText.parse (Some "key")
           (Sample.answering Sample.with_ids) Sample.env
           (Sample.posted_without_depth "What are EV battery trends?")).
  reflexivity.
Defined.


Lemma sources_keep_number_and_order_witness :
  exists d l r,
    JsonText.parse (Route.cleanResponse Sample.with_ids) = Ok d /\
    Js.get d "sources" = Ok (VArr l) /\
    Route.normalize JsonText.parse Sample.env Sample.with_ids = Ok r /\
    List.length l = 3 /\
    List.length (Route.sources r) = List.length l /\
    forall i x s,
      nth_error l i = Some x ->
      nth_error (Route.sources r) i = Some s ->
      (forall t, Js.get x "title" = Ok t -> Js.truthy t = true -> Route.as_title s = t) /\
      (forall u, Js.get x "url" = Ok u -> Js.truthy u = true -> Route.as_url s = u).
Proof.
  eexists. eexists. eexists.
  split; [vm_compute; reflexivity|].
  split; [vm_compute; reflexivity|].
  split; [vm_compute; reflexivity|].
  split; [reflexivity|].
  eapply (sources_keep_number_and_order JsonText.parse Sample.env Sample.with_ids);
    vm_compute; reflexivity.
Defined.

(* ================================================================= *)
(** * Cleaning the model's text *)

Lemma length_trimStart (s : string) :
  String.length (JsString.trimStart s) <= String.length s.
Proof.
  induction s as [|c r IH]; simpl; [lia|].
  destruct (JsString.isWhiteSpace c); simpl; lia.
Qed.

Lemma length_trimEnd (s : string) :
  String.length (JsString.trimEnd s) <= String.length s.
Proof.
  induction s as [|c r IH]; simpl; [lia|].
  destruct (JsString.isWhiteSpace c && String.eqb (JsString.trimEnd r) ""); simpl; lia.
Qed.

Lemma trimEnd_app_whitespace (s : string) (w : ascii) :
  JsString.isWhiteSpace w = true ->
  JsString.trimEnd (s ++ String w "") = JsString.trimEnd s.
Proof.
  intros Hw. induction s as [|c r IH]; simpl.
  - rewrite Hw. reflexivity.
  - rewrite IH. reflexivity.
Qed.

Lemma trimEnd_app_kept (s t : string) :
  JsString.trimEnd t <> "" ->
  JsString.trimEnd (s ++ t) = s ++ JsString.trimEnd t.
Proof.
  intros Ht. induction s as [|c r IH]; simpl; [reflexivity|].
  rewrite IH.
  destruct (String.eqb_spec (r ++ JsString.trimEnd t) "") as [E|_].
  - exfalso. destruct r; simpl in E; [contradiction | discriminate E].
  - rewrite andb_false_r. reflexivity.
Qed.

(** A text that [trim] leaves alone is empty or starts with a character
    that is not white space. *)
Lemma trimmed_start (s : string) :
  JsString.trim s = s ->
  JsString.trimStart s = s /\ JsString.trimEnd s = s.
Proof.
  intros H. unfold JsString.trim in H.
  destruct s as [|c r]; [split; reflexivity|].
  cbn [JsString.trimStart] in H |- *. destruct (JsString.isWhiteSpace c) eqn:Hc.
  - exfalso.
    pose proof (length_trimEnd (JsString.trimStart r)) as L1.
    pose proof (length_trimStart r) as L2.
    rewrite H in L1. simpl in L1. lia.
  - split; [reflexivity | exact H].
Qed.

Lemma substring_0_append (x y : string) :
  String.substring 0 (String.length x) (x ++ y) = x.
Proof.
  induction x as [|c r IH]; simpl.
  - destruct y; reflexivity.
  - rewrite IH. reflexivity.
Qed.

Lemma substring_0_length (x : string) : String.substring 0 (String.length x) x = x.
Proof. induction x as [|c r IH]; simpl; [reflexivity | rewrite IH; reflexivity]. Qed.

Lemma substring_skip_append (x y : string) :
  String.substring (String.length x) (String.length y) (x ++ y) = y.
Proof.
  induction x as [|c r IH]; simpl; [apply substring_0_length | exact IH].
Qed.

Lemma length_app (x y : string) :
  String.length (x ++ y) = String.length x + String.length y.
Proof. induction x as [|c r IH]; simpl; [reflexivity | rewrite IH; reflexivity]. Qed.

Lemma endsWith_append (x p : string) : JsString.endsWith (x ++ p) p = true.
Proof.
  unfold JsString.endsWith. rewrite length_app.
  replace (String.length x + String.length p - String.length p) with (String.length x)
    by lia.
  rewrite substring_skip_append, String.eqb_refl.
  rewrite andb_true_r. apply Nat.leb_le. lia.
Qed.

Lemma slice_upto_last_append (x p : string) :
  JsString.slice_upto_last (x ++ p) (String.length p) = x.
Proof.
  unfold JsString.slice_upto_last. rewrite length_app.
  replace (String.length x + String.length p - String.length p) with (String.length x)
    by lia.
  apply substring_0_append.
Qed.

Lemma trimStart_skips (c : ascii) (s : string) :
  JsString.isWhiteSpace c = true ->
  JsString.trimStart (String c s) = JsString.trimStart s.
Proof. intros H. cbn [JsString.trimStart]. rewrite H. reflexivity. Qed.

Lemma trimStart_stops (c : ascii) (s : string) :
  JsString.isWhiteSpace c = false ->
  JsString.trimStart (String c s) = String c s.
Proof. intros H. cbn [JsString.trimStart]. rewrite H. reflexivity. Qed.

Lemma trim_between_newlines (text : string) :
  JsString.trim text = text ->
  JsString.trim (Expected.newline ++ text ++ Expected.newline) = text.
Proof.
  intros H. destruct (trimmed_start text H) as [Hs He].
  unfold JsString.trim, Expected.newline.
  change (String (ascii_of_N 10) "" ++ text ++ String (ascii_of_N 10) "")
    with (String (ascii_of_N 10) (text ++ String (ascii_of_N 10) "")).
  rewrite trimStart_skips by reflexivity.
  destruct text as [|c r]; [reflexivity|].
  destruct (JsString.isWhiteSpace c) eqn:Hc.
  - exfalso. rewrite (trimStart_skips c r Hc) in Hs.
    pose proof (length_trimStart r) as L. rewrite Hs in L. simpl in L. lia.
  - change (String c r ++ String (ascii_of_N 10) "")
      with (String c (r ++ String (ascii_of_N 10) "")).
    rewrite (trimStart_stops c _ Hc).
    change (String c (r ++ String (ascii_of_N 10) ""))
      with (String c r ++ String (ascii_of_N 10) "").
    rewrite trimEnd_app_whitespace by reflexivity. exact He.
Qed.

Lemma append_assoc (u v w : string) : (u ++ v) ++ w = u ++ v ++ w.
Proof. induction u as [|c r IH]; simpl; [reflexivity | rewrite IH; reflexivity]. Qed.

Lemma fenced_ends_with_fence (tag text : string) :
  Expected.fenced tag text
  = ("```" ++ tag ++ Expected.newline ++ text ++ Expected.newline) ++ "```".
Proof. unfold Expected.fenced. rewrite !append_assoc. reflexivity. Qed.

Lemma trim_fenced (tag text : string) :
  JsString.trim (Expected.fenced tag text) = Expected.fenced tag text.
Proof.
  unfold JsString.trim.
  assert (Hstart : JsString.trimStart (Expected.fenced tag text)
                   = Expected.fenced tag text).
  { unfold Expected.fenced.
    change ("```" ++ tag ++ Expected.newline ++ text ++ Expected.newline ++ "```")
      with (String "`" ("``" ++ tag ++ Expected.newline ++ text ++ Expected.newline ++ "```")).
    apply trimStart_stops. reflexivity. }
  rewrite Hstart, fenced_ends_with_fence.
  rewrite trimEnd_app_kept by (vm_compute; discriminate).
  reflexivity.
Qed.

Lemma startsWith_shorter (p q s : string) :
  JsString.startsWith s (p ++ q) = true -> JsString.startsWith s p = true.
Proof.
  unfold JsString.startsWith. revert s.
  induction p as [|a p IH]; intros s H; [destruct s; reflexivity|].
  destruct s as [|b s]; [discriminate H|].
  simpl in *.
  destruct (Ascii.ascii_dec a b); [apply IH; exact H | discriminate H].
Qed.

(** What cleaning does to the usual shapes of an answer.  A text wrapped in
    [```json] or bare [```] fences on lines of their own is unwrapped to
    exactly that text, and a text without fences and without white space
    around it is left as it is. *)
Theorem cleanResponse_unwraps_fences :
  forall text,
    JsString.trim text = text ->
    Route.cleanResponse (Expected.fenced "json" text) = text /\
    Route.cleanResponse (Expected.fenced "" text) = text /\
    (JsString.startsWith text "```" = false ->
     JsString.endsWith text "```" = false ->
     Route.cleanResponse text = text).
Proof.
  intros text Htrim.
  assert (Tail : forall x : string,
             x = Expected.newline ++ text ++ Expected.newline ++ "```" ->
             JsString.trim
               (if JsString.endsWith x "```" then JsString.slice_upto_last x 3 else x)
             = text).
  { intros x ->.
    assert (E : Expected.newline ++ text ++ Expected.newline ++ "```"
                = (Expected.newline ++ text ++ Expected.newline) ++ "```")
      by (rewrite !append_assoc; reflexivity).
    rewrite E, endsWith_append.
    change 3 with (String.length "```"). rewrite slice_upto_last_append.
    apply trim_between_newlines, Htrim. }
  split; [|split].
  - unfold Route.cleanResponse. rewrite trim_fenced.
    unfold Expected.fenced.
    change ("```" ++ "json" ++ Expected.newline ++ text ++ Expected.newline ++ "```")
      with ("```json" ++ Expected.newline ++ text ++ Expected.newline ++ "```").
    change (JsString.startsWith
              ("```json" ++ Expected.newline ++ text ++ Expected.newline ++ "```")
              "```json") with true.
    cbv iota.
    assert (S7 : JsString.slice_from
                   ("```json" ++ Expected.newline ++ text ++ Expected.newline ++ "```") 7
                 = Expected.newline ++ text ++ Expected.newline ++ "```").
    { unfold JsString.slice_from. simpl. f_equal. apply substring_0_length. }
    rewrite S7.
    change (JsString.startsWith
              (Expected.newline ++ text ++ Expected.newline ++ "```") "```") with false.
    cbv iota. apply Tail. reflexivity.
  - unfold Route.cleanResponse. rewrite trim_fenced.
    unfold Expected.fenced.
    change ("```" ++ "" ++ Expected.newline ++ text ++ Expected.newline ++ "```")
      with ("```" ++ Expected.newline ++ text ++ Expected.newline ++ "```").
    change (JsString.startsWith
              ("```" ++ Expected.newline ++ text ++ Expected.newline ++ "```")
              "```json") with false.
    cbv iota.
    change (JsString.startsWith
              ("```" ++ Expected.newline ++ text ++ Expected.newline ++ "```")
              "```") with true.
    cbv iota.
    assert (S3 : JsString.slice_from
                   ("```" ++ Expected.newline ++ text ++ Expected.newline ++ "```") 3
                 = Expected.newline ++ text ++ Expected.newline ++ "```").
    { unfold JsString.slice_from. simpl. f_equal. apply substring_0_length. }
    rewrite S3. apply Tail. reflexivity.
  - intros Hs He. unfold Route.cleanResponse. rewrite Htrim.
    assert (Hj : JsString.startsWith text "```json" = false).
    { destruct (JsString.startsWith text "```json") eqn:E; [|reflexivity].
      rewrite (startsWith_shorter "```" "json" text E) in Hs. discriminate Hs. }
    rewrite Hj, Hs, He. exact Htrim.
Qed.

Lemma cleanResponse_unwraps_fences_witness :
  JsString.trim Sample.zero_score = Sample.zero_score /\
  Route.cleanResponse (Expected.fenced "json" Sample.zero_score) = Sample.zero_score /\
  Route.cleanResponse (Expected.fenced "" Sample.zero_score) = Sample.zero_score /\
  (JsString.startsWith Sample.zero_score "```" = false ->
   JsString.endsWith Sample.zero_score "```" = false ->
   Route.cleanResponse Sample.zero_score = Sample.zero_score).
Proof.
  split; [reflexivity|].
  apply (cleanResponse_unwraps_fences Sample.zero_score). reflexivity.
Defined.

(* ================================================================= *)
(** * A research from the request to the session *)

Section EndToEnd.

Variable JSON_parse : string -> result value.
Variable Number_toString : float -> string.

Let resume := Hook.resume Number_toString.

(** What the route does with a question that passes its two guards. *)
Lemma POST_of_activation (apiKey : option string)
    (generateContent : Route.GenerateRequest -> result string)
    (env : Route.Env) (inv : Hook.Invocation) :
  Route.missing apiKey = false ->
  Hook.questionText inv <> "" ->
  exists request,
    Route.POST JSON_parse apiKey generateContent env (Ok (Wire.posted inv))
    = match (responseContent <- generateContent request ;;
             if String.eqb responseContent ""
             then Throw (JsError PlainError "No response from Gemini")
             else
               report <- Route.normalize JSON_parse env responseContent ;;
               Ok {| Route.status := 200;
                     Route.body := VObj [ ("success", VBool true);
                                          ("report", Route.report_to_value report) ] |})
      with
      | Ok response => (response, [request])
      | Throw error =>
          ({| Route.status := 500;
              Route.body := VObj [ ("error", VStr "Research failed");
                                   ("message", VStr (exn_message error)) ] |},
           [request])
      end.
Proof.
  intros Hkey Hq. unfold Route.POST, Route.tryPOST, Wire.posted. cbn.
  destruct (String.eqb_spec (Hook.questionText inv) ""); [contradiction|].
  cbn. rewrite Hkey. eexists. reflexivity.
Qed.

Lemma resume_fetched (i : nat) (inv : Hook.Invocation) (r : result Hook.Response)
    (a : Hook.Ambient) (w : Hook.World) :
  nth_error (Hook.invocations w) i = Some inv ->
  Hook.point inv = Hook.AwaitFetch ->
  resume i (Hook.Fetched r) a w = Hook.afterFetch Number_toString i inv r a w.
Proof. intros Hi Hp. unfold resume, Hook.resume. rewrite Hi, Hp. reflexivity. Qed.


(** A failure of the generative model reaches the user.  When the call to
    the model throws, the route answers 500 and the research of a signed-out
    user ends in phase error with the model's message, or with
    "API error: 500" when that message is empty; when the model answers with
    no text, the error shown is "No response from Gemini". *)
Theorem model_failure_surfaces_as_error :
  forall apiKey generateContent env w i inv a,
    Route.missing apiKey = false ->
    nth_error (Hook.invocations w) i = Some inv ->
    Hook.point inv = Hook.AwaitFetch ->
    Hook.persists inv = false ->
    Hook.questionText inv <> "" ->
    let answer :=
      Route.POST JSON_parse apiKey generateContent env (Ok (Wire.posted inv)) in
    let s' := Hook.state (resume i (Hook.Fetched (Ok (Wire.delivered (fst answer)))) a w) in
    (forall failure,
        (forall request, generateContent request = Throw failure) ->
        Route.status (fst answer) = 500 /\
        Hook.phase s' = Phase.error /\
        Hook.error s'
        = Some (if String.eqb (exn_message failure) ""
                then "API error: 500" else exn_message failure)) /\
    ((forall request, generateContent request = Ok "") ->
     Route.status (fst answer) = 500 /\
     Hook.phase s' = Phase.error /\
     Hook.error s' = Some "No response from Gemini").
Proof.
  intros apiKey generateContent env w i inv a Hkey Hi Hp Hn Hq.
  destruct (POST_of_activation apiKey generateContent env inv Hkey Hq) as (request & HP).
  cbv zeta. rewrite HP. rewrite (resume_fetched i inv _ a w Hi Hp). split.
  - intros failure Hgen. rewrite (Hgen request). cbn [bind fst].
    split; [reflexivity|].
    unfold Hook.afterFetch, Hook.receive, Wire.delivered. cbn.
    unfold Js.or. cbn. unfold Hook.catch.
    destruct (String.eqb (exn_message failure) ""); cbn; rewrite Hn; cbn;
      split; reflexivity.
  - intros Hgen. rewrite (Hgen request). cbn [bind String.eqb fst].
    split; [reflexivity|].
    unfold Hook.afterFetch, Hook.receive, Wire.delivered. cbn.
    unfold Hook.catch. cbn. rewrite Hn. cbn. split; reflexivity.
Qed.

End EndToEnd.


Lemma model_failure_surfaces_as_error_witness :
  Route.missing (Some "key") = false /\
  nth_error (Hook.invocations Sample.world_asked_A) 0 = Some Sample.activation_A /\
  Hook.error
    (Hook.state
       (Hook.resume Sample.Number_toString 0
          (Hook.Fetched
             (Ok (Wire.delivered
                    (fst (Route.POST JsonText.parse (Some "key")
                            (Sample.failing "quota exceeded") Sample.env
                            (Ok (Wire.posted Sample.activation_A)))))))
          (Sample.ambient "c") Sample.world_asked_A))
  = Some "quota exceeded".
Proof.
  split; [reflexivity|]. split; [reflexivity|].
  assert (Hq : Hook.questionText Sample.activation_A <> "") by discriminate.
  destruct (model_failure_surfaces_as_error JsonText.parse
              Sample.Number_toString (Some "key") (Sample.failing "quota exceeded")
              Sample.env Sample.world_asked_A 0 Sample.activation_A (Sample.ambient "c")
              eq_refl eq_refl eq_refl eq_refl Hq)
    as (Hthrow & _).
  destruct (Hthrow (JsError PlainError "quota exceeded") (fun _ => eq_refl))
    as (_ & _ & Herr).
  exact Herr.
Defined.

(* ================================================================= *)
(** * Further properties of the hook *)

Section MoreHookFacts.

Variable Number_toString : float -> string.

Let resume := Hook.resume Number_toString.
Let step := Hook.step Number_toString.
Let run := Hook.run Number_toString.

Lemma history_begin (i : nat) (a : Hook.Ambient) (k : nat) (w : Hook.World) :
  Hook.conversationHistory (Hook.state (Hook.beginProgressAndFetch i a k w))
  = Hook.conversationHistory (Hook.state w).
Proof. apply beginProgressAndFetch_frame. Qed.

Lemma history_catch (i : nat) (inv : Hook.Invocation) (e : exn) (w : Hook.World) :
  Hook.conversationHistory (Hook.state (Hook.catch i inv e w))
  = Hook.conversationHistory (Hook.state w).
Proof.
  unfold Hook.catch. destruct (Hook.persists inv); cbn;
    rewrite state_clearProgress; reflexivity.
Qed.

Lemma history_resume (i : nat) (r : Hook.Settled) (a : Hook.Ambient) (w : Hook.World) :
  let h := Hook.conversationHistory (Hook.state w) in
  let h' := Hook.conversationHistory (Hook.state (resume i r a w)) in
  h' = h \/
  exists entry, h' = (h ++ [entry])%list /\
                Hook.phase (Hook.state (resume i r a w)) = Phase.completed.
Proof.
  unfold resume, Hook.resume.
  destruct (nth_error (Hook.invocations w) i) as [inv|]; [|left; reflexivity].
  destruct (Hook.point inv) eqn:Hp; destruct r as [[q|e]|[u|e]|[prefs|e]|f| |f];
    try (left; reflexivity);
    try (left; apply history_begin).
  - left.
    destruct (Js.get_opt prefs "default_search_depth") as [d|e];
      [destruct (Js.truthy d)|];
      (etransitivity; [apply history_begin | reflexivity]).
  - unfold Hook.afterFetch. destruct f as [response|e].
    + destruct (Hook.receive Number_toString a (Hook.questionText inv) response)
        as [report|e].
      * destruct (Hook.persists inv); cbn.
        -- left. rewrite state_clearProgress. reflexivity.
        -- right. rewrite state_clearProgress. eexists. split; reflexivity.
      * left. rewrite history_catch, state_clearProgress. reflexivity.
    + left. apply history_catch.
  - right. cbn. eexists. split; reflexivity.
Qed.

(** The conversation history is never rewritten.  [reset] empties it; every
    other event leaves it as it is or appends one entry to it, and it
    appends only as it moves the phase to completed. *)
Theorem history_only_grows :
  forall w a e,
    let h := Hook.conversationHistory (Hook.state w) in
    let w' := step w (a, e) in
    let h' := Hook.conversationHistory (Hook.state w') in
    match e with
    | Hook.Reset => h' = []
    | _ => h' = h \/
           exists entry, h' = (h ++ [entry])%list /\
                         Hook.phase (Hook.state w') = Phase.completed
    end.
Proof.
  intros w a e. cbv zeta. unfold step, Hook.step.
  destruct e as [u q|u q| |m|h|i r].
  - left. unfold Hook.startResearch. destruct u.
    + cbn. rewrite state_clearProgress. reflexivity.
    + rewrite history_begin. cbn. rewrite state_clearProgress. reflexivity.
  - left. unfold Hook.submitFollowUp, Hook.startResearch. destruct u.
    + cbn. rewrite state_clearProgress. reflexivity.
    + rewrite history_begin. cbn. rewrite state_clearProgress. reflexivity.
  - reflexivity.
  - left. cbn. rewrite state_clearProgress. reflexivity.
  - left. destruct (existsb (Nat.eqb h) (Hook.intervals w)); [|reflexivity].
    apply showProgress_frame.
  - apply history_resume.
Qed.

(** A failure of the persistent store does not block the research.  When
    the call an activation is waiting for before its request (creating the
    query, marking it as researching, reading the preferences) is rejected,
    the activation goes on to post its question, and phase, error, report
    and history stay as they are. *)
Theorem persistence_failure_does_not_block :
  forall w i inv a e,
    nth_error (Hook.invocations w) i = Some inv ->
    Expected.before_request (Hook.point inv) = true ->
    let w' := resume i (Expected.rejection (Hook.point inv) e) a w in
    Hook.requests w' = (Hook.requests w ++ [Wire.posted inv])%list /\
    option_map Hook.point (nth_error (Hook.invocations w') i) = Some Hook.AwaitFetch /\
    Hook.phase (Hook.state w') = Hook.phase (Hook.state w) /\
    Hook.error (Hook.state w') = Hook.error (Hook.state w) /\
    Hook.currentReport (Hook.state w') = Hook.currentReport (Hook.state w) /\
    Hook.conversationHistory (Hook.state w')
    = Hook.conversationHistory (Hook.state w).
Proof.
  intros w i inv a e Hi Hpre.
  assert (Hw' : resume i (Expected.rejection (Hook.point inv) e) a w
                = Hook.beginProgressAndFetch i a 0 w).
  { unfold resume, Hook.resume. rewrite Hi.
    destruct (Hook.point inv); try discriminate Hpre; reflexivity. }
  cbv zeta. rewrite Hw'.
  destruct (beginProgressAndFetch_frame i a 0 w) as (F1 & _ & F3 & F4 & F5).
  cbv zeta in F1, F3, F4, F5. rewrite F1, F3, F4, F5.
  assert (Hshown : exists inv',
             nth_error (Hook.invocations (Hook.showProgress i a 0 w)) i = Some inv' /\
             Hook.questionText inv' = Hook.questionText inv /\
             Hook.searchDepth inv' = Hook.searchDepth inv /\
             Hook.requests (Hook.showProgress i a 0 w) = Hook.requests w).
  { unfold Hook.showProgress. rewrite Hi.
    destruct (nth_error Hook.progressSteps (Hook.progressIndex inv)) as [[msg ty]|].
    - cbn. rewrite (nth_error_modify_nth _ _ _ _ Hi). eexists. repeat split.
    - exists inv. repeat split. exact Hi. }
  destruct Hshown as (inv' & Hi' & Hq' & Hd' & Hr').
  unfold Hook.beginProgressAndFetch. rewrite Hi'. cbn.
  rewrite (nth_error_modify_nth _ _ _ _ Hi'). cbn.
  unfold Wire.posted. rewrite Hq', Hd', Hr'. repeat split.
Qed.

End MoreHookFacts.

(* ================================================================= *)
(** * The progress counter *)

Section Counter.

Variable Number_toString : float -> string.

Let step := Hook.step Number_toString.
Let run := Hook.run Number_toString.

Lemma Forall_modify_nth {A} (P : A -> Prop) (f : A -> A) :
  forall (l : list A) i,
    Forall P l ->
    (forall x, nth_error l i = Some x -> P (f x)) ->
    Forall P (Hook.modify_nth i f l).
Proof.
  induction l as [|y l IH]; intros i Hl Hf; [destruct i; constructor|].
  inversion Hl as [|? ? Hy Hrest]; subst.
  destruct i as [|i]; simpl.
  - constructor; [apply Hf; reflexivity | exact Hrest].
  - constructor; [exact Hy | apply IH; [exact Hrest | exact Hf]].
Qed.

Lemma counts_clearProgress (w : Hook.World) :
  Expected.counts_in_range w -> Expected.counts_in_range (Hook.clearProgress w).
Proof.
  intros [Hi Hu]. split.
  - rewrite invocations_clearProgress. exact Hi.
  - rewrite state_clearProgress. exact Hu.
Qed.

(** Assignments that leave the closure variables alone. *)
Lemma counts_updateInvocation (i : nat) (f : Hook.Invocation -> Hook.Invocation)
    (w : Hook.World) :
  (forall inv, Hook.progressIndex (f inv) = Hook.progressIndex inv /\
               Hook.sourcesCount (f inv) = Hook.sourcesCount inv) ->
  Expected.counts_in_range w ->
  Expected.counts_in_range (Hook.updateInvocation i f w).
Proof.
  intros Hf [Hi Hu]. split; [|exact Hu]. cbn.
  apply Forall_modify_nth; [exact Hi|].
  intros x Hx. rewrite List.Forall_forall in Hi.
  specialize (Hi x (nth_error_In _ _ Hx)).
  destruct (Hf x) as [E1 E2]. unfold Expected.counted. rewrite E1, E2. exact Hi.
Qed.

Lemma counts_showProgress (i : nat) (a : Hook.Ambient) (k : nat) (w : Hook.World) :
  Expected.counts_in_range w ->
  Expected.counts_in_range (Hook.showProgress i a k w).
Proof.
  intros [Hi Hu]. unfold Hook.showProgress.
  destruct (nth_error (Hook.invocations w) i) as [inv|] eqn:E; [|split; assumption].
  destruct (nth_error Hook.progressSteps (Hook.progressIndex inv)) as [[msg ty]|]
    eqn:Hstep; [|split; assumption].
  assert (Hinv : Expected.counted inv).
  { rewrite List.Forall_forall in Hi. exact (Hi inv (nth_error_In _ _ E)). }
  pose proof (Nat.mod_upper_bound (Hook.random a) 3 ltac:(discriminate)) as Hr.
  destruct Hinv as (_ & Hlo & Hhi).
  set (sc := match ty with
             | Hook.analyze => Hook.sourcesCount inv + (Hook.random a mod 3 + 2)
             | _ => Hook.sourcesCount inv
             end).
  assert (Hnew : Hook.progressIndex inv < 6 /\
                 2 * Expected.analyze_steps (S (Hook.progressIndex inv)) <= sc /\
                 sc <= 4 * Expected.analyze_steps (S (Hook.progressIndex inv)) /\
                 2 <= sc <= 12).
  { subst sc. revert Hr. generalize (Hook.random a mod 3) as drawn. intros drawn Hr.
    revert Hstep Hlo Hhi.
    generalize (Hook.progressIndex inv) as shown. intros shown Hstep Hlo Hhi.
    destruct shown as [|[|[|[|[|[|n]]]]]];
      unfold Hook.progressSteps in Hstep; simpl in Hstep;
      try (injection Hstep as <- <-; cbn in Hlo, Hhi |- *; lia).
    destruct n; discriminate Hstep. }
  destruct Hnew as (Hlt & Hlo' & Hhi' & Hrange).
  split.
  - cbn. apply Forall_modify_nth; [exact Hi|].
    intros x Hx. rewrite E in Hx. injection Hx as <-.
    unfold Expected.counted. cbn [Hook.progressIndex Hook.sourcesCount]. fold sc.
    split; [lia | split; assumption].
  - cbn. apply List.Forall_app. split; [exact Hu|].
    constructor; [|constructor]. exists sc. split; [reflexivity | exact Hrange].
Qed.

Lemma counts_begin (i : nat) (a : Hook.Ambient) (k : nat) (w : Hook.World) :
  Expected.counts_in_range w ->
  Expected.counts_in_range (Hook.beginProgressAndFetch i a k w).
Proof.
  intros Hw. pose proof (counts_showProgress i a k w Hw) as [Hi Hu].
  unfold Hook.beginProgressAndFetch.
  destruct (nth_error (Hook.invocations (Hook.showProgress i a k w)) i) as [inv|] eqn:E;
    [|split; assumption].
  split; [|exact Hu]. cbn.
  apply Forall_modify_nth; [exact Hi|].
  intros x Hx. rewrite List.Forall_forall in Hi.
  exact (Hi x (nth_error_In _ _ Hx)).
Qed.

Lemma counts_startResearch (u : option string) (q : string) (a : Hook.Ambient)
    (w : Hook.World) :
  Expected.counts_in_range w ->
  Expected.counts_in_range (Hook.startResearch u q a w).
Proof.
  intros Hw. apply counts_clearProgress in Hw. destruct Hw as [Hi Hu].
  unfold Hook.startResearch.
  match goal with
  | |- Expected.counts_in_range (match u with Some _ => ?w0 | None => _ end) =>
      assert (H0 : Expected.counts_in_range w0)
  end.
  { split; cbn.
    - apply List.Forall_app. split; [exact Hi|].
      constructor; [|constructor]. unfold Expected.counted. cbn. lia.
    - constructor. }
  destruct u; [exact H0 | apply counts_begin, H0].
Qed.

Lemma counts_keep_updates (f : Hook.ResearchState -> Hook.ResearchState) (w : Hook.World) :
  Hook.progressUpdates (f (Hook.state w)) = Hook.progressUpdates (Hook.state w) ->
  Expected.counts_in_range w ->
  Expected.counts_in_range (Hook.setState f w).
Proof. intros Hf [Hi Hu]. split; [exact Hi | cbn; rewrite Hf; exact Hu]. Qed.

Lemma counts_setPoint (i : nat) (p : Hook.Point) (w : Hook.World) :
  Expected.counts_in_range w ->
  Expected.counts_in_range (Hook.updateInvocation i (Hook.setPoint p) w).
Proof. apply counts_updateInvocation. intros inv. split; reflexivity. Qed.

Lemma counts_catch (i : nat) (inv : Hook.Invocation) (e : exn) (w : Hook.World) :
  Expected.counts_in_range w -> Expected.counts_in_range (Hook.catch i inv e w).
Proof.
  intros Hw. apply counts_clearProgress in Hw. unfold Hook.catch.
  destruct (Hook.persists inv); apply counts_setPoint; [exact Hw|].
  apply counts_keep_updates; [reflexivity | exact Hw].
Qed.

Lemma counts_resume (i : nat) (r : Hook.Settled) (a : Hook.Ambient) (w : Hook.World) :
  Expected.counts_in_range w ->
  Expected.counts_in_range (Hook.resume Number_toString i r a w).
Proof.
  intros Hw. unfold Hook.resume.
  destruct (nth_error (Hook.invocations w) i) as [inv|]; [|exact Hw].
  destruct (Hook.point inv); destruct r as [[q|e]|[u|e]|[prefs|e]|f| |f];
    try exact Hw; try (apply counts_begin; exact Hw).
  - refine (counts_updateInvocation i (Hook.setQueryId q) w _ Hw).
    intros inv'. split; reflexivity.
  - apply counts_setPoint, Hw.
  - apply counts_begin.
    destruct (Js.get_opt prefs "default_search_depth") as [d|e]; [|exact Hw].
    destruct (Js.truthy d); [|exact Hw].
    apply counts_updateInvocation; [|exact Hw]. intros inv'. split; reflexivity.
  - unfold Hook.afterFetch. destruct f as [response|e]; [|apply counts_catch, Hw].
    destruct (Hook.receive Number_toString a (Hook.questionText inv) response)
      as [report|e]; [|apply counts_catch, counts_clearProgress, Hw].
    destruct (Hook.persists inv); apply counts_setPoint.
    + apply counts_clearProgress, Hw.
    + apply counts_keep_updates; [reflexivity | apply counts_clearProgress, Hw].
  - apply counts_setPoint. apply counts_keep_updates; [reflexivity | exact Hw].
  - apply counts_setPoint. apply counts_keep_updates; [reflexivity | exact Hw].
Qed.

Lemma counts_step (w : Hook.World) (ae : Hook.Ambient * Hook.Event) :
  Expected.counts_in_range w -> Expected.counts_in_range (step w ae).
Proof.
  intros Hw. destruct ae as [a e]. unfold step, Hook.step.
  destruct e as [u q|u q| |m|h|i r].
  - apply counts_startResearch, Hw.
  - apply counts_startResearch, Hw.
  - apply counts_clearProgress in Hw. destruct Hw as [Hi _].
    split; [exact Hi | constructor].
  - apply counts_keep_updates; [reflexivity | apply counts_clearProgress, Hw].
  - destruct (existsb (Nat.eqb h) (Hook.intervals w)); [|exact Hw].
    apply counts_showProgress, Hw.
  - apply counts_resume, Hw.
Qed.

Lemma counts_run (trace : list (Hook.Ambient * Hook.Event)) :
  forall w, Expected.counts_in_range w -> Expected.counts_in_range (run w trace).
Proof.
  induction trace as [|ae trace IH]; intros w Hw; [exact Hw|].
  apply IH, counts_step, Hw.
Qed.

(** The source counter of the progress messages stays in range.  In every
    run of the hook, whatever the order of calls, ticks and settlements and
    whatever [Math.random] draws, each progress update on display counts
    between 2 and 12 sources, and no activation of [startResearch] shows
    more than its six messages. *)
Theorem progress_counts_stay_in_range :
  forall trace,
    Forall Expected.plausible
      (Hook.progressUpdates (Hook.state (run Hook.initialWorld trace))) /\
    Forall (fun inv => Hook.progressIndex inv <= 6)
      (Hook.invocations (run Hook.initialWorld trace)).
Proof.
  intros trace.
  assert (H0 : Expected.counts_in_range Hook.initialWorld)
    by (split; constructor).
  destruct (counts_run trace _ H0) as [Hi Hu]. split; [exact Hu|].
  apply (List.Forall_impl _ (P := Expected.counted)); [|exact Hi].
  intros inv Hinv. exact (proj1 Hinv).
Qed.

End Counter.

(* ================================================================= *)
(** * One request per research *)

Section Requests.

Variable Number_toString : float -> string.

Let step := Hook.step Number_toString.
Let run := Hook.run Number_toString.

Lemma length_modify_nth {A} (f : A -> A) :
  forall (l : list A) i, List.length (Hook.modify_nth i f l) = List.length l.
Proof. induction l as [|y l IH]; intros [|i]; simpl; congruence. Qed.

Lemma filter_modify_nth {A} (P : A -> bool) (f : A -> A) :
  forall (l : list A) i x,
    nth_error l i = Some x ->
    List.length (List.filter P (Hook.modify_nth i f l)) + Nat.b2n (P x)
    = List.length (List.filter P l) + Nat.b2n (P (f x)).
Proof.
  induction l as [|y l IH]; intros [|i] x H; simpl in *; try discriminate.
  - injection H as <-. destruct (P y), (P (f y)); simpl; lia.
  - specialize (IH i x H). destruct (P y); simpl; lia.
Qed.

Lemma balanced_same (w w' : Hook.World) :
  Hook.requests w' = Hook.requests w ->
  Hook.invocations w' = Hook.invocations w ->
  Expected.balanced w -> Expected.balanced w'.
Proof. unfold Expected.balanced, Expected.requesting. intros -> ->. exact id. Qed.

Lemma balanced_updateInvocation (i : nat) (f : Hook.Invocation -> Hook.Invocation)
    (w : Hook.World) :
  (forall inv, Hook.point (f inv) = Hook.point inv
               \/ (Expected.before_request (Hook.point inv)
                    = Expected.before_request (Hook.point (f inv)))) ->
  Expected.balanced w -> Expected.balanced (Hook.updateInvocation i f w).
Proof.
  intros Hf Hw. unfold Expected.balanced, Expected.requesting in *. cbn.
  destruct (nth_error (Hook.invocations w) i) as [x|] eqn:E.
  - pose proof (filter_modify_nth Expected.past_request f _ i x E) as H.
    assert (Expected.past_request (f x) = Expected.past_request x).
    { unfold Expected.past_request. destruct (Hf x) as [-> | ->]; reflexivity. }
    rewrite H0 in H. lia.
  - assert (Hook.modify_nth i f (Hook.invocations w) = Hook.invocations w).
    { clear -E. revert i E. induction (Hook.invocations w) as [|y l IH];
        intros [|i] E; simpl in *; try reflexivity; try discriminate.
      rewrite IH by exact E. reflexivity. }
    rewrite H. exact Hw.
Qed.

Lemma balanced_showProgress (i : nat) (a : Hook.Ambient) (k : nat) (w : Hook.World) :
  Expected.balanced w -> Expected.balanced (Hook.showProgress i a k w).
Proof.
  intros Hw. unfold Hook.showProgress.
  destruct (nth_error (Hook.invocations w) i) as [inv|]; [|exact Hw].
  destruct (nth_error Hook.progressSteps (Hook.progressIndex inv)) as [[msg ty]|];
    [|exact Hw].
  apply balanced_updateInvocation; [intros inv'; left; reflexivity|].
  exact Hw.
Qed.

(** Posting the request of an activation that is before its request. *)
Lemma balanced_begin (i : nat) (a : Hook.Ambient) (k : nat) (w : Hook.World)
    (inv : Hook.Invocation) :
  nth_error (Hook.invocations w) i = Some inv ->
  Expected.before_request (Hook.point inv) = true ->
  Expected.balanced w -> Expected.balanced (Hook.beginProgressAndFetch i a k w).
Proof.
  intros Hi Hpre Hw.
  pose proof (balanced_showProgress i a k w Hw) as Hs.
  assert (Hshown : exists inv',
             nth_error (Hook.invocations (Hook.showProgress i a k w)) i = Some inv' /\
             Hook.point inv' = Hook.point inv).
  { unfold Hook.showProgress. rewrite Hi.
    destruct (nth_error Hook.progressSteps (Hook.progressIndex inv)) as [[msg ty]|].
    - cbn. rewrite (nth_error_modify_nth _ _ _ _ Hi). eexists. split; reflexivity.
    - exists inv. split; [exact Hi | reflexivity]. }
  destruct Hshown as (inv' & Hi' & Hp').
  unfold Hook.beginProgressAndFetch. rewrite Hi'.
  pose proof (filter_modify_nth Expected.past_request (Hook.setPoint Hook.AwaitFetch)
                _ i inv' Hi') as H.
  assert (Hbefore : Expected.past_request inv' = false).
  { unfold Expected.past_request. rewrite Hp', Hpre. reflexivity. }
  assert (Hafter : Expected.past_request (Hook.setPoint Hook.AwaitFetch inv') = true)
    by reflexivity.
  rewrite Hbefore, Hafter in H. cbn [Nat.b2n] in H.
  unfold Expected.balanced, Expected.requesting in *.
  cbn [Hook.requests Hook.invocations].
  rewrite List.length_app. cbn [List.length]. lia.
Qed.

Lemma balanced_clearProgress (w : Hook.World) :
  Expected.balanced w -> Expected.balanced (Hook.clearProgress w).
Proof.
  apply balanced_same; [|apply invocations_clearProgress].
  unfold Hook.clearProgress. destruct (Hook.progressIntervalRef w); reflexivity.
Qed.

Lemma length_invocations_showProgress (i : nat) (a : Hook.Ambient) (k : nat)
    (w : Hook.World) :
  List.length (Hook.invocations (Hook.showProgress i a k w))
  = List.length (Hook.invocations w).
Proof.
  unfold Hook.showProgress.
  destruct (nth_error (Hook.invocations w) i) as [inv|]; [|reflexivity].
  destruct (nth_error Hook.progressSteps (Hook.progressIndex inv)) as [[msg ty]|];
    [|reflexivity].
  cbn. apply length_modify_nth.
Qed.

Lemma length_invocations_begin (i : nat) (a : Hook.Ambient) (k : nat) (w : Hook.World) :
  List.length (Hook.invocations (Hook.beginProgressAndFetch i a k w))
  = List.length (Hook.invocations w).
Proof.
  unfold Hook.beginProgressAndFetch.
  destruct (nth_error (Hook.invocations (Hook.showProgress i a k w)) i).
  - cbn [Hook.invocations]. rewrite length_modify_nth.
    apply length_invocations_showProgress.
  - apply length_invocations_showProgress.
Qed.

Lemma balanced_startResearch (u : option string) (q : string) (a : Hook.Ambient)
    (w : Hook.World) :
  Expected.balanced w ->
  Expected.balanced (Hook.startResearch u q a w) /\
  List.length (Hook.invocations (Hook.startResearch u q a w))
  = S (List.length (Hook.invocations w)).
Proof.
  intros Hw. apply balanced_clearProgress in Hw.
  unfold Hook.startResearch.
  match goal with
  | |- Expected.balanced (match u with Some _ => ?w0 | None => _ end) /\ _ =>
      set (w3 := w0)
  end.
  assert (H3 : Expected.balanced w3).
  { unfold Expected.balanced, Expected.requesting in *. subst w3.
    cbn [Hook.requests Hook.invocations Hook.setState].
    rewrite List.filter_app, List.length_app. cbn. lia. }
  assert (L3 : List.length (Hook.invocations w3) = S (List.length (Hook.invocations w))).
  { subst w3. cbn [Hook.invocations Hook.setState].
    rewrite List.length_app, invocations_clearProgress. simpl. lia. }
  destruct u; [split; assumption|].
  split.
  - eapply balanced_begin;
      [ subst w3; cbn [Hook.invocations Hook.setState];
        rewrite nth_error_app2 by apply Nat.le_refl;
        rewrite Nat.sub_diag; reflexivity
      | reflexivity
      | exact H3 ].
  - rewrite length_invocations_begin. exact L3.
Qed.

Lemma balanced_setPoint (i : nat) (p : Hook.Point) (w : Hook.World)
    (inv : Hook.Invocation) :
  nth_error (Hook.invocations w) i = Some inv ->
  Expected.before_request (Hook.point inv) = Expected.before_request p ->
  Expected.balanced w -> Expected.balanced (Hook.updateInvocation i (Hook.setPoint p) w).
Proof.
  intros Hi Hp Hw. unfold Expected.balanced, Expected.requesting in *.
  cbn [Hook.updateInvocation Hook.requests Hook.invocations].
  pose proof (filter_modify_nth Expected.past_request (Hook.setPoint p) _ i inv Hi) as H.
  assert (Hsame : Expected.past_request (Hook.setPoint p inv) = Expected.past_request inv).
  { unfold Expected.past_request. cbn [Hook.setPoint Hook.point]. rewrite Hp. reflexivity. }
  rewrite Hsame in H. lia.
Qed.

Lemma balanced_setPoint_in (i : nat) (p : Hook.Point) (w w' : Hook.World)
    (inv : Hook.Invocation) :
  Hook.requests w' = Hook.requests w ->
  Hook.invocations w' = Hook.invocations w ->
  nth_error (Hook.invocations w) i = Some inv ->
  Expected.before_request (Hook.point inv) = Expected.before_request p ->
  Expected.balanced w -> Expected.balanced (Hook.updateInvocation i (Hook.setPoint p) w').
Proof.
  intros Hr Hi Hn Hp Hw. apply (balanced_setPoint i p w' inv).
  - rewrite Hi. exact Hn.
  - exact Hp.
  - exact (balanced_same w w' Hr Hi Hw).
Qed.

Lemma requests_clearProgress (w : Hook.World) :
  Hook.requests (Hook.clearProgress w) = Hook.requests w.
Proof. unfold Hook.clearProgress. destruct (Hook.progressIntervalRef w); reflexivity. Qed.

Lemma balanced_catch (i : nat) (inv : Hook.Invocation) (e : exn) (w : Hook.World) :
  nth_error (Hook.invocations w) i = Some inv ->
  Hook.point inv = Hook.AwaitFetch ->
  Expected.balanced w -> Expected.balanced (Hook.catch i inv e w).
Proof.
  intros Hn Hp Hw. unfold Hook.catch.
  destruct (Hook.persists inv);
    apply (balanced_setPoint_in i _ w _ inv); try assumption;
    try (rewrite Hp; reflexivity);
    try apply requests_clearProgress; try apply invocations_clearProgress.
Qed.

Lemma balanced_update_at (i : nat) (f : Hook.Invocation -> Hook.Invocation)
    (w : Hook.World) (inv : Hook.Invocation) :
  nth_error (Hook.invocations w) i = Some inv ->
  Expected.past_request (f inv) = Expected.past_request inv ->
  Expected.balanced w -> Expected.balanced (Hook.updateInvocation i f w).
Proof.
  intros Hi Hsame Hw. unfold Expected.balanced, Expected.requesting in *.
  cbn [Hook.updateInvocation Hook.requests Hook.invocations].
  pose proof (filter_modify_nth Expected.past_request f _ i inv Hi) as H.
  rewrite Hsame in H. lia.
Qed.

Lemma balanced_resume (i : nat) (r : Hook.Settled) (a : Hook.Ambient) (w : Hook.World) :
  Expected.balanced w -> Expected.balanced (Hook.resume Number_toString i r a w).
Proof.
  intros Hw. unfold Hook.resume.
  destruct (nth_error (Hook.invocations w) i) as [inv|] eqn:Hn; [|exact Hw].
  destruct (Hook.point inv) eqn:Hp; destruct r as [[q|e]|[u|e]|[prefs|e]|f| |f];
    try exact Hw;
    try (apply (balanced_begin i a 0 w inv Hn); [rewrite Hp; reflexivity | exact Hw]).
  - apply (balanced_same (Hook.updateInvocation i (Hook.setQueryId q) w));
      [reflexivity | reflexivity |].
    apply (balanced_update_at i _ w inv Hn); [|exact Hw].
    unfold Expected.past_request. rewrite Hp. reflexivity.
  - apply (balanced_setPoint i _ w inv Hn); [rewrite Hp; reflexivity | exact Hw].
  - destruct (Js.get_opt prefs "default_search_depth") as [d|e];
      [|apply (balanced_begin i a 0 w inv Hn); [rewrite Hp; reflexivity | exact Hw]].
    destruct (Js.truthy d);
      [|apply (balanced_begin i a 0 w inv Hn); [rewrite Hp; reflexivity | exact Hw]].
    apply (balanced_begin i a 0 _ (Hook.setSearchDepth d inv)).
    + cbn [Hook.updateInvocation Hook.invocations].
      apply nth_error_modify_nth, Hn.
    + cbn [Hook.setSearchDepth Hook.point]. rewrite Hp. reflexivity.
    + apply (balanced_update_at i _ w inv Hn); [reflexivity | exact Hw].
  - unfold Hook.afterFetch.
    destruct f as [response|e]; [|apply balanced_catch; assumption].
    destruct (Hook.receive Number_toString a (Hook.questionText inv) response)
      as [report|e].
    + destruct (Hook.persists inv);
        apply (balanced_setPoint_in i _ w _ inv); try assumption;
        try (rewrite Hp; reflexivity);
        try apply requests_clearProgress; try apply invocations_clearProgress.
    + apply balanced_catch; [|exact Hp|apply balanced_clearProgress, Hw].
      rewrite invocations_clearProgress. exact Hn.
  - apply (balanced_setPoint_in i _ w _ inv); try assumption; try reflexivity.
    rewrite Hp. reflexivity.
  - apply (balanced_setPoint_in i _ w _ inv); try assumption; try reflexivity.
    rewrite Hp. reflexivity.
Qed.

Lemma length_invocations_update (i : nat) (f : Hook.Invocation -> Hook.Invocation)
    (w : Hook.World) :
  List.length (Hook.invocations (Hook.updateInvocation i f w))
  = List.length (Hook.invocations w).
Proof. cbn. apply length_modify_nth. Qed.

Lemma length_invocations_catch (i : nat) (inv : Hook.Invocation) (e : exn)
    (w : Hook.World) :
  List.length (Hook.invocations (Hook.catch i inv e w))
  = List.length (Hook.invocations w).
Proof.
  unfold Hook.catch. destruct (Hook.persists inv);
    rewrite length_invocations_update; cbn [Hook.fail Hook.setState Hook.invocations];
    rewrite invocations_clearProgress; reflexivity.
Qed.

Lemma length_invocations_resume (i : nat) (r : Hook.Settled) (a : Hook.Ambient)
    (w : Hook.World) :
  List.length (Hook.invocations (Hook.resume Number_toString i r a w))
  = List.length (Hook.invocations w).
Proof.
  unfold Hook.resume.
  destruct (nth_error (Hook.invocations w) i) as [inv|]; [|reflexivity].
  destruct (Hook.point inv); destruct r as [[q|e]|[u|e]|[prefs|e]|f| |f];
    try reflexivity;
    try apply length_invocations_begin;
    try (cbn; apply length_modify_nth).
  - rewrite length_invocations_begin.
    destruct (Js.get_opt prefs "default_search_depth") as [d|e]; [|reflexivity].
    destruct (Js.truthy d); [|reflexivity].
    apply length_invocations_update.
  - unfold Hook.afterFetch.
    destruct f as [response|e]; [|apply length_invocations_catch].
    destruct (Hook.receive Number_toString a (Hook.questionText inv) response)
      as [report|e].
    + destruct (Hook.persists inv);
        rewrite length_invocations_update;
        cbn [Hook.complete Hook.setState Hook.invocations];
        rewrite invocations_clearProgress; reflexivity.
    + rewrite length_invocations_catch, invocations_clearProgress. reflexivity.
Qed.

Lemma balanced_step (w : Hook.World) (ae : Hook.Ambient * Hook.Event) :
  Expected.balanced w ->
  Expected.balanced (step w ae) /\
  List.length (Hook.invocations (step w ae))
  = List.length (Hook.invocations w) + Nat.b2n (Expected.starts_research (snd ae)).
Proof.
  intros Hw. destruct ae as [a e]. unfold step, Hook.step.
  destruct e as [u q|u q| |m|h|i r]; cbn [snd Expected.starts_research Nat.b2n].
  - rewrite Nat.add_1_r. apply balanced_startResearch, Hw.
  - rewrite Nat.add_1_r. apply (balanced_startResearch u q a w Hw).
  - rewrite Nat.add_0_r. split.
    + apply (balanced_same (Hook.clearProgress w)); [reflexivity | reflexivity |].
      apply balanced_clearProgress, Hw.
    + unfold Hook.reset. cbn [Hook.setState Hook.setCurrentQueryId Hook.invocations].
      apply f_equal, invocations_clearProgress.
  - rewrite Nat.add_0_r. split.
    + apply (balanced_same (Hook.clearProgress w)); [reflexivity | reflexivity |].
      apply balanced_clearProgress, Hw.
    + unfold Hook.setError. cbn [Hook.setState Hook.invocations].
      apply f_equal, invocations_clearProgress.
  - rewrite Nat.add_0_r.
    destruct (existsb (Nat.eqb h) (Hook.intervals w)); [|split; [exact Hw | reflexivity]].
    split; [apply balanced_showProgress, Hw | apply length_invocations_showProgress].
  - rewrite Nat.add_0_r.
    split; [apply balanced_resume, Hw | apply length_invocations_resume].
Qed.

Lemma balanced_run (trace : list (Hook.Ambient * Hook.Event)) :
  forall w,
    Expected.balanced w ->
    Expected.balanced (run w trace) /\
    List.length (Hook.invocations (run w trace))
    = List.length (Hook.invocations w) + Expected.starts_in trace.
Proof.
  induction trace as [|ae trace IH]; intros w Hw.
  - split; [exact Hw|]. cbn. lia.
  - destruct (balanced_step w ae Hw) as [Hs Ls].
    destruct (IH _ Hs) as [Hr Lr]. split; [exact Hr|].
    change (run w (ae :: trace)) with (run (step w ae) trace).
    rewrite Lr, Ls. unfold Expected.starts_in. cbn [List.filter].
    destruct (Expected.starts_research (snd ae)); cbn [Nat.b2n List.length]; lia.
Qed.

Lemma filter_length_le {A} (P : A -> bool) (l : list A) :
  List.length (List.filter P l) <= List.length l.
Proof. induction l as [|x l IH]; simpl; [lia|]. destruct (P x); simpl; lia. Qed.

(** One request per research.  In every run of the hook, as many requests
    have been posted to /api/research as activations of [startResearch]
    (or [submitFollowUp]) have come to their [fetch], and there are as many
    activations as calls: no request is repeated, whatever fails and
    whatever fires. *)
Theorem one_request_per_research :
  forall trace,
    let w := run Hook.initialWorld trace in
    List.length (Hook.requests w) = Expected.requesting w /\
    List.length (Hook.invocations w) = Expected.starts_in trace /\
    List.length (Hook.requests w) <= Expected.starts_in trace.
Proof.
  intros trace w.
  assert (H0 : Expected.balanced Hook.initialWorld) by reflexivity.
  destruct (balanced_run trace _ H0) as [Hb Hl].
  fold w in Hb, Hl. cbn in Hl.
  split; [exact Hb|]. split; [exact Hl|].
  rewrite Hb, <- Hl. apply filter_length_le.
Qed.

End Requests.

(* ================================================================= *)
(** * Progress follows the script *)

Section Script.

Variable Number_toString : float -> string.

Let resume := Hook.resume Number_toString.
Let step := Hook.step Number_toString.
Let run := Hook.run Number_toString.

Lemma firstn_S_nth_error {A} :
  forall (l : list A) k x,
    nth_error l k = Some x -> List.firstn (S k) l = (List.firstn k l ++ [x])%list.
Proof.
  induction l as [|y l IH]; intros [|k] x H; simpl in *; try discriminate.
  - injection H as <-. reflexivity.
  - rewrite (IH k x H). reflexivity.
Qed.

Lemma scripted_of_no_intervals (w : Hook.World) (k : nat) :
  Hook.intervals w = [] ->
  List.map Expected.shown (Hook.progressUpdates (Hook.state w))
  = List.firstn k Hook.progressSteps ->
  Expected.scripted w.
Proof.
  intros Ht Hl. exists k. split; [exact Hl|].
  intros h inv Hin. rewrite Ht in Hin. destruct Hin.
Qed.

(** What [showProgress] does for an activation with a step left. *)
Lemma showProgress_shows (i : nat) (a : Hook.Ambient) (k : nat) (w : Hook.World)
    (inv : Hook.Invocation) (msg : string) (ty : Hook.UpdateType) :
  nth_error (Hook.invocations w) i = Some inv ->
  nth_error Hook.progressSteps (Hook.progressIndex inv) = Some (msg, ty) ->
  let w' := Hook.showProgress i a k w in
  List.map Expected.shown (Hook.progressUpdates (Hook.state w'))
  = (List.map Expected.shown (Hook.progressUpdates (Hook.state w)) ++ [(msg, ty)])%list /\
  exists inv',
    nth_error (Hook.invocations w') i = Some inv' /\
    Hook.progressIndex inv' = S (Hook.progressIndex inv) /\
    Hook.point inv' = Hook.point inv.
Proof.
  intros Hi Hs. unfold Hook.showProgress. rewrite Hi, Hs.
  cbn [Hook.updateInvocation Hook.addProgressUpdate Hook.setState Hook.state
       Hook.invocations Hook.progressUpdates].
  split.
  - rewrite List.map_app. reflexivity.
  - eexists. split; [apply nth_error_modify_nth, Hi|]. split; reflexivity.
Qed.

(** A tick of an interval that is set. *)
Lemma tick_scripted (h : nat) (a : Hook.Ambient) (w : Hook.World) :
  Expected.tidy w -> Expected.scripted w -> In h (Hook.intervals w) ->
  Expected.scripted (Hook.showProgress h a 0 w).
Proof.
  intros [Href _] (k & Hl & Hidx) Hin.
  destruct (nth_error (Hook.invocations w) h) as [inv|] eqn:Hi.
  - pose proof (Hidx h inv Hin Hi) as Hk.
    destruct (nth_error Hook.progressSteps (Hook.progressIndex inv)) as [[msg ty]|] eqn:Hs.
    + destruct (showProgress_shows h a 0 w inv msg ty Hi Hs) as (Hl' & inv' & Hi' & Hk' & _).
      exists (S k). split.
      * rewrite Hl', Hl. rewrite Hk in Hs.
        symmetry. apply firstn_S_nth_error, Hs.
      * intros h' y Hin' Hy.
        rewrite (proj1 (showProgress_timers h a 0 w)) in Hin'.
        assert (h' = h).
        { pose proof (Href h' Hin') as E1. pose proof (Href h Hin) as E2. congruence. }
        subst h'. rewrite Hi' in Hy. injection Hy as <-. rewrite Hk', Hk. reflexivity.
    + unfold Hook.showProgress. rewrite Hi, Hs. exists k. split; assumption.
  - unfold Hook.showProgress. rewrite Hi. exists k. split; assumption.
Qed.

(** A signed-out [startResearch] shows the first step of the script and
    sets the interval that will show the second. *)
Lemma startResearch_scripted (q : string) (a : Hook.Ambient) (w : Hook.World) :
  Expected.tidy w -> Expected.scripted (Hook.startResearch None q a w).
Proof.
  intros Hw. pose proof (clearProgress_tidy w Hw) as Hclear.
  unfold Hook.startResearch.
  set (i := List.length (Hook.invocations _)).
  match goal with
  | |- Expected.scripted (Hook.beginProgressAndFetch ?i0 ?a0 ?k0 ?w0) =>
      set (w3 := w0)
  end.
  set (new := {| Hook.user := None;
                 Hook.questionText := q;
                 Hook.queryId := None;
                 Hook.searchDepth := VStr "standard";
                 Hook.progressIndex := 0;
                 Hook.sourcesCount := 0;
                 Hook.point := Hook.AwaitCreateQuery |}).
  assert (Hnew : nth_error (Hook.invocations w3) i = Some new).
  { subst w3 i. cbn [Hook.invocations Hook.setState].
    rewrite nth_error_app2 by apply Nat.le_refl.
    rewrite Nat.sub_diag. reflexivity. }
  assert (T3 : Hook.intervals w3 = []) by exact Hclear.
  assert (P3 : Hook.progressUpdates (Hook.state w3) = []) by reflexivity.
  destruct (showProgress_shows i a 1 w3 new _ _ Hnew eq_refl) as (Hl & inv' & Hi' & Hk' & _).
  unfold Hook.beginProgressAndFetch. rewrite Hi'.
  exists 1. split.
  - cbn [Hook.state]. rewrite Hl, P3. reflexivity.
  - intros h y Hin Hy. cbn [Hook.intervals Hook.invocations] in Hin, Hy.
    rewrite (proj1 (showProgress_timers i a 1 w3)), T3 in Hin.
    destruct Hin as [<-|[]].
    rewrite (nth_error_modify_nth _ _ _ _ Hi') in Hy. injection Hy as <-.
    exact Hk'.
Qed.

(** A settlement, in a world where no activation is before its request,
    leaves the step counters of the activations as they are. *)
Lemma resume_keeps_progressIndex (i : nat) (r : Hook.Settled) (a : Hook.Ambient)
    (w : Hook.World) :
  Expected.none_before_request w ->
  forall j inv',
    nth_error (Hook.invocations (resume i r a w)) j = Some inv' ->
    exists inv,
      nth_error (Hook.invocations w) j = Some inv /\
      Hook.progressIndex inv' = Hook.progressIndex inv.
Proof.
  intros Hw j inv'. unfold resume, Hook.resume.
  destruct (nth_error (Hook.invocations w) i) as [inv|] eqn:Hi;
    [|intros H; exists inv'; split; [exact H | reflexivity]].
  pose proof (Hw i inv Hi) as Hpre.
  assert (Hset : forall p w0,
             Hook.invocations w0 = Hook.invocations w ->
             nth_error (Hook.invocations (Hook.updateInvocation i (Hook.setPoint p) w0)) j
             = Some inv' ->
             exists inv0,
               nth_error (Hook.invocations w) j = Some inv0 /\
               Hook.progressIndex inv' = Hook.progressIndex inv0).
  { intros p w0 E H. cbn [Hook.updateInvocation Hook.invocations] in H. rewrite E in H.
    destruct (nth_error_modify_nth_inv _ _ _ _ _ H) as [[_ H']|(_ & x & Hx & ->)].
    - exists inv'. split; [exact H' | reflexivity].
    - exists x. split; [exact Hx | reflexivity]. }
  assert (Hcatch : forall e w0,
             Hook.invocations w0 = Hook.invocations w ->
             nth_error (Hook.invocations (Hook.catch i inv e w0)) j = Some inv' ->
             exists inv0,
               nth_error (Hook.invocations w) j = Some inv0 /\
               Hook.progressIndex inv' = Hook.progressIndex inv0).
  { intros e w0 E. unfold Hook.catch.
    destruct (Hook.persists inv); apply Hset;
      cbn [Hook.fail Hook.setState Hook.invocations];
      rewrite invocations_clearProgress; exact E. }
  destruct (Hook.point inv) eqn:Hp; try discriminate Hpre;
    destruct r as [[q|e]|[u|e]|[prefs|e]|f| |f];
    try (intros H; exists inv'; split; [exact H | reflexivity]).
  - unfold Hook.afterFetch. destruct f as [response|e]; [|apply Hcatch; reflexivity].
    destruct (Hook.receive Number_toString a (Hook.questionText inv) response)
      as [report|e]; [|apply Hcatch, invocations_clearProgress].
    destruct (Hook.persists inv); apply Hset;
      cbn [Hook.complete Hook.setState Hook.invocations];
      apply invocations_clearProgress.
  - apply Hset. reflexivity.
  - apply Hset. reflexivity.
Qed.

Lemma scripted_step (w : Hook.World) (a : Hook.Ambient) (e : Hook.Event) :
  Expected.tidy w -> Expected.scripted w -> Expected.signed_out e ->
  Expected.scripted (step w (a, e)).
Proof.
  intros Hw Hs He. unfold step, Hook.step.
  destruct e as [u q|u q| |m|h|i r]; cbn in He.
  - subst u. apply startResearch_scripted, Hw.
  - subst u. apply startResearch_scripted, Hw.
  - apply (scripted_of_no_intervals _ 0); [exact (clearProgress_tidy w Hw) | reflexivity].
  - destruct Hs as (k & Hl & _).
    apply (scripted_of_no_intervals _ k); [exact (clearProgress_tidy w Hw)|].
    cbn [Hook.setError Hook.setState Hook.state Hook.progressUpdates].
    rewrite state_clearProgress. exact Hl.
  - destruct (existsb (Nat.eqb h) (Hook.intervals w)) eqn:E; [|exact Hs].
    apply tick_scripted; [exact Hw | exact Hs |].
    apply List.existsb_exists in E. destruct E as (h' & Hin & Heq).
    apply Nat.eqb_eq in Heq. subst h'. exact Hin.
  - fold resume. destruct Hs as (k & Hl & Hidx).
    destruct (resume_after_request Number_toString i r a w (proj2 Hw))
      as (_ & Hp & [[Ht _]|[Ht _]]).
    + exists k. split; [fold resume in Hp; rewrite Hp; exact Hl|].
      intros h y Hin Hy. fold resume in Ht. rewrite Ht in Hin.
      destruct (resume_keeps_progressIndex i r a w (proj2 Hw) h y Hy) as (x & Hx & ->).
      exact (Hidx h x Hin Hx).
    + apply (scripted_of_no_intervals _ k).
      * fold resume in Ht. rewrite Ht. exact (clearProgress_tidy w Hw).
      * fold resume in Hp. rewrite Hp. exact Hl.
Qed.

Lemma scripted_run (trace : list (Hook.Ambient * Hook.Event)) :
  forall w,
    Expected.tidy w -> Expected.scripted w ->
    Forall (fun ae => Expected.signed_out (snd ae)) trace ->
    Expected.scripted (run w trace).
Proof.
  induction trace as [|[a e] trace IH]; intros w Hw Hs Ht; [exact Hs|].
  inversion Ht as [|? ? He Hrest]; subst. cbn in He.
  apply IH; [apply tidy_step; assumption | apply scripted_step; assumption | exact Hrest].
Qed.

(** Progress follows the script.  In a session whose researches are all
    started signed out, the progress messages on display are at every moment
    the first [k] of the six scripted steps, in the script's order: none is
    shown twice, none is skipped, and none of an earlier research is mixed
    in, whatever fires or settles late. *)
Theorem signed_out_progress_follows_the_script :
  forall trace : list (Hook.Ambient * Hook.Event),
    Forall (fun ae => Expected.signed_out (snd ae)) trace ->
    exists k,
      List.map Expected.shown
        (Hook.progressUpdates (Hook.state (run Hook.initialWorld trace)))
      = List.firstn k Hook.progressSteps.
Proof.
  intros trace Ht.
  destruct (scripted_run trace Hook.initialWorld) as (k & Hl & _).
  - exact (tidy_initialWorld).
  - apply (scripted_of_no_intervals _ 0); reflexivity.
  - exact Ht.
  - exists k. exact Hl.
Qed.

End Script.

(* ================================================================= *)
(** * The form in front of the hook *)

Lemma trimStart_idempotent (s : string) :
  JsString.trimStart (JsString.trimStart s) = JsString.trimStart s.
Proof.
  induction s as [|c r IH]; [reflexivity|].
  cbn [JsString.trimStart]. destruct (JsString.isWhiteSpace c) eqn:Hc; [exact IH|].
  cbn [JsString.trimStart]. rewrite Hc. reflexivity.
Qed.

Lemma trimEnd_idempotent (s : string) :
  JsString.trimEnd (JsString.trimEnd s) = JsString.trimEnd s.
Proof.
  induction s as [|c r IH]; [reflexivity|].
  cbn [JsString.trimEnd].
  destruct (JsString.isWhiteSpace c && String.eqb (JsString.trimEnd r) "") eqn:E;
    [reflexivity|].
  cbn [JsString.trimEnd]. rewrite IH, E. reflexivity.
Qed.

(** [trimEnd] does not uncover leading white space. *)
Lemma trimStart_trimEnd (s : string) :
  JsString.trimStart s = s ->
  JsString.trimStart (JsString.trimEnd s) = JsString.trimEnd s.
Proof.
  destruct s as [|c r]; [reflexivity|].
  cbn [JsString.trimStart]. destruct (JsString.isWhiteSpace c) eqn:Hc.
  - intros H. exfalso. pose proof (length_trimStart r) as L.
    rewrite H in L. simpl in L. lia.
  - intros _. cbn [JsString.trimEnd]. rewrite Hc. cbn [andb JsString.trimStart].
    rewrite Hc. reflexivity.
Qed.

Lemma trim_idempotent (s : string) :
  JsString.trim (JsString.trim s) = JsString.trim s.
Proof.
  unfold JsString.trim.
  rewrite (trimStart_trimEnd _ (trimStart_idempotent s)).
  apply trimEnd_idempotent.
Qed.

(** White space around a question does not matter.  Submitting a question
    through the form does exactly what submitting its trimmed text does:
    the same session state, the same activation, the same request. *)
Theorem form_ignores_surrounding_white_space :
  forall isLoading u question a w,
    Hook.handleSubmit isLoading u (JsString.trim question) a w
    = Hook.handleSubmit isLoading u question a w.
Proof.
  intros isLoading u question a w. unfold Hook.handleSubmit.
  rewrite trim_idempotent. reflexivity.
Qed.

(* ================================================================= *)
(** * What is asked and what is posted *)

Section Asked.

Variable Number_toString : float -> string.

Let resume := Hook.resume Number_toString.
Let step := Hook.step Number_toString.
Let run := Hook.run Number_toString.

Lemma requests_showProgress (i : nat) (a : Hook.Ambient) (k : nat) (w : Hook.World) :
  Hook.requests (Hook.showProgress i a k w) = Hook.requests w.
Proof.
  unfold Hook.showProgress.
  destruct (nth_error (Hook.invocations w) i) as [inv|]; [|reflexivity].
  destruct (nth_error Hook.progressSteps (Hook.progressIndex inv)) as [[msg ty]|];
    reflexivity.
Qed.

(** What the request of an activation carries. *)
Lemma begin_posts (i : nat) (a : Hook.Ambient) (k : nat) (w : Hook.World)
    (inv : Hook.Invocation) :
  nth_error (Hook.invocations w) i = Some inv ->
  Hook.requests (Hook.beginProgressAndFetch i a k w)
  = (Hook.requests w ++ [Wire.posted inv])%list.
Proof.
  intros Hi.
  assert (Hshown : exists inv',
             nth_error (Hook.invocations (Hook.showProgress i a k w)) i = Some inv' /\
             Hook.questionText inv' = Hook.questionText inv /\
             Hook.searchDepth inv' = Hook.searchDepth inv).
  { unfold Hook.showProgress. rewrite Hi.
    destruct (nth_error Hook.progressSteps (Hook.progressIndex inv)) as [[msg ty]|].
    - cbn [Hook.updateInvocation Hook.addProgressUpdate Hook.setState Hook.invocations].
      rewrite (nth_error_modify_nth _ _ _ _ Hi). eexists. repeat split.
    - exists inv. repeat split. exact Hi. }
  destruct Hshown as (inv' & Hi' & Hq' & Hd').
  unfold Hook.beginProgressAndFetch. cbv zeta. rewrite Hi'.
  cbn [Hook.requests]. rewrite requests_showProgress.
  unfold Wire.posted. rewrite Hq', Hd'. reflexivity.
Qed.

(** A settlement, in a world where no activation is before its request,
    posts nothing. *)
Lemma resume_posts_nothing (i : nat) (r : Hook.Settled) (a : Hook.Ambient)
    (w : Hook.World) :
  Expected.none_before_request w ->
  Hook.requests (resume i r a w) = Hook.requests w.
Proof.
  intros Hw. unfold resume, Hook.resume.
  destruct (nth_error (Hook.invocations w) i) as [inv|] eqn:Hi; [|reflexivity].
  pose proof (Hw i inv Hi) as Hpre.
  assert (Hcatch : forall e w0, Hook.requests w0 = Hook.requests w ->
                                Hook.requests (Hook.catch i inv e w0) = Hook.requests w).
  { intros e w0 E. unfold Hook.catch.
    destruct (Hook.persists inv);
      cbn [Hook.updateInvocation Hook.fail Hook.setState Hook.requests];
      rewrite requests_clearProgress; exact E. }
  destruct (Hook.point inv) eqn:Hp; try discriminate Hpre;
    destruct r as [[q|e]|[u|e]|[prefs|e]|f| |f]; try reflexivity.
  unfold Hook.afterFetch. destruct f as [response|e]; [|apply Hcatch; reflexivity].
  destruct (Hook.receive Number_toString a (Hook.questionText inv) response)
    as [report|e]; [|apply Hcatch, requests_clearProgress].
  destruct (Hook.persists inv);
    cbn [Hook.updateInvocation Hook.complete Hook.setState Hook.requests];
    apply requests_clearProgress.
Qed.

Lemma asked_step (w : Hook.World) (a : Hook.Ambient) (e : Hook.Event) :
  Expected.tidy w -> Expected.signed_out e ->
  Hook.requests (step w (a, e))
  = (Hook.requests w ++ List.map Expected.standard_request (Expected.asked [(a, e)]))%list.
Proof.
  intros Hw He. unfold step, Hook.step.
  assert (Hstart : forall q,
             Hook.requests (Hook.startResearch None q a w)
             = (Hook.requests w ++ [Expected.standard_request q])%list).
  { intros q. unfold Hook.startResearch. cbv zeta.
    rewrite (begin_posts _ a 1 _
               {| Hook.user := None;
                  Hook.questionText := q;
                  Hook.queryId := None;
                  Hook.searchDepth := VStr "standard";
                  Hook.progressIndex := 0;
                  Hook.sourcesCount := 0;
                  Hook.point := Hook.AwaitCreateQuery |}).
    - cbn [Hook.requests Hook.setState]. rewrite requests_clearProgress. reflexivity.
    - cbn [Hook.invocations Hook.setState].
      rewrite nth_error_app2 by apply Nat.le_refl.
      rewrite Nat.sub_diag. reflexivity. }
  destruct e as [u q|u q| |m|h|i r]; cbn in He; cbn [Expected.asked List.map].
  - subst u. apply Hstart.
  - subst u. apply Hstart.
  - rewrite List.app_nil_r. cbn. apply requests_clearProgress.
  - rewrite List.app_nil_r. cbn. apply requests_clearProgress.
  - rewrite List.app_nil_r.
    destruct (existsb (Nat.eqb h) (Hook.intervals w)); [|reflexivity].
    apply requests_showProgress.
  - rewrite List.app_nil_r. apply resume_posts_nothing, (proj2 Hw).
Qed.

Lemma asked_cons (ae : Hook.Ambient * Hook.Event)
    (trace : list (Hook.Ambient * Hook.Event)) :
  Expected.asked (ae :: trace) = (Expected.asked [ae] ++ Expected.asked trace)%list.
Proof. destruct ae as [a [u q|u q| |m|h|i r]]; reflexivity. Qed.

Lemma asked_run (trace : list (Hook.Ambient * Hook.Event)) :
  forall w,
    Expected.tidy w ->
    Forall (fun ae => Expected.signed_out (snd ae)) trace ->
    Hook.requests (run w trace)
    = (Hook.requests w ++ List.map Expected.standard_request (Expected.asked trace))%list.
Proof.
  induction trace as [|[a e] trace IH]; intros w Hw Ht.
  - cbn. rewrite List.app_nil_r. reflexivity.
  - inversion Ht as [|? ? He Hrest]; subst. cbn in He.
    change (run w ((a, e) :: trace)) with (run (step w (a, e)) trace).
    pose proof (IH _ (tidy_step Number_toString w a e Hw He) Hrest) as Hrun.
    pose proof (asked_step w a e Hw He) as Hstep.
    unfold step in *. rewrite Hrun, Hstep, (asked_cons (a, e) trace).
    rewrite List.map_app, List.app_assoc. reflexivity.
Qed.

(** Signed out, what is posted is what was asked.  In a session whose
    researches are all started signed out, the requests posted to
    /api/research are exactly the questions that [startResearch] and
    [submitFollowUp] were called with, in the order of the calls, one
    request for each call, each at the standard search depth. *)
Theorem signed_out_requests_are_the_questions_asked :
  forall trace : list (Hook.Ambient * Hook.Event),
    Forall (fun ae => Expected.signed_out (snd ae)) trace ->
    Hook.requests (run Hook.initialWorld trace)
    = List.map Expected.standard_request (Expected.asked trace).
Proof.
  intros trace Ht.
  exact (asked_run trace Hook.initialWorld (tidy_initialWorld) Ht).
Qed.

End Asked.

(* ================================================================= *)
(** * Calls made in turn

    The hook does not refuse a call that comes while a research is under
    way (see C1 and C7).  What follows is what it guarantees to a caller
    that waits: one that calls [startResearch], [submitFollowUp], [reset]
    and [setError] only while [isResearching] is false.  [HomePage] renders
    its form and its buttons by phase, but with exit transitions during
    which they can still be used, so the page alone does not make its
    sessions of this kind. *)

Section Turns.

Variable Number_toString : float -> string.

Let resume := Hook.resume Number_toString.
Let step := Hook.step Number_toString.
Let run := Hook.run Number_toString.

Lemma receive_question (a : Hook.Ambient) (q : string) (response : Hook.Response)
    (report : Hook.ResearchReport) :
  Hook.receive Number_toString a q response = Ok report ->
  Hook.question report = q.
Proof.
  unfold Hook.receive. destruct (negb (Hook.ok response)).
  - intros H. inv_bind H. discriminate H.
  - intros H. inv_bind H.
    destruct (negb (Js.truthy x0) || negb (Js.truthy x1)); [discriminate H|].
    unfold Hook.toReport in H. inv_bind H. injection H as <-. reflexivity.
Qed.

Lemma modify_nth_last {A} (f : A -> A) (x : A) :
  forall done : list A,
    Hook.modify_nth (List.length done) f (done ++ [x]) = (done ++ [f x])%list.
Proof.
  induction done as [|y done IH]; [reflexivity|].
  cbn. rewrite IH. reflexivity.
Qed.

Lemma nth_error_last {A} (x : A) (done : list A) :
  nth_error (done ++ [x]) (List.length done) = Some x.
Proof.
  rewrite nth_error_app2 by apply Nat.le_refl. rewrite Nat.sub_diag. reflexivity.
Qed.

(** Nothing settles for an activation that has returned. *)
Lemma resume_finished (i : nat) (r : Hook.Settled) (a : Hook.Ambient) (w : Hook.World)
    (inv : Hook.Invocation) :
  nth_error (Hook.invocations w) i = Some inv ->
  Expected.finished inv ->
  resume i r a w = w.
Proof.
  intros Hi Hf. unfold resume, Hook.resume. rewrite Hi, Hf.
  destruct r; reflexivity.
Qed.

Lemma resume_not_latest (i : nat) (r : Hook.Settled) (a : Hook.Ambient) (w : Hook.World)
    (done : list Hook.Invocation) (inv : Hook.Invocation) :
  Hook.invocations w = (done ++ [inv])%list ->
  Forall Expected.finished done ->
  i <> List.length done ->
  resume i r a w = w.
Proof.
  intros Hw Hd Hi.
  destruct (nth_error (Hook.invocations w) i) as [x|] eqn:E.
  - apply (resume_finished i r a w x E).
    rewrite Hw in E.
    destruct (Nat.lt_ge_cases i (List.length done)) as [Hlt|Hge].
    + rewrite nth_error_app1 in E by exact Hlt.
      rewrite List.Forall_forall in Hd. apply Hd. exact (nth_error_In _ _ E).
    + rewrite nth_error_app2 in E by exact Hge.
      destruct (i - List.length done) as [|d] eqn:D; [lia|].
      destruct d; discriminate E.
  - unfold resume, Hook.resume. rewrite E. reflexivity.
Qed.

(** [showProgress] of the latest activation. *)
Lemma showProgress_latest (a : Hook.Ambient) (k : nat) (w : Hook.World)
    (done : list Hook.Invocation) (inv : Hook.Invocation) :
  Hook.invocations w = (done ++ [inv])%list ->
  let w' := Hook.showProgress (List.length done) a k w in
  exists inv',
    Hook.invocations w' = (done ++ [inv'])%list /\
    Hook.questionText inv' = Hook.questionText inv /\
    Hook.point inv' = Hook.point inv /\
    Hook.phase (Hook.state w') = Hook.phase (Hook.state w) /\
    Hook.currentReport (Hook.state w') = Hook.currentReport (Hook.state w) /\
    Hook.currentQuestion (Hook.state w') = Hook.currentQuestion (Hook.state w) /\
    Hook.intervals w' = Hook.intervals w /\
    Hook.progressIntervalRef w' = Hook.progressIntervalRef w.
Proof.
  intros Hw. unfold Hook.showProgress. rewrite Hw, nth_error_last.
  destruct (nth_error Hook.progressSteps (Hook.progressIndex inv)) as [[msg ty]|].
  - cbn [Hook.updateInvocation Hook.addProgressUpdate Hook.setState Hook.invocations
         Hook.state Hook.intervals Hook.progressIntervalRef Hook.phase
         Hook.currentReport Hook.currentQuestion].
    rewrite Hw, modify_nth_last. eexists. repeat split.
  - exists inv. rewrite Hw. repeat split.
Qed.

(** The first message, the interval and the request of the latest
    activation. *)
Lemma begin_latest (a : Hook.Ambient) (k : nat) (w : Hook.World)
    (done : list Hook.Invocation) (inv : Hook.Invocation) :
  Hook.invocations w = (done ++ [inv])%list ->
  let w' := Hook.beginProgressAndFetch (List.length done) a k w in
  exists inv',
    Hook.invocations w' = (done ++ [inv'])%list /\
    Hook.questionText inv' = Hook.questionText inv /\
    Hook.point inv' = Hook.AwaitFetch /\
    Hook.phase (Hook.state w') = Hook.phase (Hook.state w) /\
    Hook.currentReport (Hook.state w') = Hook.currentReport (Hook.state w) /\
    Hook.currentQuestion (Hook.state w') = Hook.currentQuestion (Hook.state w) /\
    Hook.intervals w' = (Hook.intervals w ++ [List.length done])%list /\
    Hook.progressIntervalRef w' = Some (List.length done).
Proof.
  intros Hw.
  destruct (showProgress_latest a k w done inv Hw)
    as (inv1 & Hi & Hq & _ & Hph & Hr & Hcq & Ht & _).
  unfold Hook.beginProgressAndFetch. cbv zeta. rewrite Hi, nth_error_last.
  cbn [Hook.invocations Hook.state Hook.intervals Hook.progressIntervalRef].
  rewrite ?Hi, modify_nth_last, ?Ht.
  eexists. split; [reflexivity|]. split; [exact Hq|]. split; [reflexivity|].
  repeat split; assumption.
Qed.

(** While one research is under way, [clearProgress] leaves no interval. *)
Lemma clearProgress_researching_one (w : Hook.World) (n : nat) :
  (forall h, In h (Hook.intervals w) -> h = n /\ Hook.progressIntervalRef w = Some h) ->
  Hook.intervals (Hook.clearProgress w) = [].
Proof.
  intros H. unfold Hook.clearProgress.
  destruct (Hook.progressIntervalRef w) as [h0|] eqn:E.
  - cbn [Hook.intervals].
    destruct (List.filter _ (Hook.intervals w)) as [|h rest] eqn:F; [reflexivity|].
    exfalso.
    assert (Hin : In h (List.filter (fun h' => negb (h' =? h0)%nat) (Hook.intervals w)))
      by (rewrite F; left; reflexivity).
    apply List.filter_In in Hin. destruct Hin as [Hin Hne].
    destruct (H h Hin) as [_ Href]. injection Href as <-.
    rewrite Nat.eqb_refl in Hne. discriminate Hne.
  - destruct (Hook.intervals w) as [|h rest]; [reflexivity|].
    destruct (H h (or_introl eq_refl)) as [_ Href]. discriminate Href.
Qed.

Lemma Forall_finished_last (done : list Hook.Invocation) (inv : Hook.Invocation) :
  Forall Expected.finished done ->
  Forall Expected.finished (done ++ [Hook.setPoint Hook.Returned inv]).
Proof.
  intros H. apply List.Forall_app. split; [exact H|].
  constructor; [reflexivity | constructor].
Qed.

Lemma one_at_a_time_researching (w : Hook.World) (done : list Hook.Invocation)
    (inv : Hook.Invocation) (q : Hook.ResearchQuestion) :
  Hook.phase (Hook.state w) = Phase.researching ->
  Hook.currentReport (Hook.state w) = None ->
  Hook.invocations w = (done ++ [inv])%list ->
  Forall Expected.finished done ->
  Hook.currentQuestion (Hook.state w) = Some q ->
  Hook.text q = Hook.questionText inv ->
  (forall h, In h (Hook.intervals w) ->
             h = List.length done /\ Hook.progressIntervalRef w = Some h) ->
  Expected.carried w inv ->
  Expected.one_at_a_time w.
Proof.
  intros Hph Hr Hi Hd Hq Ht Hint Hc. split.
  - intros r H. rewrite Hr in H. discriminate H.
  - right. split; [exact Hph|]. split; [exact Hr|].
    exists done, inv, q. repeat split; try assumption; apply (Hint h); assumption.
Qed.

Lemma one_at_a_time_between (w : Hook.World) :
  Hook.phase (Hook.state w) <> Phase.researching ->
  Expected.matches_question (Hook.state w) ->
  Forall Expected.finished (Hook.invocations w) ->
  Hook.intervals w = [] ->
  Expected.one_at_a_time w.
Proof. intros Hph Hm Hf Hi. split; [exact Hm|]. left. repeat split; assumption. Qed.

Lemma no_interval (w : Hook.World) (n : nat) :
  Hook.intervals w = [] ->
  forall h, In h (Hook.intervals w) -> h = n /\ Hook.progressIntervalRef w = Some h.
Proof. intros H h Hin. rewrite H in Hin. destruct Hin. Qed.

(** [startResearch] between researches. *)
Lemma startResearch_one_at_a_time (u : option string) (q : string) (a : Hook.Ambient)
    (w : Hook.World) :
  Expected.between_researches w ->
  Expected.one_at_a_time (Hook.startResearch u q a w).
Proof.
  intros (_ & Hfin & Hint). unfold Hook.startResearch. cbv zeta.
  set (done := Hook.invocations (Hook.clearProgress w)).
  assert (Hdone : Forall Expected.finished done).
  { subst done. rewrite invocations_clearProgress. exact Hfin. }
  pose proof (clearProgress_no_intervals w Hint) as Hclear.
  match goal with
  | |- Expected.one_at_a_time (match u with Some _ => ?w0 | None => _ end) =>
      set (w3 := w0)
  end.
  destruct u as [uid|].
  - eapply (one_at_a_time_researching w3 done); try reflexivity; try assumption.
    apply no_interval. exact Hclear.
  - change (List.length (Hook.invocations (Hook.setState _ (Hook.clearProgress w))))
      with (List.length done).
    destruct (begin_latest a 1 w3 done _ eq_refl)
      as (inv' & Hi & Hq & Hp & Hph & Hr & Hcq & Ht & Href).
    eapply (one_at_a_time_researching _ done inv').
    + rewrite Hph. reflexivity.
    + rewrite Hr. reflexivity.
    + exact Hi.
    + exact Hdone.
    + rewrite Hcq. reflexivity.
    + rewrite Hq. reflexivity.
    + intros h Hin. rewrite Ht in Hin.
      change (Hook.intervals w3) with (Hook.intervals (Hook.clearProgress w)) in Hin.
      rewrite Hclear in Hin. destruct Hin as [<-|[]].
      split; [reflexivity | exact Href].
    + unfold Expected.carried. rewrite Hp. exact I.
Qed.

(** The [catch] block of the latest activation. *)
Lemma catch_one_at_a_time (e : exn) (w : Hook.World) (done : list Hook.Invocation)
    (inv : Hook.Invocation) (q : Hook.ResearchQuestion) :
  Hook.phase (Hook.state w) = Phase.researching ->
  Hook.currentReport (Hook.state w) = None ->
  Hook.invocations w = (done ++ [inv])%list ->
  Forall Expected.finished done ->
  Hook.currentQuestion (Hook.state w) = Some q ->
  Hook.text q = Hook.questionText inv ->
  Hook.intervals (Hook.clearProgress w) = [] ->
  Expected.one_at_a_time (Hook.catch (List.length done) inv e w).
Proof.
  intros Hph Hr Hi Hd Hq Ht Hint. unfold Hook.catch. cbv zeta.
  destruct (Hook.persists inv).
  - eapply (one_at_a_time_researching _ done); cbn [Hook.updateInvocation Hook.state
      Hook.invocations Hook.intervals]; rewrite ?state_clearProgress,
      ?invocations_clearProgress.
    + exact Hph.
    + exact Hr.
    + rewrite Hi. apply modify_nth_last.
    + exact Hd.
    + exact Hq.
    + exact Ht.
    + intros h Hin. rewrite Hint in Hin. destruct Hin.
    + unfold Expected.carried. cbn. exact Hint.
  - apply one_at_a_time_between; cbn [Hook.updateInvocation Hook.fail Hook.setState
      Hook.state Hook.invocations Hook.intervals Hook.phase Hook.currentReport];
      rewrite ?state_clearProgress, ?invocations_clearProgress.
    + discriminate.
    + intros r H. cbn in H. rewrite ?state_clearProgress, Hr in H. discriminate H.
    + rewrite Hi, modify_nth_last. apply Forall_finished_last, Hd.
    + exact Hint.
Qed.

(** The completing update of the latest activation. *)
Lemma complete_one_at_a_time (report : Hook.ResearchReport) (a : Hook.Ambient) (k : nat)
    (w : Hook.World) (done : list Hook.Invocation) (inv : Hook.Invocation)
    (q : Hook.ResearchQuestion) :
  Hook.invocations w = (done ++ [inv])%list ->
  Forall Expected.finished done ->
  Hook.currentQuestion (Hook.state w) = Some q ->
  Hook.text q = Hook.questionText inv ->
  Hook.question report = Hook.questionText inv ->
  Hook.intervals w = [] ->
  Expected.one_at_a_time
    (Hook.updateInvocation (List.length done) (Hook.setPoint Hook.Returned)
       (Hook.complete report a k w)).
Proof.
  intros Hi Hd Hq Ht Hrep Hint.
  apply one_at_a_time_between; cbn [Hook.updateInvocation Hook.complete Hook.setState
    Hook.state Hook.invocations Hook.intervals Hook.phase].
  - discriminate.
  - intros r H. cbn in H. injection H as <-. exists q. split; [exact Hq|].
    rewrite Hrep, Ht. reflexivity.
  - rewrite Hi, modify_nth_last. apply Forall_finished_last, Hd.
  - exact Hint.
Qed.

(** A settlement keeps the researches apart. *)
Lemma resume_one_at_a_time (i : nat) (r : Hook.Settled) (a : Hook.Ambient)
    (w : Hook.World) :
  Expected.one_at_a_time w -> Expected.one_at_a_time (resume i r a w).
Proof.
  intros Hw. pose proof Hw as [Hm [(Hph & Hfin & Hint)|(Hph & Hr & Hone)]].
  - (* every activation has returned *)
    destruct (nth_error (Hook.invocations w) i) as [inv|] eqn:E.
    + rewrite (resume_finished i r a w inv E); [exact Hw|].
      rewrite List.Forall_forall in Hfin. apply Hfin. exact (nth_error_In _ _ E).
    + unfold resume, Hook.resume. rewrite E. exact Hw.
  - destruct Hone as (done & inv & q & Hi & Hd & Hq & Ht & Hint & Hc).
    destruct (Nat.eq_dec i (List.length done)) as [->|Hne];
      [|rewrite (resume_not_latest i r a w done inv Hi Hd Hne); exact Hw].
    assert (Hbegin : forall w0 inv0,
               Hook.invocations w0 = (done ++ [inv0])%list ->
               Hook.questionText inv0 = Hook.questionText inv ->
               Hook.state w0 = Hook.state w ->
               Hook.intervals w0 = Hook.intervals w ->
               Expected.one_at_a_time
                 (Hook.beginProgressAndFetch (List.length done) a 0 w0)).
    { intros w0 inv0 Hi0 Hq0 Hs0 Ht0.
      destruct (begin_latest a 0 w0 done inv0 Hi0)
        as (inv' & Hi' & Hq' & Hp' & Hph' & Hr' & Hcq' & Ht' & Href').
      apply (one_at_a_time_researching _ done inv' q).
      - rewrite Hph', Hs0. exact Hph.
      - rewrite Hr', Hs0. exact Hr.
      - exact Hi'.
      - exact Hd.
      - rewrite Hcq', Hs0. exact Hq.
      - rewrite Hq', Hq0. exact Ht.
      - intros h Hin. rewrite Ht', Ht0 in Hin. apply List.in_app_or in Hin.
        destruct Hin as [Hin|[<-|[]]].
        + destruct (Hint h Hin) as [-> _]. split; [reflexivity | exact Href'].
        + split; [reflexivity | exact Href'].
      - unfold Expected.carried. rewrite Hp'. exact I. }
    assert (Hcleared : Hook.intervals (Hook.clearProgress w) = [])
      by exact (clearProgress_researching_one w _ Hint).
    unfold resume, Hook.resume. rewrite Hi, nth_error_last.
    destruct (Hook.point inv) eqn:Hp; destruct r as [[qid|e]|[u|e]|[prefs|e]|f| |f];
      try exact Hw;
      try (apply (Hbegin w inv Hi); reflexivity).
    + (* the query is created *)
      apply (one_at_a_time_researching _ done (Hook.setQueryId qid inv) q);
        try assumption.
      * cbn [Hook.setCurrentQueryId Hook.updateInvocation Hook.invocations].
        rewrite Hi. apply modify_nth_last.
      * exact I.
    + (* the query is marked as researching *)
      apply (one_at_a_time_researching _ done (Hook.setPoint Hook.AwaitPreferences inv) q);
        try assumption.
      * cbn [Hook.updateInvocation Hook.invocations].
        rewrite Hi. apply modify_nth_last.
      * exact I.
    + (* the preferences arrive *)
      destruct (Js.get_opt prefs "default_search_depth") as [d|e];
        [|apply (Hbegin w inv Hi); reflexivity].
      destruct (Js.truthy d); [|apply (Hbegin w inv Hi); reflexivity].
      apply (Hbegin _ (Hook.setSearchDepth d inv)); try reflexivity.
      cbn [Hook.updateInvocation Hook.invocations].
      rewrite Hi. apply modify_nth_last.
    + (* the request settles *)
      unfold Hook.afterFetch. destruct f as [response|e];
        [|apply (catch_one_at_a_time e w done inv q); assumption].
      destruct (Hook.receive Number_toString a (Hook.questionText inv) response)
        as [report|e] eqn:Hrec.
      * pose proof (receive_question _ _ _ _ Hrec) as Hrep.
        destruct (Hook.persists inv).
        -- apply (one_at_a_time_researching _ done
                    (Hook.setPoint (Hook.AwaitSave report) inv) q);
             cbn [Hook.updateInvocation Hook.state Hook.invocations Hook.intervals];
             rewrite ?state_clearProgress, ?invocations_clearProgress;
             try assumption.
           ++ rewrite Hi. apply modify_nth_last.
           ++ intros h Hin. rewrite Hcleared in Hin. destruct Hin.
           ++ unfold Expected.carried. cbn. split; [exact Hrep | exact Hcleared].
        -- apply (complete_one_at_a_time report a 1 _ done inv q);
             rewrite ?state_clearProgress, ?invocations_clearProgress; assumption.
      * apply (catch_one_at_a_time e _ done inv q);
          rewrite ?state_clearProgress, ?invocations_clearProgress; try assumption.
        apply clearProgress_no_intervals, Hcleared.
    + (* the report is saved *)
      unfold Expected.carried in Hc. rewrite Hp in Hc. destruct Hc as [Hrep Hnone].
      apply (complete_one_at_a_time report a 0 w done inv q); assumption.
    + (* the query is marked as failed *)
      unfold Expected.carried in Hc. rewrite Hp in Hc.
      apply one_at_a_time_between; cbn [Hook.updateInvocation Hook.fail Hook.setState
        Hook.state Hook.invocations Hook.intervals Hook.phase Hook.currentReport].
      * discriminate.
      * intros r0 H. cbn in H. rewrite Hr in H. discriminate H.
      * rewrite Hi, modify_nth_last. apply Forall_finished_last, Hd.
      * exact Hc.
Qed.

Lemma step_one_at_a_time (w : Hook.World) (a : Hook.Ambient) (e : Hook.Event) :
  Expected.one_at_a_time w -> Expected.in_turn w e ->
  Expected.one_at_a_time (step w (a, e)).
Proof.
  intros Hw He. unfold step, Hook.step.
  destruct e as [u q|u q| |m|h|i r]; cbn [Expected.in_turn] in He.
  - destruct Hw as [_ [Hb|(Hph & _)]]; [|exfalso; exact (He Hph)].
    apply startResearch_one_at_a_time, Hb.
  - destruct Hw as [_ [Hb|(Hph & _)]]; [|exfalso; exact (He Hph)].
    apply startResearch_one_at_a_time, Hb.
  - destruct Hw as [_ [(_ & Hfin & Hint)|(Hph & _)]]; [|exfalso; exact (He Hph)].
    apply one_at_a_time_between.
    + discriminate.
    + intros r H. discriminate H.
    + cbn. rewrite invocations_clearProgress. exact Hfin.
    + cbn. apply clearProgress_no_intervals, Hint.
  - destruct Hw as [Hm [(_ & Hfin & Hint)|(Hph & _)]]; [|exfalso; exact (He Hph)].
    apply one_at_a_time_between.
    + discriminate.
    + unfold Hook.setError, Expected.matches_question.
      cbn [Hook.setState Hook.state Hook.currentReport Hook.currentQuestion].
      rewrite state_clearProgress. exact Hm.
    + cbn. rewrite invocations_clearProgress. exact Hfin.
    + cbn. apply clearProgress_no_intervals, Hint.
  - destruct (existsb (Nat.eqb h) (Hook.intervals w)) eqn:E; [|exact Hw].
    apply List.existsb_exists in E. destruct E as (h' & Hin & Heq).
    apply Nat.eqb_eq in Heq. subst h'.
    destruct Hw as [_ [(_ & _ & Hint)|(Hph & Hr & Hone)]];
      [rewrite Hint in Hin; destruct Hin|].
    destruct Hone as (done & inv & q & Hi & Hd & Hq & Ht & Hint & Hc).
    destruct (Hint h Hin) as [-> _].
    destruct (showProgress_latest a 0 w done inv Hi)
      as (inv' & Hi' & Hq' & Hp' & Hph' & Hr' & Hcq' & Ht' & Href').
    apply (one_at_a_time_researching _ done inv' q).
    + rewrite Hph'. exact Hph.
    + rewrite Hr'. exact Hr.
    + exact Hi'.
    + exact Hd.
    + rewrite Hcq'. exact Hq.
    + rewrite Hq'. exact Ht.
    + intros h Hh. rewrite Ht' in Hh. rewrite Href'. exact (Hint h Hh).
    + unfold Expected.carried in Hc |- *. rewrite Hp', Hq', Ht'. exact Hc.
  - apply resume_one_at_a_time, Hw.
Qed.

Lemma run_one_at_a_time (trace : list (Hook.Ambient * Hook.Event)) :
  forall w,
    Expected.one_at_a_time w ->
    Expected.taking_turns Number_toString w trace ->
    Expected.one_at_a_time (run w trace).
Proof.
  induction trace as [|[a e] trace IH]; intros w Hw Ht; [exact Hw|].
  destruct Ht as [He Hrest]. cbn [snd] in He.
  apply IH; [apply step_one_at_a_time; assumption | exact Hrest].
Qed.

Lemma one_at_a_time_initialWorld : Expected.one_at_a_time Hook.initialWorld.
Proof.
  apply one_at_a_time_between;
    [discriminate | intros r H; discriminate H | constructor | reflexivity].
Qed.

(** Called in turn, the hook shows the report of its question.  In a
    session in which [startResearch], [submitFollowUp], [reset] and
    [setError] are called only while the phase is not researching, whoever
    is signed in and whatever settles or fires, the report on display was
    made for the question on display. *)
Theorem calls_in_turn_keep_report_with_question :
  forall trace : list (Hook.Ambient * Hook.Event),
    Expected.taking_turns Number_toString Hook.initialWorld trace ->
    forall r,
      Hook.currentReport (Hook.state (run Hook.initialWorld trace)) = Some r ->
      exists q,
        Hook.currentQuestion (Hook.state (run Hook.initialWorld trace)) = Some q /\
        Hook.question r = Hook.text q.
Proof.
  intros trace Ht.
  exact (proj1 (run_one_at_a_time trace _ one_at_a_time_initialWorld Ht)).
Qed.

(** Called in turn, the hook leaves nothing pending.  In a session in
    which [startResearch], [submitFollowUp], [reset] and [setError] are
    called only while the phase is not researching, whenever the phase is
    not researching every activation of [startResearch] has returned and no
    interval is set: nothing of an earlier research is left to arrive. *)
Theorem calls_in_turn_leave_nothing_pending :
  forall trace : list (Hook.Ambient * Hook.Event),
    Expected.taking_turns Number_toString Hook.initialWorld trace ->
    Hook.phase (Hook.state (run Hook.initialWorld trace)) <> Phase.researching ->
    Forall Expected.finished (Hook.invocations (run Hook.initialWorld trace)) /\
    Hook.intervals (run Hook.initialWorld trace) = [].
Proof.
  intros trace Ht Hph.
  destruct (run_one_at_a_time trace _ one_at_a_time_initialWorld Ht)
    as [_ [(_ & Hfin & Hint)|(Hres & _)]].
  - split; assumption.
  - exfalso. exact (Hph Hres).
Qed.

End Turns.

(* ================================================================= *)
(** * The simulated hook *)

Section Simulated.

Variable findMatchingReport : Hook.Ambient -> string -> Hook.ResearchReport.

Let call := Simulation.call findMatchingReport.
Let step := Simulation.step findMatchingReport.
Let run := Simulation.run findMatchingReport.

(** [clearAllTimeouts] touches the timers and the ref only. *)
Lemma clearing_frame (hs : list nat) :
  forall w,
    let w' := List.fold_left (fun w h => Simulation.clearTimeout h w) hs w in
    Simulation.state w' = Simulation.state w /\
    Simulation.handles w' = Simulation.handles w /\
    Simulation.activations w' = Simulation.activations w /\
    forall t, In t (Simulation.timeouts w') ->
              In t (Simulation.timeouts w) /\ ~ In (Simulation.handle t) hs.
Proof.
  induction hs as [|h hs IH]; intros w; cbn [List.fold_left].
  - repeat split; try reflexivity; [assumption | intros []].
  - destruct (IH (Simulation.clearTimeout h w)) as (Hs & Hh & Ha & Ht).
    repeat split; try assumption.
    + destruct (Ht t H) as [Hin _]. cbn in Hin.
      apply List.filter_In in Hin. exact (proj1 Hin).
    + destruct (Ht t H) as [Hin Hnot]. cbn in Hin.
      apply List.filter_In in Hin. destruct Hin as [_ Hne].
      intros [E|Hin']; [|exact (Hnot Hin')].
      rewrite E, Nat.eqb_refl in Hne. discriminate Hne.
Qed.

Lemma clearAllTimeouts_spec (w : Simulation.World) :
  Expected.kept w ->
  Simulation.clearAllTimeouts w
  = {| Simulation.state := Simulation.state w;
       Simulation.timeoutsRef := [];
       Simulation.timeouts := [];
       Simulation.handles := Simulation.handles w;
       Simulation.activations := Simulation.activations w |}.
Proof.
  intros Hk. unfold Simulation.clearAllTimeouts.
  destruct (clearing_frame (Simulation.timeoutsRef w) w) as (Hs & Hh & Ha & Ht).
  rewrite Hs, Hh, Ha. f_equal.
  destruct (Simulation.timeouts _) as [|t rest] eqn:E; [reflexivity|].
  exfalso. destruct (Ht t (or_introl eq_refl)) as [Hin Hnot].
  exact (Hnot (Hk t Hin)).
Qed.

(** A timer that is due before the others fires first. *)
Lemma earliest_head (t : Simulation.Timeout) (r : list Simulation.Timeout) :
  Forall (fun t' => (Simulation.due t <= Simulation.due t')%N) r ->
  Simulation.earliest (t :: r) = Some t.
Proof.
  intros H. cbn [Simulation.earliest].
  destruct (Simulation.earliest r) as [t'|] eqn:E; [|reflexivity].
  assert (Hin : In t' r).
  { clear -E. revert t' E. induction r as [|x r IH]; intros t' E; [discriminate E|].
    cbn [Simulation.earliest] in E.
    destruct (Simulation.earliest r) as [y|].
    - destruct (Simulation.due y <? Simulation.due x)%N.
      + injection E as <-. right. apply IH. reflexivity.
      + injection E as <-. left. reflexivity.
    - injection E as <-. left. reflexivity. }
  rewrite List.Forall_forall in H. specialize (H t' Hin).
  destruct (N.ltb_spec (Simulation.due t') (Simulation.due t)); [lia | reflexivity].
Qed.

Lemma expire_head (t : Simulation.Timeout) (r : list Simulation.Timeout) :
  Forall (fun t' => Simulation.handle t' <> Simulation.handle t) r ->
  List.filter (fun t' => negb (Simulation.handle t' =? Simulation.handle t)%nat) (t :: r) = r.
Proof.
  intros H. cbn [List.filter]. rewrite Nat.eqb_refl. cbn [negb].
  induction H as [|x r Hx _ IH]; [reflexivity|].
  cbn [List.filter]. apply Nat.eqb_neq in Hx. rewrite Hx. cbn [negb].
  rewrite IH. reflexivity.
Qed.

(** The timers of a research, one after the other. *)
Lemma research_timers_next (i h0 : nat) (t0 : N) (k : nat) :
  k < 12 ->
  exists t,
    List.skipn k (Expected.research_timers i h0 t0)
    = t :: List.skipn (S k) (Expected.research_timers i h0 t0) /\
    Forall (fun t' => (Simulation.due t <= Simulation.due t')%N)
      (List.skipn (S k) (Expected.research_timers i h0 t0)) /\
    Forall (fun t' => Simulation.handle t' <> Simulation.handle t)
      (List.skipn (S k) (Expected.research_timers i h0 t0)) /\
    Simulation.owner t = i /\
    Simulation.callback t
    = match nth_error Simulation.progressMessages k with
      | Some msg => Simulation.ShowMessage msg
      | None => Simulation.Complete
      end.
Proof.
  intros Hk.
  do 12 (destruct k as [|k];
         [ eexists; split; [reflexivity|];
           split; [repeat constructor; cbn; lia|];
           split; [repeat constructor; cbn; lia|];
           split; reflexivity
         | ]).
  lia.
Qed.

Lemma in_skipn {A} (x : A) :
  forall (l : list A) k, In x (List.skipn k l) -> In x l.
Proof.
  induction l as [|y l IH]; intros [|k] H; cbn in *; try assumption; try contradiction.
  right. exact (IH k H).
Qed.

Lemma on_schedule_initialWorld :
  Expected.on_schedule findMatchingReport Simulation.initialWorld.
Proof.
  split; [intros t []|]. split; [split; [discriminate | constructor]|].
  right. split; [reflexivity|]. split; [exists 0; reflexivity | discriminate].
Qed.

Lemma shown_prefix (w : Simulation.World) :
  Expected.on_schedule findMatchingReport w ->
  exists k, List.map Expected.shown (Hook.progressUpdates (Simulation.state w))
            = List.firstn k Simulation.progressMessages.
Proof.
  intros (_ & _ & [(k & _ & Hk)|(_ & Hk & _)]); [|exact Hk].
  destruct Hk as (i & act & q & h0 & t0 & _ & _ & _ & _ & _ & Hl & _).
  exists k. exact Hl.
Qed.

Lemma startResearch_on_schedule (q : string) (a : Hook.Ambient) (w : Simulation.World) :
  Expected.on_schedule findMatchingReport w ->
  Expected.on_schedule findMatchingReport (Simulation.startResearch q a w).
Proof.
  intros (Hk & (_ & Hh) & _). unfold Simulation.startResearch.
  rewrite (clearAllTimeouts_spec w Hk).
  match goal with
  | |- Expected.on_schedule _ ?x => set (w' := x)
  end.
  set (i := List.length (Simulation.activations w)).
  set (act := {| Simulation.questionText := q; Simulation.sourcesCount := 0 |}).
  set (question := {| Hook.q_id := Hook.generateId a 0;
                      Hook.text := q;
                      Hook.q_timestamp := Hook.now a |}).
  assert (Ht : Simulation.timeouts w'
               = Expected.research_timers i (Simulation.handles w) (Hook.now a))
    by reflexivity.
  assert (Href : Simulation.timeoutsRef w'
                 = List.map Simulation.handle
                     (Expected.research_timers i (Simulation.handles w) (Hook.now a)))
    by reflexivity.
  assert (Hact : Simulation.activations w' = (Simulation.activations w ++ [act])%list)
    by reflexivity.
  assert (Hs : Simulation.state w'
               = {| Hook.phase := Phase.researching;
                    Hook.currentQuestion := Some question;
                    Hook.progressUpdates := [];
                    Hook.currentReport := None;
                    Hook.conversationHistory :=
                      Hook.conversationHistory (Simulation.state w);
                    Hook.error := None;
                    Hook.sourcesAnalyzed := 0 |})
    by reflexivity.
  clearbody w'.
  split; [|split].
  - intros t Hin. rewrite Ht in Hin. rewrite Href. apply List.in_map, Hin.
  - rewrite Hs. split; [discriminate | exact Hh].
  - left. exists 0. split; [lia|].
    exists i, act, question, (Simulation.handles w), (Hook.now a).
    rewrite Hs, Ht, Hact.
    split; [reflexivity|]. split; [apply nth_error_last|].
    split; [reflexivity|]. split; [reflexivity|]. split; [reflexivity|].
    split; [reflexivity|]. split; [reflexivity|].
    unfold Expected.analyze_shown. cbn. lia.
Qed.

Lemma cleared_on_schedule (f : Hook.ResearchState -> Hook.ResearchState)
    (w : Simulation.World) :
  Expected.kept w ->
  Expected.answered findMatchingReport (f (Simulation.state w)) ->
  (exists k, List.map Expected.shown (Hook.progressUpdates (f (Simulation.state w)))
             = List.firstn k Simulation.progressMessages) ->
  Hook.phase (f (Simulation.state w)) <> Phase.completed ->
  Expected.on_schedule findMatchingReport
    (Simulation.setState f (Simulation.clearAllTimeouts w)).
Proof.
  intros Hk Ha Hl Hp. rewrite (clearAllTimeouts_spec w Hk).
  split; [intros t []|]. split; [exact Ha|].
  right. split; [reflexivity|]. split; [exact Hl|].
  intros Hc. exfalso. exact (Hp Hc).
Qed.

Lemma analyze_shown_S (k : nat) (msg : string * Hook.UpdateType) :
  nth_error Simulation.progressMessages k = Some msg ->
  Expected.analyze_shown (S k)
  = Expected.analyze_shown k + Nat.b2n (Expected.is_analyze msg).
Proof.
  intros H. unfold Expected.analyze_shown.
  rewrite (firstn_S_nth_error _ _ _ H), List.filter_app, List.length_app.
  cbn [List.filter]. destruct (Expected.is_analyze msg); reflexivity.
Qed.

Lemma timer_on_schedule (a : Hook.Ambient) (w : Simulation.World) :
  Expected.on_schedule findMatchingReport w ->
  Expected.on_schedule findMatchingReport (step w (a, Simulation.TimerFires)).
Proof.
  intros (Hk & Ha & [(k & Hlt & Hrun)|Hrest]).
  2:{ unfold step, Simulation.step. rewrite (proj1 Hrest).
      split; [exact Hk | split; [exact Ha | right; exact Hrest]]. }
  destruct Hrun as (i & act & q & h0 & t0 & Ht & Hact & Hq & Htext & Hph & Hl & Hsa & Hcount).
  destruct (research_timers_next i h0 t0 k Hlt) as (t & Hnext & Hdue & Hhandle & Howner & Hcb).
  rewrite Hnext in Ht.
  unfold step, Simulation.step. rewrite Ht, (earliest_head t _ Hdue).
  set (w1 := Simulation.clearTimeout (Simulation.handle t) w).
  assert (Ht1 : Simulation.timeouts w1
                = List.skipn (S k) (Expected.research_timers i h0 t0)).
  { subst w1. cbn [Simulation.clearTimeout Simulation.timeouts].
    rewrite Ht. apply expire_head, Hhandle. }
  assert (Hk1 : forall w2, Simulation.timeouts w2 = Simulation.timeouts w1 ->
                           Simulation.timeoutsRef w2 = Simulation.timeoutsRef w ->
                           Expected.kept w2).
  { intros w2 E1 E2 t' Hin. rewrite E1, Ht1 in Hin. rewrite E2. apply Hk.
    rewrite Ht. right. exact Hin. }
  assert (Hact1 : Simulation.activations w1 = Simulation.activations w) by reflexivity.
  assert (Hs1 : Simulation.state w1 = Simulation.state w) by reflexivity.
  assert (Href1 : Simulation.timeoutsRef w1 = Simulation.timeoutsRef w) by reflexivity.
  clearbody w1.
  unfold Simulation.call. rewrite Howner, Hact1, Hact, Hcb.
  destruct (nth_error Simulation.progressMessages k) as [[msg ty]|] eqn:Hmsg.
  - (* a progress message *)
    assert (Hk11 : k < 11).
    { change 11 with (List.length Simulation.progressMessages).
      apply nth_error_Some. rewrite Hmsg. discriminate. }
    split; [apply Hk1; [reflexivity | exact Href1]|].
    split; [cbn [Simulation.addProgressUpdate Simulation.setState
                 Simulation.setSourcesCount Simulation.state];
            rewrite Hs1; exact Ha|].
    left. exists (S k). split; [lia|].
    exists i. eexists. exists q, h0, t0.
    split; [exact Ht1|]. split.
    { cbn [Simulation.addProgressUpdate Simulation.setState Simulation.setSourcesCount
           Simulation.activations].
      rewrite Hact1. apply nth_error_modify_nth, Hact. }
    cbn [Simulation.addProgressUpdate Simulation.setState Simulation.setSourcesCount
         Simulation.state Hook.currentQuestion Hook.phase Hook.progressUpdates
         Hook.sourcesAnalyzed Hook.pu_sourcesAnalyzed Simulation.questionText
         Simulation.sourcesCount].
    rewrite Hs1.
    split; [exact Hq|]. split; [exact Htext|]. split; [exact Hph|].
    split.
    { rewrite List.map_app, Hl. symmetry. apply firstn_S_nth_error, Hmsg. }
    split; [reflexivity|].
    rewrite (analyze_shown_S k _ Hmsg). unfold Expected.is_analyze. cbn [snd].
    generalize (Hook.random a mod 3) (Nat.mod_upper_bound (Hook.random a) 3).
    intros drawn Hdrawn. destruct ty; cbn [Nat.b2n]; lia.
  - (* the completion *)
    assert (Hk11 : k = 11).
    { apply nth_error_None in Hmsg. cbn in Hmsg. lia. }
    subst k.
    split; [apply Hk1; [reflexivity | exact Href1]|]. split.
    + cbn [Simulation.setState Simulation.state Hook.currentReport Hook.currentQuestion
           Hook.conversationHistory].
      rewrite Hs1. destruct Ha as [_ Hh]. split.
      * intros r Hr. injection Hr as <-. exists a, q. split; [exact Hq|].
        rewrite Htext. reflexivity.
      * apply List.Forall_app. split; [exact Hh|]. constructor; [|constructor].
        exists a, q. split; [exact Hq|]. cbn. rewrite Htext. reflexivity.
    + right. split; [exact Ht1|].
      cbn [Simulation.setState Simulation.state Hook.progressUpdates Hook.phase
           Hook.sourcesAnalyzed].
      rewrite Hs1.
      split; [exists 11; exact Hl|]. intros _. split; [exact Hl|].
      rewrite Hsa. unfold Expected.analyze_shown in Hcount. cbn in Hcount. lia.
Qed.

Lemma step_on_schedule (w : Simulation.World) (ae : Hook.Ambient * Simulation.Event) :
  Expected.on_schedule findMatchingReport w ->
  Expected.on_schedule findMatchingReport (step w ae).
Proof.
  intros Hw. destruct ae as [a e]. destruct e as [q|q| |m|].
  - apply startResearch_on_schedule, Hw.
  - apply startResearch_on_schedule, Hw.
  - apply cleared_on_schedule.
    + exact (proj1 Hw).
    + split; [discriminate | constructor].
    + exists 0. reflexivity.
    + discriminate.
  - apply cleared_on_schedule.
    + exact (proj1 Hw).
    + exact (proj1 (proj2 Hw)).
    + exact (shown_prefix w Hw).
    + discriminate.
  - apply timer_on_schedule, Hw.
Qed.

Lemma run_on_schedule (trace : list (Hook.Ambient * Simulation.Event)) :
  forall w,
    Expected.on_schedule findMatchingReport w ->
    Expected.on_schedule findMatchingReport (run w trace).
Proof.
  induction trace as [|ae trace IH]; intros w Hw; [exact Hw|].
  apply IH, step_on_schedule, Hw.
Qed.

Lemma idle_timer (a : Hook.Ambient) (w : Simulation.World) :
  Simulation.timeouts w = [] -> step w (a, Simulation.TimerFires) = w.
Proof. intros H. unfold step, Simulation.step. rewrite H. reflexivity. Qed.

Lemma idle_timers (after : list (Hook.Ambient * Simulation.Event)) :
  forall w,
    Simulation.timeouts w = [] ->
    Forall (fun ae => snd ae = Simulation.TimerFires) after ->
    run w after = w.
Proof.
  induction after as [|[a e] after IH]; intros w Hw Ha; [reflexivity|].
  inversion Ha as [|? ? He Hrest]; subst. cbn in He. subst e.
  change (run w ((a, Simulation.TimerFires) :: after))
    with (run (step w (a, Simulation.TimerFires)) after).
  rewrite (idle_timer a w Hw). exact (IH w Hw Hrest).
Qed.

(** Reset cancels the simulated research.  Whatever the session has been
    through, no timer is left once [reset] has returned: every turn in
    which a timer of the research would have fired leaves the state as
    [reset] set it. *)
Theorem simulated_reset_cancels_the_research :
  forall trace after : list (Hook.Ambient * Simulation.Event),
    Forall (fun ae => snd ae = Simulation.TimerFires) after ->
    Simulation.state
      (run (Simulation.reset (run Simulation.initialWorld trace)) after)
    = Hook.initialState.
Proof.
  intros trace after Ha.
  pose proof (run_on_schedule trace _ on_schedule_initialWorld) as (Hk & _).
  unfold Simulation.reset. rewrite (clearAllTimeouts_spec _ Hk).
  rewrite idle_timers; [reflexivity | reflexivity | exact Ha].
Qed.

(** The simulated progress follows its list.  At every moment of every
    session the messages on display are the first [k] of the eleven
    [progressMessages], in their order, and a research is completed only
    when all eleven are shown. *)
Theorem simulated_progress_follows_the_list :
  forall trace : list (Hook.Ambient * Simulation.Event),
    let s := Simulation.state (run Simulation.initialWorld trace) in
    (exists k, List.map Expected.shown (Hook.progressUpdates s)
               = List.firstn k Simulation.progressMessages) /\
    (Hook.phase s = Phase.completed ->
     List.map Expected.shown (Hook.progressUpdates s) = Simulation.progressMessages).
Proof.
  intros trace s.
  pose proof (run_on_schedule trace _ on_schedule_initialWorld) as Hw.
  split; [exact (shown_prefix _ Hw)|].
  intros Hc. destruct Hw as (_ & _ & [(k & _ & Hrun)|(_ & _ & Hdone)]).
  - destruct Hrun as (i & act & q & h0 & t0 & _ & _ & _ & _ & Hph & _).
    fold s in Hph. rewrite Hph in Hc. discriminate Hc.
  - exact (proj1 (Hdone Hc)).
Qed.

(** The simulated source counter.  When a simulated research is completed,
    the number of sources analysed on display is between 4 and 12: each of
    the four analysing messages has added 1, 2 or 3. *)
Theorem simulated_completion_counts_4_to_12 :
  forall trace : list (Hook.Ambient * Simulation.Event),
    let s := Simulation.state (run Simulation.initialWorld trace) in
    Hook.phase s = Phase.completed ->
    4 <= Hook.sourcesAnalyzed s <= 12.
Proof.
  intros trace s Hc.
  pose proof (run_on_schedule trace _ on_schedule_initialWorld) as Hw.
  destruct Hw as (_ & _ & [(k & _ & Hrun)|(_ & _ & Hdone)]).
  - destruct Hrun as (i & act & q & h0 & t0 & _ & _ & _ & _ & Hph & _).
    fold s in Hph. rewrite Hph in Hc. discriminate Hc.
  - exact (proj2 (Hdone Hc)).
Qed.

(** The simulated report answers the question on display.  In every
    session, the report on display is what [findMatchingReport] gave for
    the text of the question on display, and every entry of the history
    pairs a question with the report made for it; and whenever the phase is
    not researching (after [reset], after [setError], after the
    completion) no timer is set: a research that was replaced, reset or set
    to error never delivers. *)
Theorem simulated_report_answers_the_question :
  forall trace : list (Hook.Ambient * Simulation.Event),
    let s := Simulation.state (run Simulation.initialWorld trace) in
    (forall r, Hook.currentReport s = Some r ->
               Expected.answers findMatchingReport (Hook.currentQuestion s) r) /\
    Forall (fun e => Expected.answers findMatchingReport
                       (Hook.ce_question e) (Hook.ce_report e))
      (Hook.conversationHistory s) /\
    (Hook.phase s <> Phase.researching ->
     Simulation.timeouts (run Simulation.initialWorld trace) = []).
Proof.
  intros trace s.
  pose proof (run_on_schedule trace _ on_schedule_initialWorld) as (_ & Ha & Hw).
  split; [exact (proj1 Ha)|]. split; [exact (proj2 Ha)|].
  intros Hph. destruct Hw as [(k & _ & Hrun)|(Hnone & _)]; [|exact Hnone].
  destruct Hrun as (i & act & q & h0 & t0 & _ & _ & _ & _ & Hres & _).
  exfalso. exact (Hph Hres).
Qed.

End Simulated.

(* ================================================================= *)
(** * The Supabase client *)

Lemma calls_cons (env : Supabase.Env) (st : Supabase.State) (c : Supabase.Call)
    (cs : list Supabase.Call) :
  Supabase.calls env st (c :: cs)
  = ((c, fst (Supabase.call env st c))
       :: fst (Supabase.calls env (snd (Supabase.call env st c)) cs),
     snd (Supabase.calls env (snd (Supabase.call env st c)) cs)).
Proof.
  cbn [Supabase.calls]. destruct (Supabase.call env st c) as [r st1].
  cbn [fst snd]. destruct (Supabase.calls env st1 cs). reflexivity.
Qed.

Lemma calls_unconfigured (env : Supabase.Env) :
  Supabase.isSupabaseConfigured env = false ->
  forall cs st,
    Forall (Expected.hands_out None) (fst (Supabase.calls env st cs)) /\
    snd (Supabase.calls env st cs) = st.
Proof.
  intros Hc. induction cs as [|c cs IH]; intros st; [split; [constructor | reflexivity]|].
  rewrite calls_cons. cbn [fst snd].
  assert (Hcall : Supabase.call env st c
                  = (match c with
                     | Supabase.GetDb => Supabase.Db (fst (Supabase.getDb env st))
                     | _ => Supabase.Client None
                     end, st)).
  { destruct c; unfold Supabase.call, Supabase.getDb; unfold Supabase.getSupabase;
      unfold Supabase.createClient; rewrite Hc; reflexivity. }
  rewrite Hcall. cbn [fst snd]. destruct (IH st) as [Hl Hs]. split; [|exact Hs].
  constructor; [|exact Hl].
  destruct c; cbn; try reflexivity; try exact I.
  unfold Supabase.getDb. rewrite Hc. exact I.
Qed.

Lemma calls_with_instance (env : Supabase.Env) (c0 : nat) :
  Supabase.isSupabaseConfigured env = true ->
  forall cs st,
    Supabase.supabaseInstance st = Some c0 ->
    Forall (Expected.hands_out (Some c0)) (fst (Supabase.calls env st cs)) /\
    Supabase.clients (snd (Supabase.calls env st cs))
    = Supabase.clients st + List.length (List.filter Expected.is_createClient cs).
Proof.
  intros Hc. induction cs as [|c cs IH]; intros st Hst.
  - split; [constructor | cbn; lia].
  - rewrite calls_cons. cbn [fst snd].
    destruct c; unfold Supabase.call, Supabase.getDb; unfold Supabase.getSupabase;
      unfold Supabase.createClient; rewrite ?Hc, ?Hst; cbn [negb fst snd List.filter
        Expected.is_createClient Supabase.clients].
    + destruct (IH {| Supabase.supabaseInstance := Some c0;
                      Supabase.clients := S (Supabase.clients st) |} eq_refl)
        as [Hl Hn].
      split; [constructor; [exact I | exact Hl]|].
      rewrite Hn. cbn. lia.
    + destruct (IH st Hst) as [Hl Hn].
      split; [constructor; [cbn; reflexivity | exact Hl] | exact Hn].
    + destruct (IH st Hst) as [Hl Hn].
      split; [constructor; [cbn; reflexivity | exact Hl] | exact Hn].
Qed.

Lemma calls_without_instance (env : Supabase.Env) :
  Supabase.isSupabaseConfigured env = true ->
  forall cs st,
    Supabase.supabaseInstance st = None ->
    (exists c, Forall (Expected.hands_out c) (fst (Supabase.calls env st cs))) /\
    Supabase.clients (snd (Supabase.calls env st cs))
    <= S (Supabase.clients st + List.length (List.filter Expected.is_createClient cs)).
Proof.
  intros Hc. induction cs as [|c cs IH]; intros st Hst.
  - split; [exists None; constructor | cbn; lia].
  - rewrite calls_cons. cbn [fst snd].
    destruct c; unfold Supabase.call, Supabase.getDb; unfold Supabase.getSupabase;
      unfold Supabase.createClient; rewrite ?Hc, ?Hst; cbn [negb fst snd List.filter
        Expected.is_createClient Supabase.clients].
    + destruct (IH {| Supabase.supabaseInstance := None;
                      Supabase.clients := S (Supabase.clients st) |} eq_refl)
        as [(c & Hl) Hn].
      split; [exists c; constructor; [exact I | exact Hl]|].
      cbn in Hn |- *. lia.
    + destruct (calls_with_instance env (Supabase.clients st) Hc cs
                  {| Supabase.supabaseInstance := Some (Supabase.clients st);
                     Supabase.clients := S (Supabase.clients st) |} eq_refl)
        as [Hl Hn].
      split; [exists (Some (Supabase.clients st)); constructor; [cbn; reflexivity | exact Hl]|].
      rewrite Hn. cbn. lia.
    + destruct (calls_with_instance env (Supabase.clients st) Hc cs
                  {| Supabase.supabaseInstance := Some (Supabase.clients st);
                     Supabase.clients := S (Supabase.clients st) |} eq_refl)
        as [Hl Hn].
      split; [exists (Some (Supabase.clients st)); constructor; [cbn; reflexivity | exact Hl]|].
      rewrite Hn. cbn. lia.
Qed.

(** One shared client.  In every sequence of calls, all the calls of
    [getSupabase] and all the successful calls of [getDb] return the same
    client, however many other clients [createClient] is asked for in
    between, and [getSupabase] has at most one client made: the number of
    clients made is at most one more than the calls of [createClient].
    When Supabase is not configured, what [getSupabase] returns is [null]
    throughout. *)
Theorem getSupabase_hands_out_one_client :
  forall env cs,
    (exists c,
       Forall (Expected.hands_out c)
         (fst (Supabase.calls env Supabase.initialState cs))) /\
    Supabase.clients (snd (Supabase.calls env Supabase.initialState cs))
    <= S (List.length (List.filter Expected.is_createClient cs)) /\
    (Supabase.isSupabaseConfigured env = false ->
     Forall (Expected.hands_out None)
       (fst (Supabase.calls env Supabase.initialState cs))).
Proof.
  intros env cs. destruct (Supabase.isSupabaseConfigured env) eqn:Hc.
  - destruct (calls_without_instance env Hc cs Supabase.initialState eq_refl)
      as [Hone Hn].
    split; [exact Hone|]. split; [exact Hn|]. discriminate.
  - destruct (calls_unconfigured env Hc cs Supabase.initialState) as [Hl Hs].
    split; [exists None; exact Hl|]. split; [rewrite Hs; cbn; lia|].
    intros _. exact Hl.
Qed.

(** [getDb] never hands out [null].  Whatever the state of the module, it
    returns a client when Supabase is configured, and otherwise throws the
    error that names the two missing settings; the [null] that
    [getSupabase] and [createClient] return for a missing configuration
    does not reach the database functions. *)
Theorem getDb_returns_a_client_or_throws :
  forall env st,
    match fst (Supabase.getDb env st) with
    | Ok (Some _) => Supabase.isSupabaseConfigured env = true
    | Ok None => False
    | Throw e =>
        Supabase.isSupabaseConfigured env = false /\
        exn_kind e = PlainError /\
        JsString.startsWith (exn_message e) "Supabase is not configured" = true
    end.
Proof.
  intros env st. unfold Supabase.getDb, Supabase.getSupabase, Supabase.createClient.
  destruct (Supabase.isSupabaseConfigured env) eqn:Hc; cbn [negb].
  - destruct (Supabase.supabaseInstance st); reflexivity.
  - repeat split.
Qed.

Lemma persistence_failure_does_not_block_witness :
  nth_error (Hook.invocations Sample.world_creating_query) 0
  = Some Sample.activation_creating_query /\
  Hook.requests Sample.world_creating_query = [] /\
  Hook.requests
    (Hook.resume Sample.Number_toString 0
       (Hook.QueryCreated (Throw (JsError PlainError "connection lost")))
       (Sample.ambient "b") Sample.world_creating_query)
  = [Sample.posted "Topic A"] /\
  Hook.phase
    (Hook.state
       (Hook.resume Sample.Number_toString 0
          (Hook.QueryCreated (Throw (JsError PlainError "connection lost")))
          (Sample.ambient "b") Sample.world_creating_query))
  = Phase.researching.
Proof.
  split; [reflexivity|]. split; [reflexivity|].
  destruct (persistence_failure_does_not_block Sample.Number_toString
              Sample.world_creating_query 0 Sample.activation_creating_query
              (Sample.ambient "b") (JsError PlainError "connection lost")
              eq_refl eq_refl)
    as (Hreq & _ & Hphase & _).
  split; [exact Hreq | exact Hphase].
Defined.

Lemma signed_out_progress_follows_the_script_witness :
  exists k,
    List.map Expected.shown
      (Hook.progressUpdates
         (Hook.state (Hook.run Sample.Number_toString Hook.initialWorld
                        Sample.before_reset)))
    = List.firstn k Hook.progressSteps.
Proof.
  apply (signed_out_progress_follows_the_script Sample.Number_toString
           Sample.before_reset);
    repeat constructor.
Defined.

Lemma simulated_reset_cancels_the_research_witness :
  Simulation.state
    (Simulation.run Sample.bare_report
       (Simulation.reset
          (Simulation.run Sample.bare_report Simulation.initialWorld
             Sample.simulated_before_reset))
       Sample.simulated_after_reset)
  = Hook.initialState.
Proof.
  apply (simulated_reset_cancels_the_research Sample.bare_report
           Sample.simulated_before_reset Sample.simulated_after_reset);
    repeat constructor.
Defined.

Lemma simulated_completion_counts_4_to_12_witness :
  4 <= Hook.sourcesAnalyzed
         (Simulation.state
            (Simulation.run Sample.bare_report Simulation.initialWorld
               Sample.simulated_to_completion)) <= 12.
Proof.
  apply (simulated_completion_counts_4_to_12 Sample.bare_report
           Sample.simulated_to_completion).
  vm_compute. reflexivity.
Defined.

Lemma calls_in_turn_keep_report_with_question_witness :
  Expected.taking_turns Sample.Number_toString Hook.initialWorld
    Sample.follow_up_answered /\
  forall r,
    Hook.currentReport
      (Hook.state (Hook.run Sample.Number_toString Hook.initialWorld
                     Sample.follow_up_answered)) = Some r ->
    exists q,
      Hook.currentQuestion
        (Hook.state (Hook.run Sample.Number_toString Hook.initialWorld
                       Sample.follow_up_answered)) = Some q /\
      Hook.question r = Hook.text q.
Proof.
  assert (H : Expected.taking_turns Sample.Number_toString Hook.initialWorld
                Sample.follow_up_answered).
  { unfold Sample.follow_up_answered.
    cbn [Expected.taking_turns snd Expected.in_turn].
    repeat split; intro H0; vm_compute in H0; discriminate H0. }
  split; [exact H|].
  exact (calls_in_turn_keep_report_with_question Sample.Number_toString
           Sample.follow_up_answered H).
Defined.

Lemma calls_in_turn_leave_nothing_pending_witness :
  Forall Expected.finished
    (Hook.invocations (Hook.run Sample.Number_toString Hook.initialWorld
                         Sample.follow_up_answered)) /\
  Hook.intervals (Hook.run Sample.Number_toString Hook.initialWorld
                    Sample.follow_up_answered) = [].
Proof.
  apply (calls_in_turn_leave_nothing_pending Sample.Number_toString
           Sample.follow_up_answered).
  - unfold Sample.follow_up_answered.
    cbn [Expected.taking_turns snd Expected.in_turn].
    repeat split; intro H0; vm_compute in H0; discriminate H0.
  - intro H0. vm_compute in H0. discriminate H0.
Defined.

(* ================================================================= *)
(** * Saving a report *)

(** The citations of a saved report are numbered like its sources.  When
    the report that the hook built from the route's answer is saved,
    whatever the Supabase client answers, [saveResearchReport] inserts the
    report row first and the citations at most once, never an empty list of
    them; the citations inserted are as many as the sources of the route's
    report, in their order, and the [i]-th (from 0) has the citation number
    [i + 1]. *)
Theorem saved_citations_are_numbered_like_sources :
  forall (JSON_parse : string -> result value) routeEnv a q raw r rep
         insertReport insertCitations env st queryId rows,
    Route.normalize JSON_parse routeEnv raw = Ok r ->
    Hook.toReport a q (Route.report_to_value r) = Ok rep ->
    In (Database.IntoCitations rows)
      (snd (fst (Database.saveResearchReport insertReport insertCitations
                   env st queryId rep))) ->
    (exists row,
        snd (fst (Database.saveResearchReport insertReport insertCitations
                    env st queryId rep))
        = [Database.IntoReports row; Database.IntoCitations rows]) /\
    rows <> [] /\
    List.length rows = List.length (Route.sources r) /\
    forall i c,
      nth_error rows i = Some c ->
      Database.citation_number c = Js.number_of_nat (i + 1).
Proof.
  intros JSON_parse routeEnv a q raw r rep insertReport insertCitations env st
    queryId rows Hr Hrep Hin.
  pose proof (toReport_sources _ _ _ _ Hrep) as Hm.
  destruct (mapi_from_spec _ _ _ _ Hm) as [Hlen Hnth].
  rewrite List.length_map in Hlen.
  assert (Hid : forall i s, nth_error (Hook.sources rep) i = Some s ->
                            Hook.src_id s = Js.number_of_nat (i + 1)).
  { intros i s Hi. destruct (Hnth i s Hi) as (x & Hx & Hs).
    rewrite List.nth_error_map in Hx.
    destruct (nth_error (Route.sources r) i) as [s'|]; [|discriminate Hx].
    injection Hx as <-. exact (toSource_of_route _ _ _ _ Hs). }
  unfold Database.saveResearchReport in Hin |- *.
  destruct (Supabase.getDb env st) as [[[client|]|e] st'];
    cbn [fst snd] in Hin |- *; try (destruct Hin; fail).
  destruct (Database.error (insertReport _)) as [reportError|];
    cbn [fst snd] in Hin |- *;
    [destruct Hin as [Hin|[]]; discriminate Hin|].
  destruct (Hook.sources rep) as [|s0 rest] eqn:Hsources;
    cbn [fst snd] in Hin |- *;
    [destruct Hin as [Hin|[]]; discriminate Hin|].
  destruct (Js.get (Database.data (insertReport _)) "id") as [reportId|e];
    cbn [fst snd] in Hin |- *;
    [|destruct Hin as [Hin|[]]; discriminate Hin].
  assert (Hrows : rows
                  = List.map
                      (fun source =>
                         {| Database.report_id := reportId;
                            Database.citation_number := Hook.src_id source;
                            Database.source_title := Hook.src_title source;
                            Database.url := Hook.src_url source;
                            Database.author := Hook.src_author source;
                            Database.publication_date := Hook.src_publishedDate source;
                            Database.source_type := Hook.src_type source |})
                      (s0 :: rest)).
  { destruct (insertCitations _); cbn [fst snd] in Hin;
      (destruct Hin as [Hin|[Hin|[]]]; [discriminate Hin|]);
      injection Hin as <-; reflexivity. }
  split.
  { destruct (insertCitations _); cbn [fst snd]; eexists; rewrite Hrows; reflexivity. }
  split; [rewrite Hrows; discriminate|].
  split; [rewrite Hrows, List.length_map; exact Hlen|].
  intros i c Hc. rewrite Hrows, List.nth_error_map in Hc.
  destruct (nth_error (s0 :: rest) i) as [s|] eqn:Hs; [|discriminate Hc].
  injection Hc as <-. cbn [Database.citation_number]. exact (Hid i s Hs).
Qed.

Lemma saved_citations_are_numbered_like_sources_witness :
  exists r rep rows,
    Route.normalize JsonText.parse Sample.env Sample.with_ids = Ok r /\
    Hook.toReport (Sample.ambient "t") "What are EV battery trends?"
      (Route.report_to_value r) = Ok rep /\
    List.map Database.citation_number rows = [1; 2; 3]%float /\
    (exists row,
        snd (fst (Database.saveResearchReport Sample.report_inserted
                    Sample.citations_inserted Sample.supabase_env
                    Supabase.initialState "query-1" rep))
        = [Database.IntoReports row; Database.IntoCitations rows]) /\
    rows <> [] /\
    List.length rows = List.length (Route.sources r) /\
    forall i c,
      nth_error rows i = Some c ->
      Database.citation_number c = Js.number_of_nat (i + 1).
Proof.
  eexists. eexists. eexists.
  split; [vm_compute; reflexivity|].
  split; [vm_compute; reflexivity|].
  split; [|apply (saved_citations_are_numbered_like_sources JsonText.parse Sample.env
                    (Sample.ambient "t") "What are EV battery trends?" Sample.with_ids);
           [vm_compute; reflexivity | vm_compute; reflexivity
           | vm_compute; right; left; reflexivity]].
  vm_compute. reflexivity.
Defined.

Lemma signed_out_requests_are_the_questions_asked_witness :
  Hook.requests (Hook.run Sample.Number_toString Hook.initialWorld
                   Sample.follow_up_answered)
  = List.map Expected.standard_request (Expected.asked Sample.follow_up_answered).
Proof.
  apply (signed_out_requests_are_the_questions_asked Sample.Number_toString
           Sample.follow_up_answered);
    repeat constructor.
Defined.

